(** * xtractor-backend: the Express relay between Polar and Clerk

    A shallow embedding of [src/index.js] (the second variant of the
    service) and of [src/unnamed/part_000] (the first variant), together
    with the properties of the HTTP handlers.

    JavaScript values are an inductive type, objects are finite maps from
    property names to values, and a handler is a function in a small
    state-and-exception monad over a [World] that holds the two external
    providers, the record of the calls made to them, and the console. *)

From Stdlib Require Import QArith Qcanon Ascii String.
From stdpp Require Import gmap strings list fin_maps pretty.

Set Default Proof Using "Type".

(* ===================================================================== *)
(** * JavaScript values and operators *)
(* ===================================================================== *)

(** Numbers are exact rationals plus [NaN]; the rounding of IEEE doubles
    is not represented. *)
Inductive JsNumber :=
| Fin (q : Qc)
| NaN.

#[warnings="-register-all"]
Inductive JsVal :=
| JUndefined
| JNull
| JBool (b : bool)
| JNum (n : JsNumber)
| JStr (s : string)
| JArr (l : list JsVal)
| JObj (o : gmap string JsVal).

(** A thrown value, with what the handlers ask of it:
    [error instanceof WebhookVerificationError], [error.name],
    [error.message] and [error.response]. *)
Record JsError := {
  instanceof_WebhookVerificationError : bool;
  error_name : string;
  error_message : string;
  error_response : JsVal;
}.

Inductive Outcome (A : Type) :=
| Returned (a : A)
| Thrown (e : JsError).
Arguments Returned {A} a.
Arguments Thrown {A} e.

Module Js.

Definition num (z : Z) : JsNumber := Fin (Q2Qc (inject_Z z)).

Definition TypeError (msg : string) : JsError :=
  {| instanceof_WebhookVerificationError := false;
     error_name := "TypeError";
     error_message := msg;
     error_response := JUndefined |}.

(** ToBoolean. *)
Definition truthy (v : JsVal) : bool :=
  match v with
  | JUndefined | JNull => false
  | JBool b => b
  | JNum (Fin q) => negb (bool_decide (q = Q2Qc 0))
  | JNum NaN => false
  | JStr s => negb (bool_decide (s = ""))
  | JArr _ | JObj _ => true
  end.

Definition nullish (v : JsVal) : bool :=
  match v with
  | JUndefined | JNull => true
  | _ => false
  end.

(** [a || b] and [a ?? b]. *)
Definition or (a b : JsVal) : JsVal := if truthy a then a else b.
Definition coalesce (a b : JsVal) : JsVal := if nullish a then b else a.

(** [v.k] for the property names the handlers read.  None of them is an
    index, [length] or a member of a built-in prototype, so on a
    primitive or an array the result is [undefined]; on [null] and
    [undefined] the access throws. *)
Definition prop (v : JsVal) (k : string) : Outcome JsVal :=
  match v with
  | JUndefined | JNull =>
      Thrown (TypeError ("Cannot read properties of null or undefined, reading " ++ k))
  | JObj o => Returned (default JUndefined (o !! k))
  | _ => Returned JUndefined
  end.

(** [v?.k] *)
Definition opt_prop (v : JsVal) (k : string) : JsVal :=
  match v with
  | JObj o => default JUndefined (o !! k)
  | _ => JUndefined
  end.

Fixpoint chars (s : string) : list JsVal :=
  match s with
  | EmptyString => []
  | String c s' => JStr (String c EmptyString) :: chars s'
  end.

Definition indexed (l : list JsVal) : gmap string JsVal :=
  list_to_map (imap (fun i v => (pretty i, v)) l).

(** The own enumerable properties of a value: what [{...v}] copies and
    what [Object.keys(v)] lists. *)
Definition own_props (v : JsVal) : gmap string JsVal :=
  match v with
  | JObj o => o
  | JArr l => indexed l
  | JStr s => indexed (chars s)
  | _ => ∅
  end.

(** [Object.keys(v).length], for a [v] that is not null or undefined. *)
Definition Object_keys_length (v : JsVal) : nat := size (own_props v).

(** [a === b] where one side is known to be a primitive: two distinct
    objects are never identical, and [NaN] equals nothing. *)
Definition strict_eq (a b : JsVal) : bool :=
  match a, b with
  | JUndefined, JUndefined => true
  | JNull, JNull => true
  | JBool x, JBool y => bool_decide (x = y)
  | JNum (Fin x), JNum (Fin y) => bool_decide (x = y)
  | JStr x, JStr y => bool_decide (x = y)
  | _, _ => false
  end.

(** [n / d] for a positive integer literal [d]. *)
Definition div (n : JsNumber) (d : positive) : JsNumber :=
  match n with
  | Fin q => Fin (q / Q2Qc (inject_Z (Zpos d)))
  | NaN => NaN
  end.

(** [toUpperCase] and [toLowerCase] on the ASCII letters; other bytes are
    left as they are. *)
Definition upper (c : ascii) : ascii :=
  let n := nat_of_ascii c in
  if (97 <=? n)%nat && (n <=? 122)%nat then ascii_of_nat (n - 32) else c.

Definition lower (c : ascii) : ascii :=
  let n := nat_of_ascii c in
  if (65 <=? n)%nat && (n <=? 90)%nat then ascii_of_nat (n + 32) else c.

Fixpoint map_string (f : ascii -> ascii) (s : string) : string :=
  match s with
  | EmptyString => EmptyString
  | String c s' => String (f c) (map_string f s')
  end.

Definition toUpperCase : string -> string := map_string upper.
Definition toLowerCase : string -> string := map_string lower.

(** [s.includes(t)] *)
Fixpoint includes (s t : string) : bool :=
  String.prefix t s ||
  match s with
  | EmptyString => false
  | String _ s' => includes s' t
  end.

(** [v.toUpperCase()]: a method of strings only. *)
Definition call_toUpperCase (v : JsVal) : Outcome string :=
  match v with
  | JStr s => Returned (toUpperCase s)
  | _ => Thrown (TypeError "toUpperCase is not a function")
  end.

(** A template literal slot filled from [process.env]. *)
Definition env_slot (o : option string) : string := default "undefined" o.

End Js.

(* ===================================================================== *)
(** * The world outside the process *)
(* ===================================================================== *)

(** The raw request body that [express.raw] hands to the webhook route. *)
Definition Buffer := string.
Definition Headers := list (string * string).

(** ** Console *)

Inductive Level := LevelLog | LevelError | LevelWarn.

(** One argument of a [console] call.  A template literal keeps its parts,
    and [JSON.stringify] keeps its operand, so no value has to be rendered
    as text. *)
#[warnings="-register-all"]
Inductive LogArg :=
| AStr (s : string)
| AVal (v : JsVal)
| ATemplate (parts : list LogArg)
| AJson (v : JsVal)
| AErr (e : JsError)
| ABuf (b : Buffer).

Record LogEntry := { level : Level; args : list LogArg }.

(** ** Products as the payments SDK types them *)

Record Benefit := { benefit_description : string }.

(** [prices] holds whatever price objects the provider lists; the handler
    reads them defensively, so they stay untyped. *)
Record Product := {
  item_id : string;
  item_name : string;
  item_description : JsVal;
  item_prices : option (list JsVal);
  item_benefits : option (list Benefit);
}.

Record ListResult := { items : option (list Product) }.
Record ListResponse := { result : option ListResult }.

(** ** Calls to the providers *)

Inductive Call :=
| PolarCheckoutsGet (id : JsVal)
| PolarCheckoutsCreate (options : gmap string JsVal)
| PolarCustomerSessionsCreate (customerId : JsVal)
| PolarProductsList (isRecurring isArchived : bool)
| ClerkUsersGetUser (userId : JsVal)
| ClerkUsersUpdateUserMetadata (userId : JsVal) (publicMetadata : gmap string JsVal).

(** ** World

    [clerk_users] is the Identity Provider's store: user objects by id.
    [polar_checkouts] is the Payments Provider's set of checkout sessions.
    The three [polar_*] answers that follow are what the Payments Provider
    would send back to a create or list call.  [faults n] makes the [n]-th
    provider call of the request throw (a network error, a provider-side
    validation error).  [calls] and [console] record, oldest first, what
    the process did. *)
Record World := {
  clerk_users : gmap string (gmap string JsVal);
  polar_checkouts : gmap string JsVal;
  polar_created : gmap string JsVal -> JsVal;
  polar_customer_session : JsVal -> JsVal;
  polar_products : ListResponse;
  faults : nat -> option JsError;
  calls : list Call;
  console : list LogEntry;
}.

Definition with_console (w : World) (e : LogEntry) : World :=
  {| clerk_users := clerk_users w;
     polar_checkouts := polar_checkouts w;
     polar_created := polar_created w;
     polar_customer_session := polar_customer_session w;
     polar_products := polar_products w;
     faults := faults w;
     calls := calls w;
     console := console w ++ [e] |}.

Definition with_call (w : World) (c : Call) : World :=
  {| clerk_users := clerk_users w;
     polar_checkouts := polar_checkouts w;
     polar_created := polar_created w;
     polar_customer_session := polar_customer_session w;
     polar_products := polar_products w;
     faults := faults w;
     calls := calls w ++ [c];
     console := console w |}.

Definition with_users (w : World) (u : gmap string (gmap string JsVal)) : World :=
  {| clerk_users := u;
     polar_checkouts := polar_checkouts w;
     polar_created := polar_created w;
     polar_customer_session := polar_customer_session w;
     polar_products := polar_products w;
     faults := faults w;
     calls := calls w;
     console := console w |}.

(* ===================================================================== *)
(** * The handler monad: state and exceptions *)
(* ===================================================================== *)

Definition M (A : Type) : Type := World -> Outcome A * World.

Definition ret {A} (a : A) : M A := fun w => (Returned a, w).

Definition throw {A} (e : JsError) : M A := fun w => (Thrown e, w).

Definition bind {A B} (m : M A) (k : A -> M B) : M B :=
  fun w =>
    match m w with
    | (Returned a, w') => k a w'
    | (Thrown e, w') => (Thrown e, w')
    end.

(** [try { m } catch (error) { h error }] *)
Definition try_catch {A} (m : M A) (h : JsError -> M A) : M A :=
  fun w =>
    match m w with
    | (Returned a, w') => (Returned a, w')
    | (Thrown e, w') => h e w'
    end.

(** A pure computation that may throw. *)
Definition lift {A} (o : Outcome A) : M A := fun w => (o, w).

Declare Scope js_scope.
Delimit Scope js_scope with js.
Notation "'let*' x ':=' m 'in' k" := (bind m (fun x => k))
  (at level 10, x name, m at level 100, k at level 200) : js_scope.
Notation "m '>>>' k" := (bind m (fun _ => k))
  (at level 90, right associativity) : js_scope.
Open Scope js_scope.

Definition console_write (l : Level) (a : list LogArg) : M unit :=
  fun w => (Returned tt, with_console w {| level := l; args := a |}).

Definition console_log := console_write LevelLog.
Definition console_error := console_write LevelError.
Definition console_warn := console_write LevelWarn.

(** ** Provider operations *)

Definition ResourceNotFound : JsError :=
  {| instanceof_WebhookVerificationError := false;
     error_name := "ResourceNotFound";
     error_message := "Not found";
     error_response := JUndefined |}.

(** Every provider call is recorded, and throws when the world says that
    this call of the request fails. *)
Definition provider_call {A} (c : Call) (answer : M A) : M A :=
  fun w =>
    let w1 := with_call w c in
    match faults w (length (calls w)) with
    | Some e => (Thrown e, w1)
    | None => answer w1
    end.

(** A provider looks its resources up by string id; any other value names
    nothing. *)
Definition find_by_id {V} (store : gmap string V) (id : JsVal) : option V :=
  match id with
  | JStr s => store !! s
  | _ => None
  end.

(** [polar.checkouts.get({ id })] *)
Definition polar_checkouts_get (id : JsVal) : M JsVal :=
  provider_call (PolarCheckoutsGet id)
    (fun w =>
       match find_by_id (polar_checkouts w) id with
       | Some checkout => (Returned checkout, w)
       | None => (Thrown ResourceNotFound, w)
       end).

(** [polar.checkouts.create(options)] *)
Definition polar_checkouts_create (options : gmap string JsVal) : M JsVal :=
  provider_call (PolarCheckoutsCreate options)
    (fun w => (Returned (polar_created w options), w)).

(** [polar.customerSessions.create({ customerId })] *)
Definition polar_customerSessions_create (customerId : JsVal) : M JsVal :=
  provider_call (PolarCustomerSessionsCreate customerId)
    (fun w => (Returned (polar_customer_session w customerId), w)).

(** [polar.products.list({ isRecurring, isArchived })] *)
Definition polar_products_list (isRecurring isArchived : bool) : M ListResponse :=
  provider_call (PolarProductsList isRecurring isArchived)
    (fun w => (Returned (polar_products w), w)).

(** [clerkClient.users.getUser(userId)] *)
Definition clerkClient_users_getUser (userId : JsVal) : M JsVal :=
  provider_call (ClerkUsersGetUser userId)
    (fun w =>
       match find_by_id (clerk_users w) userId with
       | Some user => (Returned (JObj user), w)
       | None => (Thrown ResourceNotFound, w)
       end).

(** Modelled from the spec: the Identity Provider's handling of a metadata
    update, which lives in the provider and not in this repository.  The
    data model says that user metadata is "read and overwritten wholesale
    by this system", so the update replaces the stored [publicMetadata] of
    the named user by the one sent.

    [clerkClient.users.updateUserMetadata(userId, { publicMetadata })] *)
Definition clerkClient_users_updateUserMetadata
    (userId : JsVal) (publicMetadata : gmap string JsVal) : M unit :=
  provider_call (ClerkUsersUpdateUserMetadata userId publicMetadata)
    (fun w =>
       match userId, find_by_id (clerk_users w) userId with
       | JStr s, Some user =>
           (Returned tt,
            with_users w (<[s := <["publicMetadata" := JObj publicMetadata]> user]> (clerk_users w)))
       | _, _ => (Thrown ResourceNotFound, w)
       end).

(** The metadata the Identity Provider holds for a user. *)
Definition stored_metadata (w : World) (userId : string) : option JsVal :=
  clerk_users w !! userId ≫= (.!! "publicMetadata").

(* ===================================================================== *)
(** * Requests and responses *)
(* ===================================================================== *)

(** [process.env], as far as the handlers read it. *)
Record ProcessEnv := {
  FRONTEND_URL : option string;
  POLAR_WEBHOOK_SECRET : option string;
}.

(** An Express request after the route's body parser ([express.raw] gives a
    [Buffer], [express.json] a parsed value) and after [clerkMiddleware],
    which leaves the identity it read from the bearer token, if any. *)
Record Request (B : Type) := {
  body : B;
  headers : Headers;
  auth_userId : option string;
}.
Arguments body {B} r.
Arguments headers {B} r.
Arguments auth_userId {B} r.

(** [const { userId } = getAuth(req)] *)
Definition getAuth {B} (req : Request B) : JsVal :=
  match auth_userId req with
  | Some s => JStr s
  | None => JNull
  end.

Inductive Payload :=
| Send (text : string)
| Json (v : JsVal).

Record Response := { status : nat; payload : Payload }.

(** [res.status(n).send(s)], [res.status(n).json(v)], [res.json(v)] *)
Definition res_status_send (n : nat) (s : string) : Response :=
  {| status := n; payload := Send s |}.
Definition res_status_json (n : nat) (v : JsVal) : Response :=
  {| status := n; payload := Json v |}.
Definition res_json (v : JsVal) : Response := res_status_json 200 v.

(** What [validateEvent] returns once the signature is good. *)
Record Event := { type : string; data : JsVal }.

Definition Unauthorized : Response :=
  res_status_json 401 (JObj {[ "error" := JStr "Unauthorized: No userId found" ]}).

(* ===================================================================== *)
(** * The handlers *)
(* ===================================================================== *)

Section Handlers.

Variable env : ProcessEnv.

(** [validateEvent(body, headers, secret)] of the payments SDK: the
    event, or the error it throws ([WebhookVerificationError] when the
    signature is bad). *)
Variable validateEvent : Buffer -> Headers -> option string -> Outcome Event.

(** ECMAScript's ToNumber on strings, arrays and objects. *)
Variable ToNumber_text : JsVal -> JsNumber.

(** ** POST /webhook *)

(** [src/index.js] 46-73: the [subscription.active] branch. *)
Definition on_subscription_active (event : Event) : M unit :=
  if bool_decide (type event = "subscription.active") then
    let subscription := data event in
    let* checkoutId := lift (Js.prop subscription "checkoutId") in
    if Js.truthy checkoutId then
      console_log [ATemplate [AStr "Fetching checkout data for ID: "; AVal checkoutId; AStr "..."]] >>>
      let* checkout := polar_checkouts_get checkoutId in
      let* customerMetadata := lift (Js.prop checkout "customerMetadata") in
      let clerkUserId := Js.opt_prop customerMetadata "clerk_user_id" in
      if Js.truthy clerkUserId then
        let* subscription_id := lift (Js.prop subscription "id") in
        console_log [ATemplate [AStr "✅ Verified User! Linking Subscription "; AVal subscription_id;
                                AStr " to Clerk User "; AVal clerkUserId]] >>>
        let* subscription_customerId := lift (Js.prop subscription "customerId") in
        clerkClient_users_updateUserMetadata clerkUserId
          (<["status" := JStr "active"]> $
           <["plan" := JStr "pro"]> $
           <["customerId" := subscription_customerId]> $
           <["subscriptionId" := subscription_id]> ∅) >>>
        console_log [AStr "Clerk user metadata updated successfully."]
      else
        console_error [AStr "❌ No clerk_user_id found in checkout metadata."]
    else ret tt
  else ret tt.

(** [src/index.js] 75-108: the [subscription.revoked] branch. *)
Definition on_subscription_revoked (event : Event) : M unit :=
  if bool_decide (type event = "subscription.revoked") then
    let subscription := data event in
    let* checkoutId := lift (Js.prop subscription "checkoutId") in
    if Js.truthy checkoutId then
      console_log [ATemplate [AStr "Fetching checkout data for ID: "; AVal checkoutId; AStr "..."]] >>>
      let* checkout := polar_checkouts_get checkoutId in
      let* customerMetadata := lift (Js.prop checkout "customerMetadata") in
      let clerkUserId := Js.opt_prop customerMetadata "clerk_user_id" in
      if Js.truthy clerkUserId then
        let* subscription_id := lift (Js.prop subscription "id") in
        console_log [ATemplate [AStr "✅ Verified User! Updating Subscription "; AVal subscription_id;
                                AStr " for Clerk User "; AVal clerkUserId]] >>>
        let* user := clerkClient_users_getUser clerkUserId in
        let* user_publicMetadata := lift (Js.prop user "publicMetadata") in
        let currentMetadata := Js.or user_publicMetadata (JObj ∅) in
        let* currentMetadata_subscriptionId := lift (Js.prop currentMetadata "subscriptionId") in
        let* subscription_customerId := lift (Js.prop subscription "customerId") in
        clerkClient_users_updateUserMetadata clerkUserId
          (<["status" := JStr "revoked"]> $
           <["plan" := JStr "free"]> $
           <["customerId" := subscription_customerId]> $
           <["subscriptionId" := Js.or currentMetadata_subscriptionId subscription_id]> $
           Js.own_props currentMetadata) >>>
        console_log [AStr "Clerk user metadata updated successfully."]
      else
        console_error [AStr "❌ No clerk_user_id found in checkout metadata."]
    else
      console_error [AStr "❌ No checkoutId found in subscription data."]
  else ret tt.

(** [src/index.js] 112-120, the same in both variants. *)
Definition webhook_catch (error : JsError) : M Response :=
  if instanceof_WebhookVerificationError error then
    console_error [AStr "Webhook verification failed:"; AErr error] >>>
    ret (res_status_send 403 "")
  else
    console_error [AStr "Webhook processing error:"; AErr error] >>>
    ret (res_status_send 500 "Internal Server Error").

(** What the [try] block does once [validateEvent] has returned. *)
Definition process_event (event : Event) : M Response :=
  console_log [ATemplate [AStr "Received event: "; AStr (type event)]] >>>
  on_subscription_active event >>>
  on_subscription_revoked event >>>
  ret (res_status_send 202 "").

(** [src/index.js] 40-121. *)
Definition post_webhook (req : Request Buffer) : M Response :=
  try_catch
    (let* event := lift (validateEvent (body req) (headers req) (POLAR_WEBHOOK_SECRET env)) in
     process_event event)
    webhook_catch.

(** The first variant, [src/unnamed/part_000] 40-86: it prints the raw
    body first and has no [subscription.revoked] branch. *)
Definition process_event_part_000 (event : Event) : M Response :=
  console_log [ATemplate [AStr "Received event: "; AStr (type event)]] >>>
  on_subscription_active event >>>
  ret (res_status_send 202 "").

Definition post_webhook_part_000 (req : Request Buffer) : M Response :=
  try_catch
    (console_log [ABuf (body req)] >>>
     let* event := lift (validateEvent (body req) (headers req) (POLAR_WEBHOOK_SECRET env)) in
     process_event_part_000 event)
    webhook_catch.

(** ** GET /test-auth *)

(** [src/index.js] 123-129. *)
Definition get_test_auth {B} (req : Request B) : M Response :=
  let userId := getAuth req in
  if negb (Js.truthy userId) then ret Unauthorized
  else ret (res_json (JObj {[ "userId" := userId ]})).

(** ** GET /api/create-portal-session *)

(** [src/index.js] 131-155. *)
Definition get_api_create_portal_session {B} (req : Request B) : M Response :=
  try_catch
    (let userId := getAuth req in
     if negb (Js.truthy userId) then ret Unauthorized
     else
       let* user := clerkClient_users_getUser userId in
       let* user_publicMetadata := lift (Js.prop user "publicMetadata") in
       let polarCustomerId := Js.opt_prop user_publicMetadata "customerId" in
       if negb (Js.truthy polarCustomerId) then
         ret (res_status_json 404
                (JObj {[ "error" := JStr "No active subscription found for this user." ]}))
       else
         let* session := polar_customerSessions_create polarCustomerId in
         let* session_customerPortalUrl := lift (Js.prop session "customerPortalUrl") in
         ret (res_json (JObj {[ "url" := session_customerPortalUrl ]})))
    (fun error =>
       console_error [AStr "Polar Error:"; AErr error] >>>
       ret (res_status_send 500 "Failed to generate portal session")).

(** ** POST /create-checkout *)

(** [src/index.js] 169-178: the options sent to the provider. *)
Definition checkoutOptions (req_body userId : JsVal) : Outcome (gmap string JsVal) :=
  match Js.prop req_body "customerMetadata", Js.prop req_body "customer_metadata" with
  | Returned req_body_customerMetadata, Returned req_body_customer_metadata =>
      let options :=
        <["customerMetadata" :=
            JObj (<["clerk_user_id" := userId]> $
                  Js.own_props (Js.or (Js.or req_body_customerMetadata
                                             req_body_customer_metadata)
                                      (JObj ∅)))]> $
        <["successUrl" :=
            JStr (Js.env_slot (FRONTEND_URL env)
                  ++ "/?payment=success&checkout_id={CHECKOUT_ID}")]> $
        Js.own_props req_body in
      Returned (delete "customer_metadata" options)
  | Thrown e, _ | _, Thrown e => Thrown e
  end.

(** [src/index.js] 190-197. *)
Definition create_checkout_catch (error : JsError) : M Response :=
  console_error [AStr "Error creating checkout session:"; AErr error] >>>
  if bool_decide (error_name error = "SDKValidationError") then
    ret (res_status_json 422
           (JObj (<["details" := JStr (error_message error)]>
                  {[ "error" := JStr "Input validation failed" ]})))
  else
    ret (res_status_json 500
           (JObj {[ "error" := JStr "Failed to create checkout session" ]})).

(** [src/index.js] 158: [!req.body || Object.keys(req.body).length === 0] *)
Definition body_missing_or_empty (req_body : JsVal) : bool :=
  negb (Js.truthy req_body) || (Js.Object_keys_length req_body =? 0)%nat.

(** [src/index.js] 157-198. *)
Definition post_create_checkout (req : Request JsVal) : M Response :=
  if body_missing_or_empty (body req) then
    ret (res_status_json 400 (JObj {[ "error" := JStr "Request body is missing or empty" ]}))
  else
    let userId := getAuth req in
    if negb (Js.truthy userId) then ret Unauthorized
    else
      try_catch
        (let* options := lift (checkoutOptions (body req) userId) in
         let* result := polar_checkouts_create options in
         let* result_customerMetadata := lift (Js.prop result "customerMetadata") in
         if Js.strict_eq (Js.opt_prop result_customerMetadata "clerk_user_id") userId then
           console_log [ATemplate [AStr "Checkout created successfully for Clerk User: ";
                                   AVal userId]] >>>
           ret (res_json result)
         else
           console_warn [AStr "Checkout created, but metadata verification failed."] >>>
           console_log [AStr "Result Metadata:"; AVal result_customerMetadata] >>>
           ret (res_status_json 201 result))
        create_checkout_catch.

(** ** GET /api/products *)

Record FormattedProduct := {
  id : string;
  name : string;
  description : JsVal;
  price : JsNumber;
  currency : string;
  features : list string;
  popular : bool;
}.

Definition formatted_json (p : FormattedProduct) : JsVal :=
  JObj (<["popular" := JBool (popular p)]> $
        <["features" := JArr (JStr <$> features p)]> $
        <["currency" := JStr (currency p)]> $
        <["price" := JNum (price p)]> $
        <["description" := description p]> $
        <["name" := JStr (name p)]> $
        <["id" := JStr (id p)]> ∅).

(** ToNumber, as [/] applies it to its left operand. *)
Definition ToNumber (v : JsVal) : JsNumber :=
  match v with
  | JNum n => n
  | JUndefined => NaN
  | JNull => Js.num 0
  | JBool b => Js.num (if b then 1 else 0)
  | _ => ToNumber_text v
  end.

(** [item.prices && item.prices.length > 0 ? item.prices[0] : null] *)
Definition priceData (item : Product) : JsVal :=
  match item_prices item with
  | Some prices =>
      if (0 <? length prices)%nat then default JUndefined (prices !! 0%nat) else JNull
  | None => JNull
  end.

(** [priceData?.price_amount ?? priceData?.priceAmount ?? 0] *)
Definition rawAmount (priceData : JsVal) : JsVal :=
  Js.coalesce (Js.coalesce (Js.opt_prop priceData "price_amount")
                           (Js.opt_prop priceData "priceAmount"))
              (JNum (Js.num 0)).

(** [priceData?.price_currency || priceData?.priceCurrency || "usd"] *)
Definition rawCurrency (priceData : JsVal) : JsVal :=
  Js.or (Js.or (Js.opt_prop priceData "price_currency")
               (Js.opt_prop priceData "priceCurrency"))
        (JStr "usd").

(** [src/index.js] 215-237: the body of the loop. *)
Definition format_product (item : Product) : M FormattedProduct :=
  let priceData := priceData item in
  console_log [ATemplate [AStr "Price structure for "; AStr (item_name item); AStr ":"];
               AJson priceData] >>>
  let price := Js.div (ToNumber (rawAmount priceData)) 100 in
  let* currency := lift (Js.call_toUpperCase (rawCurrency priceData)) in
  let features :=
    match item_benefits item with
    | Some benefits => benefit_description <$> benefits
    | None => []
    end in
  let isPopular := Js.includes (Js.toLowerCase (item_name item)) "pro" in
  ret {| id := item_id item;
         name := item_name item;
         description := Js.or (item_description item) (JStr "");
         price := price;
         currency := currency;
         features := features;
         popular := isPopular |}.

(** [for (const item of productsList) { ...; formattedProducts.push(...) }] *)
Fixpoint format_products (productsList : list Product) : M (list FormattedProduct) :=
  match productsList with
  | [] => ret []
  | item :: rest =>
      let* formatted := format_product item in
      let* others := format_products rest in
      ret (formatted :: others)
  end.

(** [response.result?.items || []] *)
Definition productsList (response : ListResponse) : list Product :=
  match result response with
  | Some r => default [] (items r)
  | None => []
  end.

(** [src/index.js] 200-250. *)
Definition get_api_products {B} (req : Request B) : M Response :=
  try_catch
    (console_log [AStr "Fetching products from Polar..."] >>>
     let* response := polar_products_list true false in
     let productsList := productsList response in
     console_log [ATemplate [AStr "Found ";
                             AVal (JNum (Js.num (Z.of_nat (length productsList))));
                             AStr " products."]] >>>
     let* formattedProducts := format_products productsList in
     ret (res_json (JObj {[ "products" := JArr (formatted_json <$> formattedProducts) ]})))
    (fun error =>
       console_error [AStr "Erro ao processar produtos:"; AErr error] >>>
       (if Js.truthy (error_response error)
        then console_error [AStr "Detalhes da resposta:"; AJson (error_response error)]
        else ret tt) >>>
       ret (res_status_json 500 (JObj {[ "error" := JStr "Falha ao carregar os produtos." ]}))).

End Handlers.

(* ===================================================================== *)
(** * Vocabulary of the properties *)
(* ===================================================================== *)

(** A request body that is missing or empty, in the words of the
    specification: nothing was parsed, or the parsed value is an object or
    an array without entries. *)
Inductive MissingOrEmpty : JsVal -> Prop :=
| body_undefined : MissingOrEmpty JUndefined
| body_null : MissingOrEmpty JNull
| body_empty_object : MissingOrEmpty (JObj ∅)
| body_empty_array : MissingOrEmpty (JArr []).

(** The caller metadata that [/create-checkout] picks from the body:
    [req.body.customerMetadata || req.body.customer_metadata || {}]. *)
Definition chosen_metadata (req_body : JsVal) : JsVal :=
  Js.or (Js.or (Js.opt_prop req_body "customerMetadata")
               (Js.opt_prop req_body "customer_metadata"))
        (JObj ∅).

(** A field that a price object does not have, and a field that is a
    string whenever the price object has it, as the provider types the
    currency. *)
Definition missing (priceData : JsVal) (k : string) : Prop :=
  Js.opt_prop priceData k = JUndefined.

Definition string_if_present (priceData : JsVal) (k : string) : Prop :=
  missing priceData k \/ exists s, Js.opt_prop priceData k = JStr s.

Definition currency_typed (item : Product) : Prop :=
  string_if_present (priceData item) "price_currency"
  /\ string_if_present (priceData item) "priceCurrency".

Definition price_structure (item : Product) : LogEntry :=
  {| level := LevelLog;
     args := [ATemplate [AStr "Price structure for "; AStr (item_name item); AStr ":"];
              AJson (priceData item)] |}.

(** Console entries that the properties name. *)
Definition received (event : Event) : LogEntry :=
  {| level := LevelLog;
     args := [ATemplate [AStr "Received event: "; AStr (type event)]] |}.

Definition processing_error (e : JsError) : LogEntry :=
  {| level := LevelError; args := [AStr "Webhook processing error:"; AErr e] |}.

Definition printed (b : Buffer) : LogEntry :=
  {| level := LevelLog; args := [ABuf b] |}.

(** The console is write-only: nothing a handler does depends on it.  Two
    worlds with the same providers and the same record of calls differ in
    the console only. *)
Record same_providers (w1 w2 : World) : Prop := {
  same_clerk_users : clerk_users w1 = clerk_users w2;
  same_polar_checkouts : polar_checkouts w1 = polar_checkouts w2;
  same_polar_created : polar_created w1 = polar_created w2;
  same_polar_customer_session : polar_customer_session w1 = polar_customer_session w2;
  same_polar_products : polar_products w1 = polar_products w2;
  same_faults : faults w1 = faults w2;
  same_calls : calls w1 = calls w2;
}.

(** A computation that takes such worlds to the same result, and again to
    worlds that differ in the console only. *)
Definition console_blind {A} (m : M A) : Prop :=
  forall w1 w2, same_providers w1 w2 ->
    (m w1).1 = (m w2).1 /\ same_providers (m w1).2 (m w2).2.

(* ===================================================================== *)
(** * Concrete requests and worlds *)
(* ===================================================================== *)

Module Examples.

Definition WebhookVerificationError : JsError :=
  {| instanceof_WebhookVerificationError := true;
     error_name := "WebhookVerificationError";
     error_message := "No matching signature found";
     error_response := JUndefined |}.

Definition NetworkError : JsError :=
  {| instanceof_WebhookVerificationError := false;
     error_name := "ConnectionError";
     error_message := "Unable to make request";
     error_response := JUndefined |}.

Definition env : ProcessEnv :=
  {| FRONTEND_URL := Some "https://app.example";
     POLAR_WEBHOOK_SECRET := Some "whsec" |}.

Definition subscription : JsVal :=
  JObj (<["checkoutId" := JStr "chk_1"]> $
        <["customerId" := JStr "cus_2"]> $
        <["id" := JStr "sub_2"]> ∅).

(** A stand-in for the SDK's verification: the signature header has to
    carry the secret, and the body names the event. *)
Definition validateEvent (b : Buffer) (h : Headers) (secret : option string)
  : Outcome Event :=
  if bool_decide (h = [("webhook-signature", default "" secret)]) then
    Returned {| type := b; data := subscription |}
  else Thrown WebhookVerificationError.

Definition ToNumber_text (v : JsVal) : JsNumber := NaN.

Definition signed (b : Buffer) : Request Buffer :=
  {| body := b; headers := [("webhook-signature", "whsec")]; auth_userId := None |}.

Definition forged (b : Buffer) : Request Buffer :=
  {| body := b; headers := [("webhook-signature", "guess")]; auth_userId := None |}.

Definition checkout : JsVal :=
  JObj (<["customerMetadata" := JObj {[ "clerk_user_id" := JStr "user_1" ]}]> $
        <["id" := JStr "chk_1"]> ∅).

Definition user : gmap string JsVal :=
  <["publicMetadata" := JObj (<["theme" := JStr "dark"]> $
                              <["subscriptionId" := JStr "sub_1"]> ∅)]> $
  <["id" := JStr "user_1"]> ∅.

Definition pro_plan : Product :=
  {| item_id := "prod_1";
     item_name := "Xtractor Pro";
     item_description := JNull;
     item_prices := Some [JObj {[ "id" := JStr "price_1" ]}];
     item_benefits := Some [ {| benefit_description := "Unlimited extractions" |} ] |}.

Definition world : World :=
  {| clerk_users := {[ "user_1" := user ]};
     polar_checkouts := {[ "chk_1" := checkout ]};
     polar_created := fun options => JObj (<["id" := JStr "chk_9"]> options);
     polar_customer_session :=
       fun _ => JObj {[ "customerPortalUrl" := JStr "https://polar.example/portal" ]};
     polar_products := {| result := Some {| items := Some [pro_plan] |} |};
     faults := fun _ => None;
     calls := [];
     console := [] |}.

(** The same world with the payments provider unreachable. *)
Definition world_down : World :=
  {| clerk_users := clerk_users world;
     polar_checkouts := polar_checkouts world;
     polar_created := polar_created world;
     polar_customer_session := polar_customer_session world;
     polar_products := polar_products world;
     faults := fun _ => Some NetworkError;
     calls := [];
     console := [] |}.

Definition anonymous (b : JsVal) : Request JsVal :=
  {| body := b; headers := []; auth_userId := None |}.

Definition as_user (u : string) (b : JsVal) : Request JsVal :=
  {| body := b; headers := [("authorization", "Bearer token")]; auth_userId := Some u |}.

Definition order : JsVal :=
  JObj (<["customer_metadata" := JObj (<["team" := JStr "blue"]> $
                                       <["clerk_user_id" := JStr "user_666"]> ∅)]> $
        <["products" := JArr [JStr "prod_1"]]> ∅).

Definition active_event : Event :=
  {| type := "subscription.active"; data := subscription |}.

Definition revoked_event : Event :=
  {| type := "subscription.revoked"; data := subscription |}.

End Examples.


(* ===================================================================== *)
(** * What a handler may do to the world *)
(* ===================================================================== *)

Definition is_metadata_update (c : Call) : bool :=
  match c with
  | ClerkUsersUpdateUserMetadata _ _ => true
  | _ => false
  end.

(** The provider calls that each endpoint has in its code. *)
Definition webhook_call (c : Call) : bool :=
  match c with
  | PolarCheckoutsGet _ | ClerkUsersGetUser _ | ClerkUsersUpdateUserMetadata _ _ => true
  | _ => false
  end.

Definition webhook_part_000_call (c : Call) : bool :=
  match c with
  | PolarCheckoutsGet _ | ClerkUsersUpdateUserMetadata _ _ => true
  | _ => false
  end.

Definition portal_call (c : Call) : bool :=
  match c with
  | ClerkUsersGetUser _ | PolarCustomerSessionsCreate _ => true
  | _ => false
  end.

Definition checkout_call (c : Call) : bool :=
  match c with
  | PolarCheckoutsCreate _ => true
  | _ => false
  end.

Definition products_call (c : Call) : bool :=
  match c with
  | PolarProductsList true false => true
  | _ => false
  end.

Definition no_call (c : Call) : bool := false.

(** A stored user before and after: there before and after, or absent
    before and after, and the same outside [publicMetadata]. *)
Definition same_but_metadata (u u' : option (gmap string JsVal)) : Prop :=
  match u, u' with
  | Some user, Some user' => forall k, k ≠ "publicMetadata" -> user' !! k = user !! k
  | None, None => True
  | _, _ => False
  end.

(** [evolves K w w']: from [w] to [w'] the answers of the payments
    provider and the faults are the same, the record of calls has grown by
    calls that [K] allows, the users are the same unless one of these
    calls is a metadata update, the console has only grown, and no user
    has appeared, disappeared or changed outside [publicMetadata]. *)
Record evolves (K : Call -> bool) (w w' : World) : Prop := {
  keeps_polar_checkouts : polar_checkouts w' = polar_checkouts w;
  keeps_polar_created : polar_created w' = polar_created w;
  keeps_polar_customer_session : polar_customer_session w' = polar_customer_session w;
  keeps_polar_products : polar_products w' = polar_products w;
  keeps_faults : faults w' = faults w;
  new_calls :
    exists l, calls w' = calls w ++ l
              /\ Forall (fun c => K c = true) l
              /\ (Forall (fun c => is_metadata_update c = false) l ->
                  clerk_users w' = clerk_users w);
  grows_console : console w `prefix_of` console w';
  keeps_users : forall V, same_but_metadata (clerk_users w !! V) (clerk_users w' !! V);
}.

(** A computation that keeps to [evolves K] from every world. *)
Definition maintains (K : Call -> bool) {A} (m : M A) : Prop :=
  forall w, evolves K w (m w).2.

(** The two object literals that the webhook sends as [publicMetadata]:
    the one of the [subscription.active] branch, and the one of the
    [subscription.revoked] branch, built over [user.publicMetadata || {}]. *)
Definition active_metadata (subscription : JsVal) : gmap string JsVal :=
  <["status" := JStr "active"]> $
  <["plan" := JStr "pro"]> $
  <["customerId" := Js.opt_prop subscription "customerId"]> $
  <["subscriptionId" := Js.opt_prop subscription "id"]> ∅.

Definition currentMetadata_of (user : gmap string JsVal) : JsVal :=
  Js.or (default JUndefined (user !! "publicMetadata")) (JObj ∅).

Definition revoked_metadata (user : gmap string JsVal) (subscription : JsVal)
  : gmap string JsVal :=
  <["status" := JStr "revoked"]> $
  <["plan" := JStr "free"]> $
  <["customerId" := Js.opt_prop subscription "customerId"]> $
  <["subscriptionId" := Js.or (Js.opt_prop (currentMetadata_of user) "subscriptionId")
                              (Js.opt_prop subscription "id")]> $
  Js.own_props (currentMetadata_of user).

Definition no_clerk_user_id : LogEntry :=
  {| level := LevelError;
     args := [AStr "❌ No clerk_user_id found in checkout metadata."] |}.

Definition no_checkoutId : LogEntry :=
  {| level := LevelError;
     args := [AStr "❌ No checkoutId found in subscription data."] |}.

(** What the portal endpoint reads as the caller's customer id:
    [user.publicMetadata?.customerId]. *)
Definition polarCustomerId_of (user : gmap string JsVal) : JsVal :=
  Js.opt_prop (default JUndefined (user !! "publicMetadata")) "customerId".

Definition portal_failed : Response :=
  res_status_send 500 "Failed to generate portal session".

Definition no_subscription : Response :=
  res_status_json 404 (JObj {[ "error" := JStr "No active subscription found for this user." ]}).

(** The redirect that [/create-checkout] writes into every checkout. *)
Definition successUrl_of (env : ProcessEnv) : string :=
  Js.env_slot (FRONTEND_URL env) ++ "/?payment=success&checkout_id={CHECKOUT_ID}".

(** A price object whose snake-case currency is there and is not text. *)
Definition currency_not_text (item : Product) : Prop :=
  Js.truthy (Js.opt_prop (priceData item) "price_currency") = true
  /\ forall s, Js.opt_prop (priceData item) "price_currency" ≠ JStr s.

Definition listing_failed : Response :=
  res_status_json 500 (JObj {[ "error" := JStr "Falha ao carregar os produtos." ]}).


(* ===================================================================== *)
(** * More requests and worlds *)
(* ===================================================================== *)

Module Scenarios.

Definition SyntaxError : JsError :=
  {| instanceof_WebhookVerificationError := false;
     error_name := "SyntaxError";
     error_message := "Unexpected end of JSON input";
     error_response := JUndefined |}.

Definition SDKValidationError : JsError :=
  {| instanceof_WebhookVerificationError := false;
     error_name := "SDKValidationError";
     error_message := "Input validation failed: products: Required";
     error_response := JUndefined |}.

(** A subscription that names no checkout. *)
Definition bare_subscription : JsVal :=
  JObj (<["customerId" := JStr "cus_2"]> $ <["id" := JStr "sub_2"]> ∅).

(** The bodies that parse, each with its event. *)
Definition deliveries : gmap string Event :=
  <["active" := Examples.active_event]> $
  <["revoked" := Examples.revoked_event]> $
  <["active-bare" := {| type := "subscription.active"; data := bare_subscription |}]> $
  <["revoked-bare" := {| type := "subscription.revoked"; data := bare_subscription |}]> $
  <["active-null" := {| type := "subscription.active"; data := JNull |}]> ∅.

(** A stand-in for the SDK's verification that also parses: the signature
    header has to carry the secret, and a body that is not one of
    [deliveries] is a syntax error. *)
Definition validateEvent (b : Buffer) (h : Headers) (secret : option string)
  : Outcome Event :=
  if bool_decide (h = [("webhook-signature", default "" secret)]) then
    match deliveries !! b with
    | Some event => Returned event
    | None => Thrown SyntaxError
    end
  else Thrown Examples.WebhookVerificationError.

(** The provider call number [n] from the start throws [e]. *)
Definition failing_at (n : nat) (e : JsError) (w : World) : World :=
  {| clerk_users := clerk_users w;
     polar_checkouts := polar_checkouts w;
     polar_created := polar_created w;
     polar_customer_session := polar_customer_session w;
     polar_products := polar_products w;
     faults := fun i => if (i =? n)%nat then Some e else None;
     calls := calls w;
     console := console w |}.

Definition with_checkouts (w : World) (c : gmap string JsVal) : World :=
  {| clerk_users := clerk_users w;
     polar_checkouts := c;
     polar_created := polar_created w;
     polar_customer_session := polar_customer_session w;
     polar_products := polar_products w;
     faults := faults w;
     calls := calls w;
     console := console w |}.

Definition with_customer_session (w : World) (s : JsVal -> JsVal) : World :=
  {| clerk_users := clerk_users w;
     polar_checkouts := polar_checkouts w;
     polar_created := polar_created w;
     polar_customer_session := s;
     polar_products := polar_products w;
     faults := faults w;
     calls := calls w;
     console := console w |}.

Definition with_products (w : World) (p : ListResponse) : World :=
  {| clerk_users := clerk_users w;
     polar_checkouts := polar_checkouts w;
     polar_created := polar_created w;
     polar_customer_session := polar_customer_session w;
     polar_products := p;
     faults := faults w;
     calls := calls w;
     console := console w |}.

(** The checkout [chk_1] made without an identity in its metadata. *)
Definition world_anonymous_checkout : World :=
  with_checkouts Examples.world {[ "chk_1" := JObj {[ "id" := JStr "chk_1" ]} ]}.

(** [user_1] as the Identity Provider has them before any event. *)
Definition new_user : gmap string JsVal := {[ "id" := JStr "user_1" ]}.

Definition world_new_user : World :=
  with_users Examples.world {[ "user_1" := new_user ]}.

(** [user_1] with a subscription on file. *)
Definition subscriber : gmap string JsVal :=
  <["publicMetadata" := JObj (<["customerId" := JStr "cus_1"]> $
                              <["plan" := JStr "pro"]> ∅)]> $
  <["id" := JStr "user_1"]> ∅.

Definition world_subscribed : World :=
  with_users Examples.world {[ "user_1" := subscriber ]}.

Definition portal_request : Request JsVal := Examples.as_user "user_1" JUndefined.

(** Products: one without prices, one priced in the camelCase fields
    behind a [null] amount and an empty currency, one with a number where
    the currency should be. *)
Definition free_plan : Product :=
  {| item_id := "prod_0";
     item_name := "Starter";
     item_description := JNull;
     item_prices := None;
     item_benefits := None |}.

Definition euro_plan : Product :=
  {| item_id := "prod_2";
     item_name := "Team";
     item_description := JStr "For teams";
     item_prices := Some [JObj (<["price_amount" := JNull]> $
                                <["priceAmount" := JNum (Js.num 1900)]> $
                                <["price_currency" := JStr ""]> $
                                <["priceCurrency" := JStr "eur"]> ∅)];
     item_benefits := None |}.

Definition broken_plan : Product :=
  {| item_id := "prod_3";
     item_name := "Enterprise";
     item_description := JNull;
     item_prices := Some [JObj {[ "price_currency" := JNum (Js.num 978) ]}];
     item_benefits := None |}.

Definition world_broken_catalogue : World :=
  with_products Examples.world
    {| result := Some {| items := Some [Examples.pro_plan; broken_plan] |} |}.

Definition world_no_catalogue : World :=
  with_products Examples.world {| result := None |}.

End Scenarios.


(* ===================================================================== *)
(** * Properties *)
(* ===================================================================== *)

(** ** Property access *)

Lemma opt_prop_defined (v : JsVal) (k : string) :
  Js.opt_prop v k ≠ JUndefined -> exists o, v = JObj o.
Proof. destruct v; simpl; try congruence; eauto. Qed.

Lemma truthy_defined (v : JsVal) : Js.truthy v = true -> v ≠ JUndefined.
Proof. by destruct v. Qed.

Lemma truthy_string (s : string) : s ≠ "" -> Js.truthy (JStr s) = true.
Proof. intros Hs. simpl. by rewrite bool_decide_eq_false_2. Qed.

(** ** Running the monad *)

Lemma bind_returned {A B} (m : M A) (k : A -> M B) (w w' : World) (a : A) :
  m w = (Returned a, w') -> bind m k w = k a w'.
Proof. unfold bind. by intros ->. Qed.

Lemma bind_thrown {A B} (m : M A) (k : A -> M B) (w w' : World) (e : JsError) :
  m w = (Thrown e, w') -> bind m k w = (Thrown e, w').
Proof. unfold bind. by intros ->. Qed.

Ltac js_run :=
  unfold try_catch, bind, lift, ret, throw, console_log, console_error, console_warn,
    console_write, provider_call; simpl.

(** ** Worlds that differ in the console only *)

Lemma same_providers_refl (w : World) : same_providers w w.
Proof. by split. Qed.

Lemma same_providers_with_console (w1 w2 : World) (e1 : LogEntry) :
  same_providers w1 w2 -> same_providers (with_console w1 e1) w2.
Proof. intros []. by split. Qed.

Lemma same_providers_sym (w1 w2 : World) : same_providers w1 w2 -> same_providers w2 w1.
Proof. intros []. by split. Qed.

Lemma console_blind_ret {A} (a : A) : console_blind (ret a).
Proof. by intros w1 w2 H. Qed.

Lemma console_blind_lift {A} (o : Outcome A) : console_blind (lift o).
Proof. by intros w1 w2 H. Qed.

Lemma console_blind_console_write (l : Level) (a : list LogArg) :
  console_blind (console_write l a).
Proof.
  intros w1 w2 H. split; [done|]. simpl.
  by apply same_providers_with_console, same_providers_sym,
     same_providers_with_console, same_providers_sym.
Qed.

Lemma console_blind_bind {A B} (m : M A) (k : A -> M B) :
  console_blind m -> (forall a, console_blind (k a)) -> console_blind (bind m k).
Proof.
  intros Hm Hk w1 w2 H. unfold bind.
  destruct (Hm w1 w2 H) as [Hr Hw].
  destruct (m w1) as [[a1|e1] w1'], (m w2) as [[a2|e2] w2']; simpl in *;
    try discriminate; simplify_eq.
  - by apply Hk.
  - done.
Qed.

Lemma console_blind_try_catch {A} (m : M A) (h : JsError -> M A) :
  console_blind m -> (forall e, console_blind (h e)) -> console_blind (try_catch m h).
Proof.
  intros Hm Hh w1 w2 H. unfold try_catch.
  destruct (Hm w1 w2 H) as [Hr Hw].
  destruct (m w1) as [[a1|e1] w1'], (m w2) as [[a2|e2] w2']; simpl in *;
    try discriminate; simplify_eq.
  - done.
  - by apply Hh.
Qed.

Lemma same_providers_with_call (w1 w2 : World) (c : Call) :
  same_providers w1 w2 -> same_providers (with_call w1 c) (with_call w2 c).
Proof. intros []. split; simpl; congruence. Qed.

Lemma same_providers_with_users (w1 w2 : World) (u : gmap string (gmap string JsVal)) :
  same_providers w1 w2 -> same_providers (with_users w1 u) (with_users w2 u).
Proof. intros []. split; simpl; congruence. Qed.

Lemma console_blind_provider_call {A} (c : Call) (answer : M A) :
  console_blind answer -> console_blind (provider_call c answer).
Proof.
  intros Ha w1 w2 H. unfold provider_call.
  rewrite (same_faults _ _ H), (same_calls _ _ H).
  destruct (faults w2 _).
  - split; [done|]. by apply same_providers_with_call.
  - by apply Ha, same_providers_with_call.
Qed.

Lemma console_blind_polar_checkouts_get (id : JsVal) :
  console_blind (polar_checkouts_get id).
Proof.
  apply console_blind_provider_call. intros w1 w2 H.
  rewrite (same_polar_checkouts _ _ H). by destruct (find_by_id _ _).
Qed.

Lemma console_blind_getUser (userId : JsVal) :
  console_blind (clerkClient_users_getUser userId).
Proof.
  apply console_blind_provider_call. intros w1 w2 H.
  rewrite (same_clerk_users _ _ H). by destruct (find_by_id _ _).
Qed.

Lemma console_blind_updateUserMetadata (userId : JsVal) (m : gmap string JsVal) :
  console_blind (clerkClient_users_updateUserMetadata userId m).
Proof.
  apply console_blind_provider_call. intros w1 w2 H.
  rewrite (same_clerk_users _ _ H).
  destruct userId; try done. destruct (find_by_id _ _); [|done].
  split; [done|]. by apply same_providers_with_users.
Qed.

(** Reading a property of a value that is not [null] or [undefined] does
    not throw. *)
Lemma prop_truthy (v : JsVal) (k : string) :
  Js.truthy v = true -> Js.prop v k = Returned (Js.opt_prop v k).
Proof. by destruct v. Qed.

Lemma prop_not_nullish (v : JsVal) (k : string) :
  Js.nullish v = false -> Js.prop v k = Returned (Js.opt_prop v k).
Proof. by destruct v. Qed.

Lemma currentMetadata_truthy (user : gmap string JsVal) :
  Js.truthy (currentMetadata_of user) = true.
Proof.
  unfold currentMetadata_of, Js.or.
  by destruct (Js.truthy (default JUndefined (user !! "publicMetadata"))) eqn:H.
Qed.

Create HintDb console_blind.
#[local] Hint Resolve console_blind_ret console_blind_lift console_blind_console_write
  console_blind_polar_checkouts_get console_blind_getUser
  console_blind_updateUserMetadata : console_blind.

Ltac console_blind_tac :=
  repeat first
    [ apply console_blind_bind; [|intros ?]
    | apply console_blind_try_catch; [|intros ?]
    | progress eauto with console_blind
    | match goal with |- console_blind (if ?b then _ else _) => destruct b end ].


(* ===================================================================== *)
(** * POST /webhook *)
(* ===================================================================== *)

Section Webhook.

Variable env : ProcessEnv.
Variable validateEvent : Buffer -> Headers -> option string -> Outcome Event.

Abbreviation validated req :=
  (validateEvent (body req) (headers req) (POLAR_WEBHOOK_SECRET env)).

(** *** The two branches *)

Lemma on_subscription_active_skip (event : Event) (w : World) :
  type event ≠ "subscription.active" ->
  on_subscription_active event w = (Returned tt, w).
Proof. intros H. unfold on_subscription_active. by rewrite bool_decide_eq_false_2. Qed.

Lemma on_subscription_revoked_skip (event : Event) (w : World) :
  type event ≠ "subscription.revoked" ->
  on_subscription_revoked event w = (Returned tt, w).
Proof. intros H. unfold on_subscription_revoked. by rewrite bool_decide_eq_false_2. Qed.

Lemma console_blind_on_subscription_active (event : Event) :
  console_blind (on_subscription_active event).
Proof. unfold on_subscription_active. console_blind_tac. Qed.

Lemma console_blind_on_subscription_revoked (event : Event) :
  console_blind (on_subscription_revoked event).
Proof. unfold on_subscription_revoked. console_blind_tac. Qed.

Lemma console_blind_webhook_catch (error : JsError) :
  console_blind (webhook_catch error).
Proof. unfold webhook_catch. console_blind_tac. Qed.

Lemma console_blind_post_webhook (req : Request Buffer) :
  console_blind (post_webhook env validateEvent req).
Proof.
  unfold post_webhook, process_event.
  pose proof console_blind_on_subscription_active.
  pose proof console_blind_on_subscription_revoked.
  pose proof console_blind_webhook_catch.
  console_blind_tac.
Qed.

(** The object literal of the [subscription.active] branch. *)
Lemma active_literal (a b : JsVal) :
  <["status" := JStr "active"]> (<["plan" := JStr "pro"]>
    (<["customerId" := b]> (<["subscriptionId" := a]> (∅ : gmap string JsVal))))
  = {[ "subscriptionId" := a; "customerId" := b;
       "plan" := JStr "pro"; "status" := JStr "active" ]}.
Proof.
  apply map_eq. intros k.
  rewrite !lookup_insert, lookup_singleton, lookup_empty.
  repeat case_decide; simplify_eq; done.
Qed.

(** The [subscription.active] branch on an event whose checkout resolves
    to the identity [U]. *)
Lemma on_subscription_active_resolved
    (event : Event) (w : World) (checkoutId checkout : JsVal) (U : string) :
  type event = "subscription.active" ->
  Js.opt_prop (data event) "checkoutId" = checkoutId ->
  Js.truthy checkoutId = true ->
  find_by_id (polar_checkouts w) checkoutId = Some checkout ->
  faults w (length (calls w)) = None ->
  Js.opt_prop (Js.opt_prop checkout "customerMetadata") "clerk_user_id" = JStr U ->
  U ≠ "" ->
  let metadata : gmap string JsVal :=
    {[ "subscriptionId" := Js.opt_prop (data event) "id";
       "customerId" := Js.opt_prop (data event) "customerId";
       "plan" := JStr "pro";
       "status" := JStr "active" ]} in
  exists r w',
    on_subscription_active event w = (r, w')
    /\ calls w' = calls w ++ [PolarCheckoutsGet checkoutId;
                              ClerkUsersUpdateUserMetadata (JStr U) metadata]
    /\ (r = Returned tt \/ exists e, r = Thrown e)
    /\ (is_Some (clerk_users w !! U) ->
        faults w (S (length (calls w))) = None ->
        r = Returned tt /\ stored_metadata w' U = Some (JObj metadata)).
Proof.
  intros Hty Hcid Htr Hfind Hf0 Hid HU metadata.
  destruct (opt_prop_defined (data event) "checkoutId") as [sub Hsub];
    [rewrite Hcid; by apply truthy_defined|].
  destruct (opt_prop_defined _ _ ltac:(by rewrite Hid)) as [cm Hcm].
  destruct (opt_prop_defined checkout "customerMetadata" ltac:(by rewrite Hcm)) as [ck ->].
  pose proof (truthy_string U HU) as Hkey.
  simpl in Hcm, Hid. rewrite Hcm in Hid. simpl in Hid.
  subst metadata. rewrite Hsub in *. simpl in Hcid. simpl.
  rewrite <- !active_literal.
  unfold on_subscription_active, polar_checkouts_get, clerkClient_users_updateUserMetadata.
  js_run. rewrite Hty, Hsub. simpl.
  rewrite Hcid, Htr. simpl. rewrite Hf0, Hfind. simpl.
  rewrite Hcm. simpl. rewrite Hid, Hkey. simpl.
  rewrite length_app, Nat.add_1_r. simpl.
  destruct (faults w (S (length (calls w)))) as [e|] eqn:Hf1.
  { do 2 eexists. split; [reflexivity|]. simpl. rewrite <- app_assoc.
    split; [done|]. split; [eauto|]. done. }
  destruct (clerk_users w !! U) as [user|] eqn:Hu.
  - do 2 eexists. split; [reflexivity|]. simpl. rewrite <- app_assoc.
    split; [done|]. split; [eauto|]. intros _ _. split; [done|].
    unfold stored_metadata. simpl. rewrite lookup_insert_eq. simpl.
    by rewrite lookup_insert_eq.
  - do 2 eexists. split; [reflexivity|]. simpl. rewrite <- app_assoc.
    split; [done|]. split; [eauto|]. by intros [? ?].
Qed.

(** *** The handler, step by step *)

Lemma process_event_unfold (event : Event) (w : World) :
  process_event event w =
    match on_subscription_active event (with_console w (received event)) with
    | (Returned _, w1) =>
        match on_subscription_revoked event w1 with
        | (Returned _, w2) => (Returned (res_status_send 202 ""), w2)
        | (Thrown e, w2) => (Thrown e, w2)
        end
    | (Thrown e, w1) => (Thrown e, w1)
    end.
Proof. reflexivity. Qed.

Lemma post_webhook_verified (req : Request Buffer) (w : World) (event : Event) :
  validated req = Returned event ->
  post_webhook env validateEvent req w =
    match process_event event w with
    | (Returned resp, w1) => (Returned resp, w1)
    | (Thrown e, w1) => webhook_catch e w1
    end.
Proof. intros Hv. unfold post_webhook, try_catch, bind, lift. by rewrite Hv. Qed.

Lemma webhook_catch_unfold (e : JsError) (w : World) :
  webhook_catch e w =
    if instanceof_WebhookVerificationError e then
      (Returned (res_status_send 403 ""),
       with_console w {| level := LevelError;
                         args := [AStr "Webhook verification failed:"; AErr e] |})
    else
      (Returned (res_status_send 500 "Internal Server Error"),
       with_console w {| level := LevelError;
                         args := [AStr "Webhook processing error:"; AErr e] |}).
Proof. unfold webhook_catch. by destruct (instanceof_WebhookVerificationError e). Qed.

Lemma process_event_returns_202 (event : Event) (w w1 : World) (resp : Response) :
  process_event event w = (Returned resp, w1) -> resp = res_status_send 202 "".
Proof.
  rewrite process_event_unfold.
  destruct (on_subscription_active _ _) as [[[]|?] ?]; [|discriminate].
  destruct (on_subscription_revoked _ _) as [[[]|?] ?]; [|discriminate].
  congruence.
Qed.

(** *** Rejected signatures *)

(** C1.  When [validateEvent] throws a [WebhookVerificationError], the
    handler answers 403 with an empty body, calls no provider, neither
    the payments provider nor the identity provider, and leaves the
    metadata store as it was, whatever the body and the headers of the
    request say. *)
Theorem webhook_invalid_signature_is_rejected
    (req : Request Buffer) (w : World) (e : JsError) :
  validated req = Thrown e ->
  instanceof_WebhookVerificationError e = true ->
  exists w',
    post_webhook env validateEvent req w = (Returned (res_status_send 403 ""), w')
    /\ calls w' = calls w
    /\ clerk_users w' = clerk_users w
    /\ polar_checkouts w' = polar_checkouts w.
Proof.
  intros Hv He. eexists. split.
  - unfold post_webhook, try_catch, bind, lift. rewrite Hv.
    rewrite webhook_catch_unfold, He. reflexivity.
  - done.
Qed.

(** *** subscription.active *)

(** C2.  A verified [subscription.active] event whose [checkoutId] names
    a checkout session with [clerk_user_id] = [U] in its
    [customerMetadata] makes the handler look the session up and then
    send one metadata update for [U], whose [publicMetadata] is exactly
    the four fields [subscriptionId], [customerId], [plan = "pro"],
    [status = "active"].  When the Identity Provider knows [U] and
    takes the update, the metadata stored for [U] afterwards is exactly
    that object and the response is 202. *)
Theorem active_event_sets_metadata
    (req : Request Buffer) (w : World) (event : Event)
    (checkoutId checkout : JsVal) (U : string) :
  validated req = Returned event ->
  type event = "subscription.active" ->
  Js.opt_prop (data event) "checkoutId" = checkoutId ->
  Js.truthy checkoutId = true ->
  find_by_id (polar_checkouts w) checkoutId = Some checkout ->
  faults w (length (calls w)) = None ->
  Js.opt_prop (Js.opt_prop checkout "customerMetadata") "clerk_user_id" = JStr U ->
  U ≠ "" ->
  let metadata : gmap string JsVal :=
    {[ "subscriptionId" := Js.opt_prop (data event) "id";
       "customerId" := Js.opt_prop (data event) "customerId";
       "plan" := JStr "pro";
       "status" := JStr "active" ]} in
  exists r w',
    post_webhook env validateEvent req w = (r, w')
    /\ calls w' = calls w ++ [PolarCheckoutsGet checkoutId;
                              ClerkUsersUpdateUserMetadata (JStr U) metadata]
    /\ (is_Some (clerk_users w !! U) ->
        faults w (S (length (calls w))) = None ->
        r = Returned (res_status_send 202 "")
        /\ stored_metadata w' U = Some (JObj metadata)).
Proof.
  intros Hv Hty Hcid Htr Hfind Hf0 Hid HU metadata.
  destruct (on_subscription_active_resolved event (with_console w (received event))
              checkoutId checkout U Hty Hcid Htr Hfind Hf0 Hid HU)
    as (r0 & w1 & Hrun & Hcalls & Hr & Hstore).
  rewrite (post_webhook_verified req w event Hv), process_event_unfold, Hrun.
  destruct Hr as [-> | [e ->]].
  - rewrite on_subscription_revoked_skip by (rewrite Hty; discriminate).
    do 2 eexists. split; [reflexivity|]. split; [done|].
    intros Hu Hf1. by destruct (Hstore Hu Hf1).
  - rewrite webhook_catch_unfold.
    destruct (instanceof_WebhookVerificationError e);
      (do 2 eexists; split; [reflexivity|]; split; [done|]);
      intros Hu Hf1; by destruct (Hstore Hu Hf1).
Qed.

(** *** subscription.revoked *)

(** The [subscription.revoked] branch on an event whose checkout resolves
    to the identity [U], for whom the Identity Provider holds the
    metadata object [current]. *)
Lemma on_subscription_revoked_resolved
    (event : Event) (w : World) (checkoutId checkout : JsVal) (U : string)
    (current : gmap string JsVal) :
  type event = "subscription.revoked" ->
  Js.opt_prop (data event) "checkoutId" = checkoutId ->
  Js.truthy checkoutId = true ->
  find_by_id (polar_checkouts w) checkoutId = Some checkout ->
  Js.opt_prop (Js.opt_prop checkout "customerMetadata") "clerk_user_id" = JStr U ->
  U ≠ "" ->
  stored_metadata w U = Some (JObj current) ->
  (forall i, i < 3 -> faults w (length (calls w) + i) = None) ->
  let updated : gmap string JsVal :=
    <["status" := JStr "revoked"]> $
    <["plan" := JStr "free"]> $
    <["customerId" := Js.opt_prop (data event) "customerId"]> $
    <["subscriptionId" := Js.or (default JUndefined (current !! "subscriptionId"))
                                (Js.opt_prop (data event) "id")]> current in
  exists w',
    on_subscription_revoked event w = (Returned tt, w')
    /\ calls w' = calls w ++ [PolarCheckoutsGet checkoutId;
                              ClerkUsersGetUser (JStr U);
                              ClerkUsersUpdateUserMetadata (JStr U) updated]
    /\ stored_metadata w' U = Some (JObj updated).
Proof.
  intros Hty Hcid Htr Hfind Hid HU Hcur Hf updated.
  destruct (opt_prop_defined (data event) "checkoutId") as [sub Hsub];
    [rewrite Hcid; by apply truthy_defined|].
  destruct (opt_prop_defined _ _ ltac:(by rewrite Hid)) as [cm Hcm].
  destruct (opt_prop_defined checkout "customerMetadata" ltac:(by rewrite Hcm)) as [ck ->].
  pose proof (truthy_string U HU) as Hkey.
  pose proof (Hf 0 ltac:(lia)) as Hf0. rewrite Nat.add_0_r in Hf0.
  pose proof (Hf 1 ltac:(lia)) as Hf1.
  pose proof (Hf 2 ltac:(lia)) as Hf2.
  unfold stored_metadata in Hcur.
  destruct (clerk_users w !! U) as [user|] eqn:Hu; [|done]. simpl in Hcur.
  simpl in Hcm, Hid. rewrite Hcm in Hid. simpl in Hid.
  subst updated. rewrite Hsub in *. simpl in Hcid. simpl.
  unfold on_subscription_revoked, polar_checkouts_get, clerkClient_users_getUser,
    clerkClient_users_updateUserMetadata.
  js_run. rewrite Hty, Hsub. simpl.
  rewrite Hcid, Htr. simpl. rewrite Hf0, Hfind. simpl.
  rewrite Hcm. simpl. rewrite Hid, Hkey. simpl.
  rewrite length_app. simpl. rewrite Hf1, Hu. simpl. rewrite Hcur. simpl.
  rewrite !length_app. simpl. rewrite <- Nat.add_assoc. simpl. rewrite Hf2, Hu.
  eexists. split; [reflexivity|]. simpl. rewrite <- !app_assoc. split; [done|].
  unfold stored_metadata. simpl. rewrite lookup_insert_eq. simpl.
  by rewrite lookup_insert_eq.
Qed.

(** C3.  A verified [subscription.revoked] event whose [checkoutId]
    resolves to the identity [U] makes the handler read the metadata
    held for [U] and write back a merge of it: [subscriptionId] keeps
    its prior value [S1] when one was set (present and truthy, as a
    subscription id is), and takes the event's subscription id when
    there was none; [customerId] is the event's, [plan] is ["free"],
    [status] is ["revoked"], and every other key keeps its value. *)
Theorem revoked_event_merges_metadata
    (req : Request Buffer) (w : World) (event : Event)
    (checkoutId checkout : JsVal) (U : string) (current : gmap string JsVal) :
  validated req = Returned event ->
  type event = "subscription.revoked" ->
  Js.opt_prop (data event) "checkoutId" = checkoutId ->
  Js.truthy checkoutId = true ->
  find_by_id (polar_checkouts w) checkoutId = Some checkout ->
  Js.opt_prop (Js.opt_prop checkout "customerMetadata") "clerk_user_id" = JStr U ->
  U ≠ "" ->
  stored_metadata w U = Some (JObj current) ->
  (forall i, i < 3 -> faults w (length (calls w) + i) = None) ->
  exists updated w',
    post_webhook env validateEvent req w = (Returned (res_status_send 202 ""), w')
    /\ calls w' = calls w ++ [PolarCheckoutsGet checkoutId;
                              ClerkUsersGetUser (JStr U);
                              ClerkUsersUpdateUserMetadata (JStr U) updated]
    /\ stored_metadata w' U = Some (JObj updated)
    /\ (forall S1, current !! "subscriptionId" = Some S1 -> Js.truthy S1 = true ->
        updated !! "subscriptionId" = Some S1)
    /\ (current !! "subscriptionId" = None ->
        updated !! "subscriptionId" = Some (Js.opt_prop (data event) "id"))
    /\ updated !! "customerId" = Some (Js.opt_prop (data event) "customerId")
    /\ updated !! "plan" = Some (JStr "free")
    /\ updated !! "status" = Some (JStr "revoked")
    /\ (forall k, k ∉ ["subscriptionId"; "customerId"; "plan"; "status"] ->
        updated !! k = current !! k).
Proof.
  intros Hv Hty Hcid Htr Hfind Hid HU Hcur Hf.
  destruct (on_subscription_revoked_resolved event (with_console w (received event))
              checkoutId checkout U current Hty Hcid Htr Hfind Hid HU Hcur Hf)
    as (w1 & Hrun & Hcalls & Hstore).
  eexists _, w1. split.
  { rewrite (post_webhook_verified req w event Hv), process_event_unfold.
    rewrite on_subscription_active_skip by (rewrite Hty; discriminate).
    by rewrite Hrun. }
  split; [exact Hcalls|]. split; [exact Hstore|].
  repeat split.
  - intros S1 HS1 Ht. rewrite HS1. simpl. unfold Js.or. rewrite Ht.
    by rewrite !lookup_insert_ne by done; rewrite lookup_insert_eq.
  - intros HS1. rewrite HS1. simpl.
    by rewrite !lookup_insert_ne by done; rewrite lookup_insert_eq.
  - by rewrite !lookup_insert_ne by done; rewrite lookup_insert_eq.
  - by rewrite !lookup_insert_ne by done; rewrite lookup_insert_eq.
  - by rewrite lookup_insert_eq.
  - intros k Hk. rewrite !lookup_insert_ne; [done|..];
      intros <-; apply Hk; set_solver.
Qed.

(** *** What a verified request is answered *)

(** The checkout lookup of either branch, when the provider call fails. *)
Lemma process_event_lookup_fails
    (event : Event) (w : World) (checkoutId : JsVal) (e : JsError) :
  type event = "subscription.active" \/ type event = "subscription.revoked" ->
  Js.opt_prop (data event) "checkoutId" = checkoutId ->
  Js.truthy checkoutId = true ->
  faults w (length (calls w)) = Some e ->
  exists w1,
    process_event event w = (Thrown e, w1)
    /\ calls w1 = calls w ++ [PolarCheckoutsGet checkoutId]
    /\ clerk_users w1 = clerk_users w.
Proof.
  intros Hty Hcid Htr Hf.
  destruct (opt_prop_defined (data event) "checkoutId") as [sub Hsub];
    [rewrite Hcid; by apply truthy_defined|].
  rewrite Hsub in Hcid. simpl in Hcid.
  rewrite process_event_unfold.
  destruct Hty as [Hty|Hty].
  - unfold on_subscription_active, polar_checkouts_get. js_run.
    rewrite Hty, Hsub. simpl. rewrite Hcid, Htr. simpl. rewrite Hf.
    by eexists.
  - rewrite on_subscription_active_skip by (rewrite Hty; discriminate).
    unfold on_subscription_revoked, polar_checkouts_get. js_run.
    rewrite Hty, Hsub. simpl. rewrite Hcid, Htr. simpl. rewrite Hf.
    by eexists.
Qed.

(** What follows the checkout lookup, when a provider call fails: the
    metadata update of the [subscription.active] branch, the user read of
    the [subscription.revoked] branch, and its metadata update.  The
    error reaches the catch block, which prints it and answers 500. *)
Lemma post_webhook_downstream_fails
    (req : Request Buffer) (w : World) (event : Event)
    (checkoutId checkout : JsVal) (U : string) (e : JsError) :
  validated req = Returned event ->
  Js.opt_prop (data event) "checkoutId" = checkoutId ->
  Js.truthy checkoutId = true ->
  find_by_id (polar_checkouts w) checkoutId = Some checkout ->
  faults w (length (calls w)) = None ->
  Js.opt_prop (Js.opt_prop checkout "customerMetadata") "clerk_user_id" = JStr U ->
  U ≠ "" ->
  instanceof_WebhookVerificationError e = false ->
  let answered (l : list Call) :=
    exists w',
      post_webhook env validateEvent req w
        = (Returned (res_status_send 500 "Internal Server Error"), w')
      /\ calls w' = calls w ++ l
      /\ clerk_users w' = clerk_users w
      /\ last (console w') = Some (processing_error e) in
  (type event = "subscription.active" ->
   faults w (length (calls w) + 1) = Some e ->
   answered [PolarCheckoutsGet checkoutId;
             ClerkUsersUpdateUserMetadata (JStr U) (active_metadata (data event))])
  /\ (type event = "subscription.revoked" ->
     faults w (length (calls w) + 1) = Some e ->
     answered [PolarCheckoutsGet checkoutId; ClerkUsersGetUser (JStr U)])
  /\ (type event = "subscription.revoked" ->
     forall user,
       faults w (length (calls w) + 1) = None ->
       clerk_users w !! U = Some user ->
       faults w (length (calls w) + 2) = Some e ->
       answered [PolarCheckoutsGet checkoutId; ClerkUsersGetUser (JStr U);
                 ClerkUsersUpdateUserMetadata (JStr U)
                   (revoked_metadata user (data event))]).
Proof.
  intros Hv Hcid Htr Hfind Hf0 Hid HU He answered. subst answered.
  destruct (opt_prop_defined (data event) "checkoutId") as [sub Hsub];
    [rewrite Hcid; by apply truthy_defined|].
  destruct (opt_prop_defined _ _ ltac:(by rewrite Hid)) as [cm Hcm].
  destruct (opt_prop_defined checkout "customerMetadata" ltac:(by rewrite Hcm)) as [ck ->].
  pose proof (truthy_string U HU) as Hkey.
  simpl in Hcm, Hid. rewrite Hcm in Hid. simpl in Hid.
  rewrite (post_webhook_verified req w event Hv), process_event_unfold.
  rewrite Hsub in Hcid. simpl in Hcid.
  repeat split.
  - intros Hty Hf1. unfold active_metadata. rewrite Hsub.
    unfold on_subscription_active, polar_checkouts_get,
      clerkClient_users_updateUserMetadata. js_run.
    rewrite Hty, Hsub. simpl. rewrite Hcid, Htr. simpl. rewrite Hf0, Hfind. simpl.
    rewrite Hcm. simpl. rewrite Hid, Hkey. simpl.
    rewrite length_app. simpl. rewrite Hf1, webhook_catch_unfold, He.
    eexists. split; [reflexivity|]. simpl.
    split; [by rewrite <- !app_assoc|]. split; [done|]. apply last_snoc.
  - intros Hty Hf1.
    rewrite on_subscription_active_skip by (rewrite Hty; discriminate).
    unfold on_subscription_revoked, polar_checkouts_get, clerkClient_users_getUser.
    js_run.
    rewrite Hty, Hsub. simpl. rewrite Hcid, Htr. simpl. rewrite Hf0, Hfind. simpl.
    rewrite Hcm. simpl. rewrite Hid, Hkey. simpl.
    rewrite length_app. simpl. rewrite Hf1, webhook_catch_unfold, He.
    eexists. split; [reflexivity|]. simpl.
    split; [by rewrite <- !app_assoc|]. split; [done|]. apply last_snoc.
  - intros Hty user Hf1 Hu Hf2.
    rewrite on_subscription_active_skip by (rewrite Hty; discriminate).
    unfold revoked_metadata.
    pose proof (prop_truthy _ "subscriptionId" (currentMetadata_truthy user)) as Hcur.
    unfold currentMetadata_of in *. rewrite Hsub.
    unfold on_subscription_revoked, polar_checkouts_get, clerkClient_users_getUser,
      clerkClient_users_updateUserMetadata.
    js_run. rewrite Hty, Hsub. simpl.
    rewrite Hcid, Htr. simpl. rewrite Hf0, Hfind. simpl.
    rewrite Hcm. simpl. rewrite Hid, Hkey. simpl.
    rewrite length_app. simpl. rewrite Hf1, Hu. simpl. rewrite Hcur. simpl.
    rewrite !length_app. simpl. rewrite <- Nat.add_assoc. simpl.
    rewrite Hf2, webhook_catch_unfold, He.
    eexists. split; [reflexivity|]. simpl.
    split; [by rewrite <- !app_assoc|]. split; [done|]. apply last_snoc.
Qed.

(** C4, as the code has it.  Once the signature is verified the answer
    is 202 exactly when the processing that follows runs to its end; an
    error thrown on the way (other than a [WebhookVerificationError]) is
    logged and answered with 500.  Events of any other type are
    acknowledged with 202 and no provider call.  No downstream failure is
    swallowed: a checkout lookup that throws, a metadata update that
    throws (on [subscription.active] and on [subscription.revoked]) and
    a user read that throws are each printed by the catch block and
    answered with 500 "Internal Server Error", and the users are then
    what they were. *)
Theorem verified_webhook_response
    (req : Request Buffer) (w : World) (event : Event) :
  validated req = Returned event ->
  (forall resp w1,
      process_event event w = (Returned resp, w1) ->
      post_webhook env validateEvent req w = (Returned (res_status_send 202 ""), w1))
  /\ (forall e w1,
      process_event event w = (Thrown e, w1) ->
      instanceof_WebhookVerificationError e = false ->
      post_webhook env validateEvent req w =
        (Returned (res_status_send 500 "Internal Server Error"),
         with_console w1 (processing_error e)))
  /\ (type event ≠ "subscription.active" ->
      type event ≠ "subscription.revoked" ->
      exists w',
        post_webhook env validateEvent req w = (Returned (res_status_send 202 ""), w')
        /\ calls w' = calls w /\ clerk_users w' = clerk_users w)
  /\ (forall checkoutId e,
      type event = "subscription.active" \/ type event = "subscription.revoked" ->
      Js.opt_prop (data event) "checkoutId" = checkoutId ->
      Js.truthy checkoutId = true ->
      faults w (length (calls w)) = Some e ->
      instanceof_WebhookVerificationError e = false ->
      exists w',
        post_webhook env validateEvent req w =
          (Returned (res_status_send 500 "Internal Server Error"), w')
        /\ calls w' = calls w ++ [PolarCheckoutsGet checkoutId]
        /\ clerk_users w' = clerk_users w
        /\ last (console w') = Some (processing_error e))
  /\ (forall checkoutId checkout U e,
      Js.opt_prop (data event) "checkoutId" = checkoutId ->
      Js.truthy checkoutId = true ->
      find_by_id (polar_checkouts w) checkoutId = Some checkout ->
      faults w (length (calls w)) = None ->
      Js.opt_prop (Js.opt_prop checkout "customerMetadata") "clerk_user_id" = JStr U ->
      U ≠ "" ->
      instanceof_WebhookVerificationError e = false ->
      let answered (l : list Call) :=
        exists w',
          post_webhook env validateEvent req w
            = (Returned (res_status_send 500 "Internal Server Error"), w')
          /\ calls w' = calls w ++ l
          /\ clerk_users w' = clerk_users w
          /\ last (console w') = Some (processing_error e) in
      (type event = "subscription.active" ->
       faults w (length (calls w) + 1) = Some e ->
       answered [PolarCheckoutsGet checkoutId;
                 ClerkUsersUpdateUserMetadata (JStr U) (active_metadata (data event))])
      /\ (type event = "subscription.revoked" ->
         faults w (length (calls w) + 1) = Some e ->
         answered [PolarCheckoutsGet checkoutId; ClerkUsersGetUser (JStr U)])
      /\ (type event = "subscription.revoked" ->
         forall user,
           faults w (length (calls w) + 1) = None ->
           clerk_users w !! U = Some user ->
           faults w (length (calls w) + 2) = Some e ->
           answered [PolarCheckoutsGet checkoutId; ClerkUsersGetUser (JStr U);
                     ClerkUsersUpdateUserMetadata (JStr U)
                       (revoked_metadata user (data event))])).
Proof.
  intros Hv. split; [|split; [|split; [|split]]].
  - intros resp w1 Hp. rewrite (post_webhook_verified req w event Hv), Hp.
    by rewrite (process_event_returns_202 _ _ _ _ Hp).
  - intros e w1 Hp He.
    by rewrite (post_webhook_verified req w event Hv), Hp, webhook_catch_unfold, He.
  - intros Ha Hr. rewrite (post_webhook_verified req w event Hv), process_event_unfold.
    rewrite on_subscription_active_skip, on_subscription_revoked_skip by done.
    by eexists.
  - intros checkoutId e Hty Hcid Htr Hf He.
    rewrite (post_webhook_verified req w event Hv).
    destruct (process_event_lookup_fails event w checkoutId e Hty Hcid Htr Hf)
      as (w1 & -> & Hcalls & Husers).
    rewrite webhook_catch_unfold, He. eexists. split; [reflexivity|].
    split; [exact Hcalls|]. split; [exact Husers|]. apply last_snoc.
  - intros checkoutId checkout U e Hcid Htr Hfind Hf0 Hid HU He.
    exact (post_webhook_downstream_fails req w event checkoutId checkout U e
             Hv Hcid Htr Hfind Hf0 Hid HU He).
Qed.

(** *** The two variants *)

Lemma post_webhook_part_000_unfold (req : Request Buffer) (w : World) :
  post_webhook_part_000 env validateEvent req w =
    match validated req with
    | Returned event =>
        match process_event_part_000 event (with_console w (printed (body req))) with
        | (Returned resp, w1) => (Returned resp, w1)
        | (Thrown e, w1) => webhook_catch e w1
        end
    | Thrown e => webhook_catch e (with_console w (printed (body req)))
    end.
Proof.
  unfold post_webhook_part_000, try_catch, bind, lift, console_log, console_write.
  by destruct (validated req).
Qed.

Lemma process_event_part_000_unfold (event : Event) (w : World) :
  process_event_part_000 event w =
    match on_subscription_active event (with_console w (received event)) with
    | (Returned _, w1) => (Returned (res_status_send 202 ""), w1)
    | (Thrown e, w1) => (Thrown e, w1)
    end.
Proof. reflexivity. Qed.

(** Away from [subscription.revoked] the first variant is the second one
    run after the body has been printed. *)
Lemma post_webhook_part_000_prints_first (req : Request Buffer) (w : World) :
  (forall event, validated req = Returned event -> type event ≠ "subscription.revoked") ->
  post_webhook_part_000 env validateEvent req w =
  post_webhook env validateEvent req (with_console w (printed (body req))).
Proof.
  intros Hty. rewrite post_webhook_part_000_unfold.
  destruct (validated req) as [event|e] eqn:Hv.
  - rewrite (post_webhook_verified _ _ _ Hv).
    rewrite process_event_part_000_unfold, process_event_unfold.
    destruct (on_subscription_active _ _) as [[[]|?] ?]; [|done].
    by rewrite on_subscription_revoked_skip by eauto.
  - unfold post_webhook, try_catch, bind, lift. by rewrite Hv.
Qed.

(** The fields of the object that the [subscription.revoked] branch
    writes over the metadata [current]. *)
Lemma revoked_merge_fields (current : gmap string JsVal) (subscription : JsVal) :
  let updated : gmap string JsVal :=
    <["status" := JStr "revoked"]> $
    <["plan" := JStr "free"]> $
    <["customerId" := Js.opt_prop subscription "customerId"]> $
    <["subscriptionId" := Js.or (default JUndefined (current !! "subscriptionId"))
                                (Js.opt_prop subscription "id")]> current in
  (forall S1, current !! "subscriptionId" = Some S1 -> Js.truthy S1 = true ->
     updated !! "subscriptionId" = Some S1)
  /\ (current !! "subscriptionId" = None ->
     updated !! "subscriptionId" = Some (Js.opt_prop subscription "id"))
  /\ updated !! "customerId" = Some (Js.opt_prop subscription "customerId")
  /\ updated !! "plan" = Some (JStr "free")
  /\ updated !! "status" = Some (JStr "revoked")
  /\ (forall k, k ∉ ["subscriptionId"; "customerId"; "plan"; "status"] ->
     updated !! k = current !! k).
Proof.
  intros updated. subst updated. repeat split.
  - intros S1 HS1 Ht. rewrite HS1. simpl. unfold Js.or. rewrite Ht.
    by rewrite !lookup_insert_ne by done; rewrite lookup_insert_eq.
  - intros HS1. rewrite HS1. simpl.
    by rewrite !lookup_insert_ne by done; rewrite lookup_insert_eq.
  - by rewrite !lookup_insert_ne by done; rewrite lookup_insert_eq.
  - by rewrite !lookup_insert_ne by done; rewrite lookup_insert_eq.
  - by rewrite lookup_insert_eq.
  - intros k Hk. rewrite !lookup_insert_ne; [done|..];
      intros <-; apply Hk;
      repeat first [apply list_elem_of_here | apply list_elem_of_further].
Qed.

(** C9.  On every request whose event is not [subscription.revoked], so
    on every verified [subscription.active] event, the first variant
    ([part_000]) and the second ([index.js]) give the same response,
    make the same provider calls and leave the same metadata; the first
    only prints the raw body before.  On a [subscription.revoked] event,
    as on any event that is not [subscription.active], the first variant
    answers 202 and does nothing.  The second variant, and only the
    second, handles [subscription.revoked]: when the checkout resolves to
    the identity [U] it looks the checkout up, reads the user and writes
    back a merge of the metadata held for [U], in which [subscriptionId]
    keeps its prior value when one was set and takes the event's
    otherwise, [customerId] is the event's, [plan] is ["free"], [status]
    is ["revoked"] and every other key keeps its value; the first
    variant, on the same request, leaves the metadata of [U] as it
    was. *)
Theorem webhook_variants_agree (req : Request Buffer) (w : World) :
  ((forall event, validated req = Returned event -> type event ≠ "subscription.revoked") ->
     post_webhook_part_000 env validateEvent req w =
       post_webhook env validateEvent req (with_console w (printed (body req)))
     /\ exists r w1 w2,
         post_webhook_part_000 env validateEvent req w = (r, w1)
         /\ post_webhook env validateEvent req w = (r, w2)
         /\ same_providers w1 w2)
  /\ (forall event,
       validated req = Returned event ->
       type event ≠ "subscription.active" ->
       exists w1,
         post_webhook_part_000 env validateEvent req w =
           (Returned (res_status_send 202 ""), w1)
         /\ calls w1 = calls w
         /\ clerk_users w1 = clerk_users w)
  /\ (forall event checkoutId checkout U current,
       validated req = Returned event ->
       type event = "subscription.revoked" ->
       Js.opt_prop (data event) "checkoutId" = checkoutId ->
       Js.truthy checkoutId = true ->
       find_by_id (polar_checkouts w) checkoutId = Some checkout ->
       Js.opt_prop (Js.opt_prop checkout "customerMetadata") "clerk_user_id" = JStr U ->
       U ≠ "" ->
       stored_metadata w U = Some (JObj current) ->
       (forall i, i < 3 -> faults w (length (calls w) + i) = None) ->
       exists updated w1 w2,
         post_webhook_part_000 env validateEvent req w =
           (Returned (res_status_send 202 ""), w1)
         /\ calls w1 = calls w
         /\ stored_metadata w1 U = Some (JObj current)
         /\ post_webhook env validateEvent req w = (Returned (res_status_send 202 ""), w2)
         /\ calls w2 = calls w ++ [PolarCheckoutsGet checkoutId;
                                   ClerkUsersGetUser (JStr U);
                                   ClerkUsersUpdateUserMetadata (JStr U) updated]
         /\ stored_metadata w2 U = Some (JObj updated)
         /\ (forall S1, current !! "subscriptionId" = Some S1 -> Js.truthy S1 = true ->
             updated !! "subscriptionId" = Some S1)
         /\ (current !! "subscriptionId" = None ->
             updated !! "subscriptionId" = Some (Js.opt_prop (data event) "id"))
         /\ updated !! "customerId" = Some (Js.opt_prop (data event) "customerId")
         /\ updated !! "plan" = Some (JStr "free")
         /\ updated !! "status" = Some (JStr "revoked")
         /\ (forall k, k ∉ ["subscriptionId"; "customerId"; "plan"; "status"] ->
             updated !! k = current !! k)).
Proof.
  split; [|split].
  - intros Hty. pose proof (post_webhook_part_000_prints_first req w Hty) as Heq.
    split; [done|]. rewrite Heq.
    destruct (console_blind_post_webhook req (with_console w (printed (body req))) w)
      as [Hr Hw].
    { apply same_providers_with_console, same_providers_refl. }
    destruct (post_webhook _ _ _ (with_console _ _)) as [r w1].
    destruct (post_webhook _ _ _ w) as [r' w2]. simpl in *. subst r'.
    by exists r, w1, w2.
  - intros event Hv Hty. rewrite post_webhook_part_000_unfold, Hv.
    rewrite process_event_part_000_unfold, on_subscription_active_skip by done.
    by eexists.
  - intros event checkoutId checkout U current Hv Hty Hcid Htr Hfind Hid HU Hcur Hf.
    destruct (on_subscription_revoked_resolved event (with_console w (received event))
                checkoutId checkout U current Hty Hcid Htr Hfind Hid HU Hcur Hf)
      as (w2 & Hrun & Hcalls & Hstore).
    eexists _, _, w2. split.
    { rewrite post_webhook_part_000_unfold, Hv, process_event_part_000_unfold.
      rewrite on_subscription_active_skip by (rewrite Hty; discriminate).
      reflexivity. }
    split; [reflexivity|]. split; [exact Hcur|]. split.
    { rewrite (post_webhook_verified req w event Hv), process_event_unfold.
      rewrite on_subscription_active_skip by (rewrite Hty; discriminate).
      by rewrite Hrun. }
    split; [exact Hcalls|]. split; [exact Hstore|].
    exact (revoked_merge_fields current (data event)).
Qed.

End Webhook.


(* ===================================================================== *)
(** * The authenticated endpoints *)
(* ===================================================================== *)

Section Authenticated.

Variable env : ProcessEnv.

Lemma getAuth_anonymous {B} (req : Request B) :
  auth_userId req = None -> getAuth req = JNull.
Proof. unfold getAuth. by intros ->. Qed.

Lemma getAuth_user {B} (req : Request B) (U : string) :
  auth_userId req = Some U -> getAuth req = JStr U.
Proof. unfold getAuth. by intros ->. Qed.

Lemma strict_eq_string (v : JsVal) (s : string) :
  Js.strict_eq v (JStr s) = true <-> v = JStr s.
Proof.
  destruct v as [| |?|[]|?|?|?]; simpl; try (split; [discriminate|congruence]).
  rewrite bool_decide_eq_true. split; congruence.
Qed.

(** *** The body guard of /create-checkout *)

Lemma missing_or_empty_guard (req_body : JsVal) :
  MissingOrEmpty req_body -> body_missing_or_empty req_body = true.
Proof. by intros []. Qed.

Lemma guard_passed_prop (req_body : JsVal) (k : string) :
  body_missing_or_empty req_body = false ->
  Js.prop req_body k = Returned (Js.opt_prop req_body k).
Proof. by destruct req_body. Qed.

(** C7.  A body that is missing or empty is answered 400 before anything
    else happens: the world is left as it was, so no provider has been
    called, whoever the caller is. *)
Theorem create_checkout_empty_body_is_bad_request (req : Request JsVal) (w : World) :
  MissingOrEmpty (body req) ->
  post_create_checkout env req w =
    (Returned (res_status_json 400
                 (JObj {[ "error" := JStr "Request body is missing or empty" ]})), w).
Proof.
  intros H. unfold post_create_checkout.
  by rewrite (missing_or_empty_guard _ H).
Qed.

(** *** Requests without an identity *)

(** C5, as the code has it.  Without an identity [/test-auth] and
    [/api/create-portal-session] answer 401 and leave the world as it
    was.  [/create-checkout] looks at the body first: it answers 400 when
    the body is missing or empty and 401 otherwise, and leaves the world
    as it was in both cases. *)
Theorem unauthenticated_requests_reach_no_provider (w : World) :
  (forall B (req : Request B), auth_userId req = None ->
     get_test_auth req w = (Returned Unauthorized, w))
  /\ (forall B (req : Request B), auth_userId req = None ->
     get_api_create_portal_session req w = (Returned Unauthorized, w))
  /\ (forall req : Request JsVal, auth_userId req = None ->
     exists resp,
       post_create_checkout env req w = (Returned resp, w)
       /\ status resp = (if body_missing_or_empty (body req) then 400 else 401)
       /\ (body_missing_or_empty (body req) = false -> resp = Unauthorized)).
Proof.
  repeat split.
  - intros B req H. unfold get_test_auth. by rewrite (getAuth_anonymous req H).
  - intros B req H. unfold get_api_create_portal_session, try_catch.
    by rewrite (getAuth_anonymous req H).
  - intros req H. unfold post_create_checkout.
    rewrite (getAuth_anonymous req H).
    destruct (body_missing_or_empty (body req)); by eexists.
Qed.

(** *** The options sent to the payments provider *)

Lemma checkoutOptions_returns (req_body userId : JsVal) :
  body_missing_or_empty req_body = false ->
  checkoutOptions env req_body userId =
    Returned (delete "customer_metadata"
      (<["customerMetadata" :=
           JObj (<["clerk_user_id" := userId]> (Js.own_props (chosen_metadata req_body)))]>
       (<["successUrl" :=
            JStr (Js.env_slot (FRONTEND_URL env)
                  ++ "/?payment=success&checkout_id={CHECKOUT_ID}")]>
        (Js.own_props req_body)))).
Proof.
  intros H. unfold checkoutOptions. by rewrite !guard_passed_prop.
Qed.

(** An identified caller with a body: one call to the provider, and the
    answer that follows from what the provider sends back. *)
Lemma post_create_checkout_identified (req : Request JsVal) (w : World) (U : string) :
  auth_userId req = Some U ->
  U ≠ "" ->
  body_missing_or_empty (body req) = false ->
  exists options r w',
    checkoutOptions env (body req) (JStr U) = Returned options
    /\ post_create_checkout env req w = (r, w')
    /\ calls w' = calls w ++ [PolarCheckoutsCreate options]
    /\ (faults w (length (calls w)) = None ->
        forall session, polar_created w options = JObj session ->
          r = Returned
                (res_status_json
                   (if Js.strict_eq
                         (Js.opt_prop (Js.opt_prop (JObj session) "customerMetadata")
                                      "clerk_user_id")
                         (JStr U)
                    then 200 else 201)
                   (JObj session))).
Proof.
  intros Hauth HU Hbody.
  eexists. unfold post_create_checkout.
  rewrite Hbody, (getAuth_user req U Hauth), (truthy_string U HU). simpl.
  rewrite (checkoutOptions_returns _ _ Hbody).
  unfold polar_checkouts_create, create_checkout_catch. js_run.
  destruct (faults w (length (calls w))) as [e|].
  - destruct (bool_decide _); (do 2 eexists; split; [reflexivity|]);
      (split; [reflexivity|]); simpl; split; done.
  - destruct (polar_created w _) as [| |?|?|?|?|session] eqn:Hc; simpl;
      try (destruct (bool_decide _));
      try (do 2 eexists; split; [reflexivity|]; split; [reflexivity|];
           simpl; split; [done|]; intros _ ? ?; congruence).
    destruct (Js.strict_eq _ _) eqn:Hs;
      (do 2 eexists; split; [reflexivity|]; split; [reflexivity|];
       simpl; split; [done|]; intros _ ? [= <-]; simpl; by rewrite Hs).
Qed.

(** C6.  For an identified caller [U] with a body, the options sent to
    the payments provider have [customerMetadata.clerk_user_id] = [U],
    whatever the body carries there.  When the provider answers with a
    session, that session is the response: with status 200 when its
    [customerMetadata.clerk_user_id] is [U], with status 201 when it is
    anything else. *)
Theorem create_checkout_carries_identity
    (req : Request JsVal) (w : World) (U : string) :
  auth_userId req = Some U ->
  U ≠ "" ->
  body_missing_or_empty (body req) = false ->
  exists options customerMetadata r w',
    post_create_checkout env req w = (r, w')
    /\ calls w' = calls w ++ [PolarCheckoutsCreate options]
    /\ options !! "customerMetadata" = Some (JObj customerMetadata)
    /\ customerMetadata !! "clerk_user_id" = Some (JStr U)
    /\ (faults w (length (calls w)) = None ->
        forall session, polar_created w options = JObj session ->
          let echoed :=
            Js.opt_prop (Js.opt_prop (JObj session) "customerMetadata") "clerk_user_id" in
          (echoed = JStr U -> r = Returned (res_json (JObj session)))
          /\ (echoed ≠ JStr U -> r = Returned (res_status_json 201 (JObj session)))).
Proof.
  intros Hauth HU Hbody.
  destruct (post_create_checkout_identified req w U Hauth HU Hbody)
    as (options & r & w' & Hopt & Hrun & Hcalls & Hres).
  rewrite (checkoutOptions_returns _ _ Hbody) in Hopt. injection Hopt as <-.
  eexists _, _, r, w'. split; [exact Hrun|]. split; [exact Hcalls|].
  split; [by rewrite lookup_delete_ne, lookup_insert_eq|].
  split; [by rewrite lookup_insert_eq|].
  intros Hf session Hs echoed. specialize (Hres Hf session Hs). fold echoed in Hres.
  split; intros He.
  - apply strict_eq_string in He. by rewrite He in Hres.
  - destruct (Js.strict_eq echoed (JStr U)) eqn:Heq; [|done].
    by apply strict_eq_string in Heq.
Qed.

(** C10.  For an identified caller [U] with a body, the options sent to
    the payments provider never have a [customer_metadata] key, and
    their [customerMetadata] is the caller's with [clerk_user_id] set to
    [U]: the caller's [customerMetadata] when that is given, whatever
    [customer_metadata] holds; the caller's [customer_metadata] when
    [customerMetadata] is absent or falsy; nothing but [clerk_user_id]
    when neither is given. *)
Theorem create_checkout_merges_caller_metadata
    (req : Request JsVal) (w : World) (U : string) :
  auth_userId req = Some U ->
  U ≠ "" ->
  body_missing_or_empty (body req) = false ->
  exists options r w',
    post_create_checkout env req w = (r, w')
    /\ calls w' = calls w ++ [PolarCheckoutsCreate options]
    /\ options !! "customer_metadata" = None
    /\ options !! "customerMetadata" =
         Some (JObj (<["clerk_user_id" := JStr U]>
                       (Js.own_props (chosen_metadata (body req)))))
    /\ (forall camel,
          Js.opt_prop (body req) "customerMetadata" = JObj camel ->
          chosen_metadata (body req) = JObj camel)
    /\ (forall snake,
          Js.truthy (Js.opt_prop (body req) "customerMetadata") = false ->
          Js.opt_prop (body req) "customer_metadata" = JObj snake ->
          chosen_metadata (body req) = JObj snake)
    /\ (Js.truthy (Js.opt_prop (body req) "customerMetadata") = false ->
        Js.truthy (Js.opt_prop (body req) "customer_metadata") = false ->
        chosen_metadata (body req) = JObj ∅).
Proof.
  intros Hauth HU Hbody.
  destruct (post_create_checkout_identified req w U Hauth HU Hbody)
    as (options & r & w' & Hopt & Hrun & Hcalls & _).
  rewrite (checkoutOptions_returns _ _ Hbody) in Hopt. injection Hopt as <-.
  eexists _, r, w'. split; [exact Hrun|]. split; [exact Hcalls|].
  split; [by rewrite lookup_delete_eq|].
  split; [by rewrite lookup_delete_ne, lookup_insert_eq|].
  unfold chosen_metadata, Js.or. repeat split.
  - by intros camel ->.
  - by intros snake -> ->.
  - by intros -> ->.
Qed.

End Authenticated.


(* ===================================================================== *)
(** * GET /api/products *)
(* ===================================================================== *)

Section Products.

Variable ToNumber_text : JsVal -> JsNumber.

Lemma zero_cents : Js.div (Js.num 0) 100 = Js.num 0.
Proof. unfold Js.div, Js.num. f_equal. by apply Qc_is_canon. Qed.

Lemma rawAmount_default (p : JsVal) :
  missing p "price_amount" -> missing p "priceAmount" ->
  rawAmount p = JNum (Js.num 0).
Proof. unfold missing, rawAmount. by intros -> ->. Qed.

Lemma rawCurrency_default (p : JsVal) :
  missing p "price_currency" -> missing p "priceCurrency" ->
  rawCurrency p = JStr "usd".
Proof. unfold missing, rawCurrency. by intros -> ->. Qed.

(** With string currencies the operand of [toUpperCase] is a string. *)
Lemma rawCurrency_string (p : JsVal) :
  string_if_present p "price_currency" ->
  string_if_present p "priceCurrency" ->
  exists s, rawCurrency p = JStr s.
Proof.
  unfold string_if_present, missing, rawCurrency, Js.or.
  intros [->|[s1 ->]] [->|[s2 ->]]; simpl;
    repeat (destruct (bool_decide _); simpl); eauto.
Qed.

Lemma rawAmount_snake (p : JsVal) (n : JsNumber) :
  Js.opt_prop p "price_amount" = JNum n -> rawAmount p = JNum n.
Proof. unfold rawAmount. by intros ->. Qed.

Lemma rawAmount_camel (p : JsVal) (n : JsNumber) :
  missing p "price_amount" -> Js.opt_prop p "priceAmount" = JNum n ->
  rawAmount p = JNum n.
Proof. unfold missing, rawAmount. by intros -> ->. Qed.

Lemma rawCurrency_snake (p : JsVal) (s : string) :
  s ≠ "" -> Js.opt_prop p "price_currency" = JStr s -> rawCurrency p = JStr s.
Proof.
  intros Hs. unfold rawCurrency, Js.or. intros ->.
  by rewrite !(truthy_string s Hs).
Qed.

Lemma rawCurrency_camel (p : JsVal) (s : string) :
  s ≠ "" -> missing p "price_currency" -> Js.opt_prop p "priceCurrency" = JStr s ->
  rawCurrency p = JStr s.
Proof.
  intros Hs. unfold missing, rawCurrency, Js.or. intros -> ->. simpl.
  by rewrite !bool_decide_eq_false_2.
Qed.

(** One turn of the loop on a product with string currencies. *)
Lemma format_product_returns (item : Product) (w : World) :
  currency_typed item ->
  exists formatted,
    format_product ToNumber_text item w
      = (Returned formatted, with_console w (price_structure item))
    /\ price formatted = Js.div (ToNumber ToNumber_text (rawAmount (priceData item))) 100
    /\ (forall s, rawCurrency (priceData item) = JStr s ->
        currency formatted = Js.toUpperCase s).
Proof.
  intros [H1 H2].
  destruct (rawCurrency_string _ H1 H2) as [s Hs].
  unfold format_product. js_run. rewrite Hs. simpl.
  eexists. split; [reflexivity|]. split; [done|]. simpl.
  by intros ? [= ->].
Qed.

(** The whole loop. *)
Lemma format_products_returns (l : list Product) (w : World) :
  Forall currency_typed l ->
  exists formattedProducts w',
    format_products ToNumber_text l w = (Returned formattedProducts, w')
    /\ length formattedProducts = length l
    /\ calls w' = calls w.
Proof.
  revert w. induction l as [|item l IH]; intros w Hl.
  - by exists [], w.
  - inversion Hl as [|? ? Hitem Hl']; subst.
    destruct (format_product_returns item w Hitem) as (f & Hrun & _).
    destruct (IH (with_console w (price_structure item)) Hl')
      as (fl & w' & Hrun' & Hlen & Hcalls).
    exists (f :: fl), w'. simpl.
    rewrite (bind_returned _ _ _ _ _ Hrun), (bind_returned _ _ _ _ _ Hrun').
    simpl. by rewrite Hlen.
Qed.

(** The handler: when the provider answers the list call with products
    whose currencies are typed, the answer is 200 with one reshaped entry
    per product. *)
Lemma get_api_products_responds {B} (req : Request B) (w : World) :
  faults w (length (calls w)) = None ->
  Forall currency_typed (productsList (polar_products w)) ->
  exists formattedProducts w',
    get_api_products ToNumber_text req w
      = (Returned (res_json (JObj {[ "products" := JArr (formatted_json <$> formattedProducts) ]})),
         w')
    /\ length formattedProducts = length (productsList (polar_products w))
    /\ calls w' = calls w ++ [PolarProductsList true false].
Proof.
  intros Hf Htyped.
  unfold get_api_products, polar_products_list, try_catch, provider_call.
  unfold bind at 1. unfold console_log, console_write.
  unfold bind at 1. simpl. rewrite Hf.
  unfold bind at 1. simpl.
  match goal with
  | |- context [bind (format_products _ _) _ ?w0] =>
      destruct (format_products_returns (productsList (polar_products w)) w0 Htyped)
        as (fl & w' & Hrun & Hlen & Hcalls)
  end.
  rewrite (bind_returned _ _ _ _ _ Hrun). simpl in Hcalls.
  by exists fl, w'.
Qed.

(** C8.  A product whose first price object has its currency fields
    either missing or strings, as the provider types them, is reshaped
    without a throw, and its price is the raw amount divided by 100.
    When the price object has neither [price_amount] nor [priceAmount]
    the price is 0; when it has neither [price_currency] nor
    [priceCurrency] the currency is ["USD"]; when it has only one of
    the two spellings, that one is used.  A list of such products is
    reshaped whole, one entry per product, without a provider call. *)
Theorem products_price_defaults (item : Product) (w : World) :
  currency_typed item ->
  let p := priceData item in
  (exists formatted,
     format_product ToNumber_text item w
       = (Returned formatted, with_console w (price_structure item))
     /\ price formatted = Js.div (ToNumber ToNumber_text (rawAmount p)) 100
     /\ (missing p "price_amount" -> missing p "priceAmount" ->
         price formatted = Js.num 0)
     /\ (missing p "price_currency" -> missing p "priceCurrency" ->
         currency formatted = "USD")
     /\ (forall n, Js.opt_prop p "price_amount" = JNum n ->
         price formatted = Js.div n 100)
     /\ (forall n, missing p "price_amount" -> Js.opt_prop p "priceAmount" = JNum n ->
         price formatted = Js.div n 100)
     /\ (forall s, s ≠ "" -> Js.opt_prop p "price_currency" = JStr s ->
         currency formatted = Js.toUpperCase s)
     /\ (forall s, s ≠ "" -> missing p "price_currency" ->
         Js.opt_prop p "priceCurrency" = JStr s ->
         currency formatted = Js.toUpperCase s))
  /\ (forall rest,
       Forall currency_typed rest ->
       exists formattedProducts w',
         format_products ToNumber_text (item :: rest) w = (Returned formattedProducts, w')
         /\ length formattedProducts = S (length rest)
         /\ calls w' = calls w).
Proof.
  intros Htyped p. split.
  - destruct (format_product_returns item w Htyped) as (formatted & Hrun & Hprice & Hcur).
    fold p in Hprice, Hcur.
    exists formatted. split; [done|]. split; [done|]. repeat split.
    + intros Ha Hb. rewrite Hprice, (rawAmount_default _ Ha Hb). exact zero_cents.
    + intros Ha Hb. by rewrite (Hcur "usd" (rawCurrency_default _ Ha Hb)).
    + intros n Hn. by rewrite Hprice, (rawAmount_snake _ _ Hn).
    + intros n Ha Hn. by rewrite Hprice, (rawAmount_camel _ _ Ha Hn).
    + intros s Hs Hc. by apply Hcur, rawCurrency_snake.
    + intros s Hs Ha Hc. by apply Hcur, rawCurrency_camel.
  - intros rest Hrest.
    destruct (format_products_returns (item :: rest) w) as (fl & w' & Hrun & Hlen & Hcalls);
      [by constructor|].
    by exists fl, w'.
Qed.

End Products.


(* ===================================================================== *)
(** * The properties at work on concrete requests *)
(* ===================================================================== *)

(** A forged signature: 403, and nothing touched. *)
Lemma webhook_invalid_signature_witness :
  exists w',
    post_webhook Examples.env Examples.validateEvent
      (Examples.forged "subscription.active") Examples.world
      = (Returned (res_status_send 403 ""), w')
    /\ calls w' = []
    /\ clerk_users w' = clerk_users Examples.world
    /\ polar_checkouts w' = polar_checkouts Examples.world.
Proof.
  apply (webhook_invalid_signature_is_rejected Examples.env Examples.validateEvent
           (Examples.forged "subscription.active") Examples.world
           Examples.WebhookVerificationError);
    reflexivity.
Defined.

(** A signed [subscription.active] event for [user_1]. *)
Lemma active_event_witness :
  exists w',
    post_webhook Examples.env Examples.validateEvent
      (Examples.signed "subscription.active") Examples.world
      = (Returned (res_status_send 202 ""), w')
    /\ stored_metadata w' "user_1"
       = Some (JObj {[ "subscriptionId" := JStr "sub_2";
                       "customerId" := JStr "cus_2";
                       "plan" := JStr "pro";
                       "status" := JStr "active" ]}).
Proof.
  destruct (active_event_sets_metadata Examples.env Examples.validateEvent
              (Examples.signed "subscription.active") Examples.world
              Examples.active_event (JStr "chk_1") Examples.checkout "user_1")
    as (r & w' & Hrun & _ & Hstore); try reflexivity; try discriminate.
  destruct Hstore as [-> Hs]; [by eexists | reflexivity |].
  exists w'. split; assumption.
Defined.

(** A signed [subscription.revoked] event for [user_1], who already has a
    subscription id and a theme on file. *)
Lemma revoked_event_witness :
  exists updated w',
    post_webhook Examples.env Examples.validateEvent
      (Examples.signed "subscription.revoked") Examples.world
      = (Returned (res_status_send 202 ""), w')
    /\ stored_metadata w' "user_1" = Some (JObj updated)
    /\ updated !! "subscriptionId" = Some (JStr "sub_1")
    /\ updated !! "customerId" = Some (JStr "cus_2")
    /\ updated !! "plan" = Some (JStr "free")
    /\ updated !! "status" = Some (JStr "revoked")
    /\ updated !! "theme" = Some (JStr "dark").
Proof.
  destruct (revoked_event_merges_metadata Examples.env Examples.validateEvent
              (Examples.signed "subscription.revoked") Examples.world
              Examples.revoked_event (JStr "chk_1") Examples.checkout "user_1"
              (<["theme" := JStr "dark"]> (<["subscriptionId" := JStr "sub_1"]> ∅)))
    as (updated & w' & Hrun & _ & Hstore & Hkept & _ & Hcustomer & Hplan & Hstatus & Hother);
    try reflexivity; try discriminate.
  exists updated, w'. repeat split; try assumption.
  - apply Hkept; reflexivity.
  - rewrite Hother; [reflexivity|]. intros H.
    repeat (apply elem_of_cons in H; destruct H as [H|H]; [discriminate H|]).
    by apply elem_of_nil in H.
Defined.

(** The payments provider is down while a signed [subscription.active]
    event comes in: the lookup throws and the answer is 500, not 202. *)
Lemma webhook_lookup_failure_is_500 :
  Examples.validateEvent (body (Examples.signed "subscription.active"))
    (headers (Examples.signed "subscription.active"))
    (POLAR_WEBHOOK_SECRET Examples.env)
    = Returned Examples.active_event
  /\ exists resp w',
      post_webhook Examples.env Examples.validateEvent
        (Examples.signed "subscription.active") Examples.world_down
        = (Returned resp, w')
      /\ status resp = 500
      /\ status resp ≠ 202.
Proof.
  split; [reflexivity|]. do 2 eexists. split; [reflexivity|]. split; [reflexivity|].
  discriminate.
Qed.

Lemma verified_webhook_response_witness :
  (exists w',
     post_webhook Examples.env Examples.validateEvent
       (Examples.signed "subscription.active") Examples.world_down
       = (Returned (res_status_send 500 "Internal Server Error"), w')
     /\ calls w' = [PolarCheckoutsGet (JStr "chk_1")]
     /\ clerk_users w' = clerk_users Examples.world_down
     /\ last (console w') = Some (processing_error Examples.NetworkError))
  /\ (exists w',
       post_webhook Examples.env Examples.validateEvent
         (Examples.signed "subscription.active")
         (Scenarios.failing_at 1 Examples.NetworkError Examples.world)
         = (Returned (res_status_send 500 "Internal Server Error"), w')
       /\ calls w' = [PolarCheckoutsGet (JStr "chk_1");
                      ClerkUsersUpdateUserMetadata (JStr "user_1")
                        (active_metadata Examples.subscription)]
       /\ clerk_users w' = clerk_users Examples.world
       /\ last (console w') = Some (processing_error Examples.NetworkError)).
Proof.
  split.
  - destruct (verified_webhook_response Examples.env Examples.validateEvent
                (Examples.signed "subscription.active") Examples.world_down
                Examples.active_event)
      as (_ & _ & _ & Hlookup & _); [reflexivity|].
    apply (Hlookup (JStr "chk_1") Examples.NetworkError); try reflexivity.
    left; reflexivity.
  - destruct (verified_webhook_response Examples.env Examples.validateEvent
                (Examples.signed "subscription.active")
                (Scenarios.failing_at 1 Examples.NetworkError Examples.world)
                Examples.active_event)
      as (_ & _ & _ & _ & Hlater); [reflexivity|].
    destruct (Hlater (JStr "chk_1") Examples.checkout "user_1" Examples.NetworkError)
      as [Hupdate _]; [first [reflexivity | discriminate]..|].
    apply Hupdate; reflexivity.
Defined.

(** The two variants on a signed [subscription.active] event, and on a
    signed [subscription.revoked] event for [user_1], who has a
    subscription id and a theme on file. *)
Lemma webhook_variants_agree_witness :
  (exists r w1 w2,
     post_webhook_part_000 Examples.env Examples.validateEvent
       (Examples.signed "subscription.active") Examples.world = (r, w1)
     /\ post_webhook Examples.env Examples.validateEvent
          (Examples.signed "subscription.active") Examples.world = (r, w2)
     /\ same_providers w1 w2)
  /\ (exists updated w1 w2,
       post_webhook_part_000 Examples.env Examples.validateEvent
         (Examples.signed "subscription.revoked") Examples.world
         = (Returned (res_status_send 202 ""), w1)
       /\ calls w1 = []
       /\ stored_metadata w1 "user_1" = stored_metadata Examples.world "user_1"
       /\ post_webhook Examples.env Examples.validateEvent
            (Examples.signed "subscription.revoked") Examples.world
          = (Returned (res_status_send 202 ""), w2)
       /\ stored_metadata w2 "user_1" = Some (JObj updated)
       /\ updated !! "subscriptionId" = Some (JStr "sub_1")
       /\ updated !! "customerId" = Some (JStr "cus_2")
       /\ updated !! "plan" = Some (JStr "free")
       /\ updated !! "status" = Some (JStr "revoked")
       /\ updated !! "theme" = Some (JStr "dark")).
Proof.
  split.
  - destruct (webhook_variants_agree Examples.env Examples.validateEvent
                (Examples.signed "subscription.active") Examples.world)
      as (Hsame & _ & _).
    apply Hsame. intros event [= <-]. discriminate.
  - destruct (webhook_variants_agree Examples.env Examples.validateEvent
                (Examples.signed "subscription.revoked") Examples.world)
      as (_ & _ & Hrevoked).
    destruct (Hrevoked Examples.revoked_event (JStr "chk_1") Examples.checkout "user_1"
                (<["theme" := JStr "dark"]> (<["subscriptionId" := JStr "sub_1"]> ∅)))
      as (updated & w1 & w2 & Hfirst & Hcalls1 & Hstore1 & Hsecond & _ & Hstore2
          & Hkept & _ & Hcustomer & Hplan & Hstatus & Hother);
      [first [reflexivity | discriminate]..|].
    exists updated, w1, w2.
    split; [exact Hfirst|]. split; [exact Hcalls1|]. split; [exact Hstore1|].
    split; [exact Hsecond|]. split; [exact Hstore2|].
    split; [apply Hkept; reflexivity|].
    split; [exact Hcustomer|]. split; [exact Hplan|]. split; [exact Hstatus|].
    rewrite Hother; [reflexivity|]. intros H.
    repeat (apply elem_of_cons in H; destruct H as [H|H]; [discriminate H|]).
    by apply elem_of_nil in H.
Defined.

(** Nobody is signed in and the body is empty: the answer is 400, not
    401. *)
Lemma anonymous_empty_checkout_is_400 :
  auth_userId (Examples.anonymous (JObj ∅)) = None
  /\ exists resp,
      post_create_checkout Examples.env (Examples.anonymous (JObj ∅)) Examples.world
        = (Returned resp, Examples.world)
      /\ status resp = 400
      /\ status resp ≠ 401.
Proof.
  split; [reflexivity|]. eexists. split; [reflexivity|]. split; [reflexivity|].
  discriminate.
Qed.

Lemma unauthenticated_requests_witness :
  get_test_auth (Examples.anonymous Examples.order) Examples.world
    = (Returned Unauthorized, Examples.world)
  /\ get_api_create_portal_session (Examples.anonymous Examples.order) Examples.world
    = (Returned Unauthorized, Examples.world)
  /\ post_create_checkout Examples.env (Examples.anonymous Examples.order) Examples.world
    = (Returned Unauthorized, Examples.world).
Proof.
  destruct (unauthenticated_requests_reach_no_provider Examples.env Examples.world)
    as (Htest & Hportal & Hcheckout).
  split; [by apply Htest|]. split; [by apply Hportal|].
  destruct (Hcheckout (Examples.anonymous Examples.order)) as (resp & Hrun & _ & Hresp);
    [reflexivity|].
  rewrite Hrun, Hresp; reflexivity.
Defined.

(** [user_1] orders with another identity written into the metadata. *)
Lemma create_checkout_carries_identity_witness :
  exists options customerMetadata w',
    post_create_checkout Examples.env (Examples.as_user "user_1" Examples.order)
      Examples.world
      = (Returned (res_json (JObj (<["id" := JStr "chk_9"]> options))), w')
    /\ calls w' = [PolarCheckoutsCreate options]
    /\ options !! "customerMetadata" = Some (JObj customerMetadata)
    /\ customerMetadata !! "clerk_user_id" = Some (JStr "user_1").
Proof.
  destruct (create_checkout_carries_identity Examples.env
              (Examples.as_user "user_1" Examples.order) Examples.world "user_1")
    as (options & customerMetadata & r & w' & Hrun & Hcalls & Hmeta & Hid & Hanswer);
    [reflexivity | discriminate | reflexivity |].
  assert (Hecho : Js.opt_prop (Js.opt_prop (JObj (<["id" := JStr "chk_9"]> options))
                                 "customerMetadata") "clerk_user_id" = JStr "user_1").
  { cbn [Js.opt_prop]. rewrite lookup_insert_ne by discriminate. rewrite Hmeta.
    cbn [Js.opt_prop default from_option Datatypes.id]. rewrite Hid. reflexivity. }
  destruct (Hanswer eq_refl (<["id" := JStr "chk_9"]> options) eq_refl) as [Hok _].
  rewrite (Hok Hecho) in Hrun.
  exists options, customerMetadata, w'.
  split; [exact Hrun|]. split; [exact Hcalls|]. split; [exact Hmeta|exact Hid].
Defined.

Lemma create_checkout_empty_body_witness :
  post_create_checkout Examples.env (Examples.as_user "user_1" (JObj ∅)) Examples.world
  = (Returned (res_status_json 400
                 (JObj {[ "error" := JStr "Request body is missing or empty" ]})),
     Examples.world).
Proof.
  apply (create_checkout_empty_body_is_bad_request Examples.env
           (Examples.as_user "user_1" (JObj ∅)) Examples.world).
  exact body_empty_object.
Defined.

(** The metadata of the order reaches the provider under the camelCase
    key, with the caller's identity in place of the one written there. *)
Lemma create_checkout_merges_caller_metadata_witness :
  exists options w',
    calls w' = [PolarCheckoutsCreate options]
    /\ options !! "customer_metadata" = None
    /\ options !! "customerMetadata"
       = Some (JObj (<["clerk_user_id" := JStr "user_1"]>
                       (<["team" := JStr "blue"]>
                          (<["clerk_user_id" := JStr "user_666"]> ∅)))).
Proof.
  destruct (create_checkout_merges_caller_metadata Examples.env
              (Examples.as_user "user_1" Examples.order) Examples.world "user_1")
    as (options & r & w' & _ & Hcalls & Hsnake & Hcamel & _);
    try reflexivity; try discriminate.
  by exists options, w'.
Defined.

(** A product whose price object has none of the four fields. *)
Lemma products_price_defaults_witness :
  exists formatted,
    format_product Examples.ToNumber_text Examples.pro_plan Examples.world
      = (Returned formatted,
         with_console Examples.world (price_structure Examples.pro_plan))
    /\ price formatted = Js.num 0
    /\ currency formatted = "USD".
Proof.
  destruct (products_price_defaults Examples.ToNumber_text Examples.pro_plan
              Examples.world)
    as [(formatted & Hrun & _ & Hprice & Hcurrency & _) _].
  - split; left; reflexivity.
  - exists formatted. split; [exact Hrun|].
    split; [apply Hprice | apply Hcurrency]; reflexivity.
Defined.


(* ===================================================================== *)
(** * The footprint of the handlers *)
(* ===================================================================== *)

Section Footprint.

Variable K : Call -> bool.

Lemma same_but_metadata_refl (u : option (gmap string JsVal)) : same_but_metadata u u.
Proof. by destruct u. Qed.

Lemma same_but_metadata_trans (u1 u2 u3 : option (gmap string JsVal)) :
  same_but_metadata u1 u2 -> same_but_metadata u2 u3 -> same_but_metadata u1 u3.
Proof.
  destruct u1, u2, u3; simpl; try done.
  intros H12 H23 k Hk. by rewrite H23, H12.
Qed.

Lemma evolves_refl (w : World) : evolves K w w.
Proof.
  split; try done.
  - exists []. by rewrite app_nil_r.
  - intros V. apply same_but_metadata_refl.
Qed.

Lemma evolves_trans (w1 w2 w3 : World) :
  evolves K w1 w2 -> evolves K w2 w3 -> evolves K w1 w3.
Proof.
  intros [? ? ? ? ? (l1 & Hl1 & HK1 & Hq1) ? Hu1] [? ? ? ? ? (l2 & Hl2 & HK2 & Hq2) ? Hu2].
  split; try congruence.
  - exists (l1 ++ l2). split; [by rewrite Hl2, Hl1, app_assoc|].
    split; [by apply Forall_app|].
    intros [H1 H2]%Forall_app. by rewrite Hq2, Hq1.
  - by etrans.
  - intros V. by eapply same_but_metadata_trans.
Qed.

Lemma maintains_ret {A} (a : A) : maintains K (ret a).
Proof. intros w. apply evolves_refl. Qed.

Lemma maintains_lift {A} (o : Outcome A) : maintains K (lift o).
Proof. intros w. apply evolves_refl. Qed.

Lemma maintains_bind {A B} (m : M A) (k : A -> M B) :
  maintains K m -> (forall a, maintains K (k a)) -> maintains K (bind m k).
Proof.
  intros Hm Hk w. unfold bind. specialize (Hm w).
  destruct (m w) as [[a|e] w1]; simpl in *; [|done].
  eapply evolves_trans; [exact Hm|apply Hk].
Qed.

Lemma maintains_try_catch {A} (m : M A) (h : JsError -> M A) :
  maintains K m -> (forall e, maintains K (h e)) -> maintains K (try_catch m h).
Proof.
  intros Hm Hh w. unfold try_catch. specialize (Hm w).
  destruct (m w) as [[a|e] w1]; simpl in *; [done|].
  eapply evolves_trans; [exact Hm|apply Hh].
Qed.

Lemma maintains_console_write (l : Level) (a : list LogArg) :
  maintains K (console_write l a).
Proof.
  intros w. split; simpl; try done.
  - exists []. by rewrite app_nil_r.
  - by apply prefix_app_r.
  - intros V. apply same_but_metadata_refl.
Qed.

Lemma evolves_with_call (w : World) (c : Call) :
  K c = true -> is_metadata_update c = false -> evolves K w (with_call w c).
Proof.
  intros HK Hc. split; simpl; try done.
  - exists [c]. split; [done|]. split; [by repeat constructor|done].
  - intros V. apply same_but_metadata_refl.
Qed.

Lemma maintains_polar_checkouts_get (id : JsVal) :
  K (PolarCheckoutsGet id) = true -> maintains K (polar_checkouts_get id).
Proof.
  intros HK w. unfold polar_checkouts_get, provider_call.
  destruct (faults w _); [by apply evolves_with_call|].
  destruct (find_by_id _ _); by apply evolves_with_call.
Qed.

Lemma maintains_polar_checkouts_create (options : gmap string JsVal) :
  K (PolarCheckoutsCreate options) = true -> maintains K (polar_checkouts_create options).
Proof.
  intros HK w. unfold polar_checkouts_create, provider_call.
  destruct (faults w _); by apply evolves_with_call.
Qed.

Lemma maintains_polar_customerSessions_create (customerId : JsVal) :
  K (PolarCustomerSessionsCreate customerId) = true ->
  maintains K (polar_customerSessions_create customerId).
Proof.
  intros HK w. unfold polar_customerSessions_create, provider_call.
  destruct (faults w _); by apply evolves_with_call.
Qed.

Lemma maintains_polar_products_list (isRecurring isArchived : bool) :
  K (PolarProductsList isRecurring isArchived) = true ->
  maintains K (polar_products_list isRecurring isArchived).
Proof.
  intros HK w. unfold polar_products_list, provider_call.
  destruct (faults w _); by apply evolves_with_call.
Qed.

Lemma maintains_getUser (userId : JsVal) :
  K (ClerkUsersGetUser userId) = true -> maintains K (clerkClient_users_getUser userId).
Proof.
  intros HK w. unfold clerkClient_users_getUser, provider_call.
  destruct (faults w _); [by apply evolves_with_call|].
  destruct (find_by_id _ _); by apply evolves_with_call.
Qed.

Lemma maintains_updateUserMetadata (userId : JsVal) (publicMetadata : gmap string JsVal) :
  K (ClerkUsersUpdateUserMetadata userId publicMetadata) = true ->
  maintains K (clerkClient_users_updateUserMetadata userId publicMetadata).
Proof.
  intros HK w. unfold clerkClient_users_updateUserMetadata, provider_call.
  set (c := ClerkUsersUpdateUserMetadata userId publicMetadata).
  assert (Hquiet : evolves K w (with_call w c)).
  { split; simpl; try done.
    - exists [c]. split; [done|]. split; [by repeat constructor|done].
    - intros V. apply same_but_metadata_refl. }
  destruct (faults w _); [done|].
  destruct userId as [| | | |s| |]; try done. simpl.
  destruct (clerk_users w !! s) as [user|] eqn:Hs; [|done].
  split; simpl; try done.
  - exists [c]. split; [done|]. split; [by repeat constructor|].
    intros H. inversion H as [|? ? Hc _]. discriminate Hc.
  - intros V. destruct (decide (V = s)) as [->|Hne].
    + rewrite Hs, lookup_insert_eq. simpl. intros k Hk. by rewrite lookup_insert_ne.
    + rewrite lookup_insert_ne by done. apply same_but_metadata_refl.
Qed.

End Footprint.


Ltac footprint_tac :=
  repeat first
    [ apply maintains_bind; [|intros ?]
    | apply maintains_try_catch; [|intros ?]
    | apply maintains_ret
    | apply maintains_lift
    | apply maintains_console_write
    | apply maintains_polar_checkouts_get; reflexivity
    | apply maintains_polar_checkouts_create; reflexivity
    | apply maintains_polar_customerSessions_create; reflexivity
    | apply maintains_polar_products_list; reflexivity
    | apply maintains_getUser; reflexivity
    | apply maintains_updateUserMetadata; reflexivity
    | match goal with |- maintains _ (if ?b then _ else _) => destruct b end ].

Section HandlerFootprints.

Variable env : ProcessEnv.
Variable validateEvent : Buffer -> Headers -> option string -> Outcome Event.
Variable ToNumber_text : JsVal -> JsNumber.

Lemma maintains_on_subscription_active (K : Call -> bool) (event : Event) :
  (forall c, webhook_part_000_call c = true -> K c = true) ->
  maintains K (on_subscription_active event).
Proof.
  intros HK. unfold on_subscription_active.
  repeat first
    [ apply maintains_polar_checkouts_get; by apply HK
    | apply maintains_updateUserMetadata; by apply HK
    | progress footprint_tac ].
Qed.

Lemma maintains_on_subscription_revoked (event : Event) :
  maintains webhook_call (on_subscription_revoked event).
Proof. unfold on_subscription_revoked. footprint_tac. Qed.

Lemma maintains_webhook_catch (K : Call -> bool) (error : JsError) :
  maintains K (webhook_catch error).
Proof. unfold webhook_catch. footprint_tac. Qed.

Lemma maintains_post_webhook (req : Request Buffer) :
  maintains webhook_call (post_webhook env validateEvent req).
Proof.
  unfold post_webhook, process_event.
  repeat first
    [ apply maintains_on_subscription_active; by intros []
    | apply maintains_on_subscription_revoked
    | apply maintains_webhook_catch
    | progress footprint_tac ].
Qed.

Lemma maintains_post_webhook_part_000 (req : Request Buffer) :
  maintains webhook_part_000_call (post_webhook_part_000 env validateEvent req).
Proof.
  unfold post_webhook_part_000, process_event_part_000.
  repeat first
    [ apply maintains_on_subscription_active; by intros []
    | apply maintains_webhook_catch
    | progress footprint_tac ].
Qed.

Lemma maintains_get_test_auth {B} (req : Request B) :
  maintains no_call (get_test_auth req).
Proof. unfold get_test_auth. footprint_tac. Qed.

Lemma maintains_get_api_create_portal_session {B} (req : Request B) :
  maintains portal_call (get_api_create_portal_session req).
Proof. unfold get_api_create_portal_session. footprint_tac. Qed.

Lemma maintains_post_create_checkout (req : Request JsVal) :
  maintains checkout_call (post_create_checkout env req).
Proof. unfold post_create_checkout, create_checkout_catch. footprint_tac. Qed.

Lemma maintains_format_products (K : Call -> bool) (l : list Product) :
  maintains K (format_products ToNumber_text l).
Proof.
  induction l as [|item l IH]; simpl; [apply maintains_ret|].
  unfold format_product. footprint_tac. exact IH.
Qed.

Lemma maintains_get_api_products {B} (req : Request B) :
  maintains products_call (get_api_products ToNumber_text req).
Proof.
  unfold get_api_products.
  repeat first [ apply maintains_format_products | progress footprint_tac ].
Qed.

(** X1.  Whatever the request, the webhook handler of either variant
    calls nothing but the checkout lookup, the user read and the metadata
    update (the first variant never reads a user); it leaves the payments
    provider's data and the faults as they were, only appends to the
    record of calls and to the console, leaves the users untouched unless
    it sends a metadata update, and never adds a user, drops one, or
    changes a user outside [publicMetadata]. *)
Theorem webhook_footprint (req : Request Buffer) (w : World) :
  evolves webhook_call w (post_webhook env validateEvent req w).2
  /\ evolves webhook_part_000_call w (post_webhook_part_000 env validateEvent req w).2.
Proof. split; [apply maintains_post_webhook | apply maintains_post_webhook_part_000]. Qed.

Lemma quiet_footprint (K : Call -> bool) (w w' : World) :
  (forall c, K c = true -> is_metadata_update c = false) ->
  evolves K w w' ->
  clerk_users w' = clerk_users w
  /\ exists l, calls w' = calls w ++ l /\ Forall (fun c => K c = true) l.
Proof.
  intros HK [_ _ _ _ _ (l & Hl & HKl & Hquiet) _ _]. split; [|by exists l].
  apply Hquiet. eapply Forall_impl; [exact HKl|]. exact HK.
Qed.

(** X2.  No endpoint other than the webhook writes to the Identity
    Provider: [/test-auth] calls no provider at all, the portal endpoint
    only reads the user and asks the payments provider for a session,
    [/create-checkout] only creates a checkout, [/api/products] only lists
    the recurring products that are not archived; after each of them the
    users are what they were. *)
Theorem only_the_webhook_writes_metadata (w : World) :
  (forall B (req : Request B),
     let w' := (get_test_auth req w).2 in
     clerk_users w' = clerk_users w /\ calls w' = calls w)
  /\ (forall B (req : Request B),
     let w' := (get_api_create_portal_session req w).2 in
     clerk_users w' = clerk_users w
     /\ exists l, calls w' = calls w ++ l /\ Forall (fun c => portal_call c = true) l)
  /\ (forall req : Request JsVal,
     let w' := (post_create_checkout env req w).2 in
     clerk_users w' = clerk_users w
     /\ exists l, calls w' = calls w ++ l /\ Forall (fun c => checkout_call c = true) l)
  /\ (forall B (req : Request B),
     let w' := (get_api_products ToNumber_text req w).2 in
     clerk_users w' = clerk_users w
     /\ exists l, calls w' = calls w ++ l /\ Forall (fun c => products_call c = true) l).
Proof.
  repeat split.
  - by destruct (quiet_footprint no_call w _ ltac:(by intros []) (maintains_get_test_auth req w)).
  - destruct (quiet_footprint no_call w _ ltac:(by intros []) (maintains_get_test_auth req w))
      as (_ & l & Hl & HK).
    destruct l as [|c l]; [by rewrite app_nil_r in Hl|].
    by inversion HK.
  - by destruct (quiet_footprint portal_call w _ ltac:(by intros [])
                   (maintains_get_api_create_portal_session req w)).
  - by destruct (quiet_footprint portal_call w _ ltac:(by intros [])
                   (maintains_get_api_create_portal_session req w)).
  - by destruct (quiet_footprint checkout_call w _ ltac:(by intros [])
                   (maintains_post_create_checkout req w)).
  - by destruct (quiet_footprint checkout_call w _ ltac:(by intros [])
                   (maintains_post_create_checkout req w)).
  - by destruct (quiet_footprint products_call w _ ltac:(by intros [])
                   (maintains_get_api_products req w)).
  - by destruct (quiet_footprint products_call w _ ltac:(by intros [])
                   (maintains_get_api_products req w)).
Qed.

End HandlerFootprints.


(* ===================================================================== *)
(** * Every request is answered *)
(* ===================================================================== *)

Section Answers.

Variable env : ProcessEnv.
Variable validateEvent : Buffer -> Headers -> option string -> Outcome Event.
Variable ToNumber_text : JsVal -> JsNumber.

Ltac answer :=
  do 2 eexists; split; [reflexivity|]; simpl;
  repeat first [apply list_elem_of_here | apply list_elem_of_further].

Lemma post_webhook_answers (req : Request Buffer) (w : World) :
  exists resp w',
    post_webhook env validateEvent req w = (Returned resp, w')
    /\ status resp ∈ [202; 403; 500].
Proof.
  unfold post_webhook, try_catch, bind, lift.
  destruct (validateEvent _ _ _) as [event|e].
  - destruct (process_event event w) as [[resp|e] w1] eqn:Hp.
    + rewrite (process_event_returns_202 _ _ _ _ Hp). answer.
    + rewrite webhook_catch_unfold. destruct (instanceof_WebhookVerificationError e); answer.
  - rewrite webhook_catch_unfold. destruct (instanceof_WebhookVerificationError e); answer.
Qed.

Lemma get_test_auth_answers {B} (req : Request B) (w : World) :
  exists resp w',
    get_test_auth req w = (Returned resp, w')
    /\ status resp ∈ [200; 401].
Proof. unfold get_test_auth. destruct (negb _); answer. Qed.

Lemma get_api_create_portal_session_answers {B} (req : Request B) (w : World) :
  exists resp w',
    get_api_create_portal_session req w = (Returned resp, w')
    /\ status resp ∈ [200; 401; 404; 500].
Proof.
  unfold get_api_create_portal_session, try_catch.
  destruct (negb (Js.truthy (getAuth req))); [answer|].
  unfold bind at 1.
  destruct (clerkClient_users_getUser _ _) as [[user|e] w1]; [|answer].
  unfold bind at 1, lift.
  destruct (Js.prop user "publicMetadata") as [pm|e]; [|answer].
  destruct (negb _); [answer|].
  unfold bind at 1.
  destruct (polar_customerSessions_create _ _) as [[session|e] w2]; [|answer].
  unfold bind at 1.
  destruct (Js.prop session "customerPortalUrl") as [url|e]; answer.
Qed.

Lemma post_create_checkout_answers (req : Request JsVal) (w : World) :
  exists resp w',
    post_create_checkout env req w = (Returned resp, w')
    /\ status resp ∈ [200; 201; 400; 401; 422; 500].
Proof.
  unfold post_create_checkout.
  destruct (body_missing_or_empty _); [answer|].
  destruct (negb _); [answer|].
  assert (Hcatch : forall e w0, exists resp w',
             create_checkout_catch e w0 = (Returned resp, w')
             /\ status resp ∈ [200; 201; 400; 401; 422; 500]).
  { intros e w0. unfold create_checkout_catch, bind, console_error, console_write.
    destruct (bool_decide _); answer. }
  unfold try_catch, bind at 1, lift.
  destruct (checkoutOptions _ _ _) as [options|e]; [|apply Hcatch].
  unfold bind at 1.
  destruct (polar_checkouts_create _ _) as [[session|e] w1]; [|apply Hcatch].
  unfold bind at 1.
  destruct (Js.prop session "customerMetadata") as [cm|e]; [|apply Hcatch].
  destruct (Js.strict_eq _ _); answer.
Qed.

Lemma get_api_products_answers {B} (req : Request B) (w : World) :
  exists resp w',
    get_api_products ToNumber_text req w = (Returned resp, w')
    /\ status resp ∈ [200; 500].
Proof.
  unfold get_api_products, try_catch.
  assert (Hcatch : forall e w0, exists resp w',
             (console_error [AStr "Erro ao processar produtos:"; AErr e] >>>
              (if Js.truthy (error_response e)
               then console_error [AStr "Detalhes da resposta:"; AJson (error_response e)]
               else ret tt) >>>
              ret (res_status_json 500
                     (JObj {[ "error" := JStr "Falha ao carregar os produtos." ]}))) w0
             = (Returned resp, w')
             /\ status resp ∈ [200; 500]).
  { intros e w0. unfold bind, console_error, console_write.
    destruct (Js.truthy _); answer. }
  unfold bind at 1, console_log, console_write.
  unfold bind at 1.
  destruct (polar_products_list _ _ _) as [[response|e] w1]; [|apply Hcatch].
  unfold bind at 1, console_write.
  unfold bind at 1.
  destruct (format_products _ _ _) as [[formatted|e] w2]; [answer|apply Hcatch].
Qed.

(** X3.  No exception escapes a handler: every request gets a response,
    and its status is one of those that the handler's code sends. *)
Theorem every_request_is_answered (w : World) :
  (forall req : Request Buffer,
     exists resp w',
       post_webhook env validateEvent req w = (Returned resp, w')
       /\ status resp ∈ [202; 403; 500])
  /\ (forall B (req : Request B),
       exists resp w',
         get_test_auth req w = (Returned resp, w') /\ status resp ∈ [200; 401])
  /\ (forall B (req : Request B),
       exists resp w',
         get_api_create_portal_session req w = (Returned resp, w')
         /\ status resp ∈ [200; 401; 404; 500])
  /\ (forall req : Request JsVal,
       exists resp w',
         post_create_checkout env req w = (Returned resp, w')
         /\ status resp ∈ [200; 201; 400; 401; 422; 500])
  /\ (forall B (req : Request B),
       exists resp w',
         get_api_products ToNumber_text req w = (Returned resp, w')
         /\ status resp ∈ [200; 500]).
Proof.
  repeat split; intros.
  - apply post_webhook_answers.
  - apply get_test_auth_answers.
  - apply get_api_create_portal_session_answers.
  - apply post_create_checkout_answers.
  - apply get_api_products_answers.
Qed.

End Answers.


(* ===================================================================== *)
(** * More on POST /webhook *)
(* ===================================================================== *)

Section WebhookEdges.

Variable env : ProcessEnv.
Variable validateEvent : Buffer -> Headers -> option string -> Outcome Event.

Abbreviation validated req :=
  (validateEvent (body req) (headers req) (POLAR_WEBHOOK_SECRET env)).

(** Case analysis on the innermost scrutinee first. *)
Ltac destruct_inner_match :=
  match goal with
  | |- context [match ?x with _ => _ end] =>
      lazymatch x with
      | context [match _ with _ => _ end] => fail
      | _ => destruct x eqn:?; simpl
      end
  end.

(** A branch that throws has not written any metadata. *)
Lemma on_subscription_active_thrown (event : Event) (w w1 : World) (e : JsError) :
  on_subscription_active event w = (Thrown e, w1) -> clerk_users w1 = clerk_users w.
Proof.
  unfold on_subscription_active, polar_checkouts_get, clerkClient_users_updateUserMetadata.
  js_run.
  repeat destruct_inner_match; by intros [= <- <-].
Qed.

Lemma on_subscription_revoked_thrown (event : Event) (w w1 : World) (e : JsError) :
  on_subscription_revoked event w = (Thrown e, w1) -> clerk_users w1 = clerk_users w.
Proof.
  unfold on_subscription_revoked, polar_checkouts_get, clerkClient_users_getUser,
    clerkClient_users_updateUserMetadata.
  js_run.
  repeat destruct_inner_match; by intros [= <- <-].
Qed.

(** The accepted [subscription.active] event. *)
Lemma post_webhook_active_accepted
    (req : Request Buffer) (w : World) (event : Event)
    (checkoutId checkout : JsVal) (U : string) (user : gmap string JsVal) :
  validated req = Returned event ->
  type event = "subscription.active" ->
  Js.opt_prop (data event) "checkoutId" = checkoutId ->
  Js.truthy checkoutId = true ->
  find_by_id (polar_checkouts w) checkoutId = Some checkout ->
  Js.opt_prop (Js.opt_prop checkout "customerMetadata") "clerk_user_id" = JStr U ->
  U ≠ "" ->
  clerk_users w !! U = Some user ->
  (forall i, i < 2 -> faults w (length (calls w) + i) = None) ->
  exists w',
    post_webhook env validateEvent req w = (Returned (res_status_send 202 ""), w')
    /\ calls w' = calls w ++ [PolarCheckoutsGet checkoutId;
                              ClerkUsersUpdateUserMetadata (JStr U)
                                (active_metadata (data event))]
    /\ clerk_users w'
       = <[U := <["publicMetadata" := JObj (active_metadata (data event))]> user]>
           (clerk_users w)
    /\ polar_checkouts w' = polar_checkouts w
    /\ faults w' = faults w.
Proof.
  intros Hv Hty Hcid Htr Hfind Hid HU Hu Hf.
  destruct (opt_prop_defined (data event) "checkoutId") as [sub Hsub];
    [rewrite Hcid; by apply truthy_defined|].
  destruct (opt_prop_defined _ _ ltac:(by rewrite Hid)) as [cm Hcm].
  destruct (opt_prop_defined checkout "customerMetadata" ltac:(by rewrite Hcm)) as [ck ->].
  pose proof (truthy_string U HU) as Hkey.
  pose proof (Hf 0 ltac:(lia)) as Hf0. rewrite Nat.add_0_r in Hf0.
  pose proof (Hf 1 ltac:(lia)) as Hf1.
  simpl in Hcm, Hid. rewrite Hcm in Hid. simpl in Hid.
  rewrite (post_webhook_verified env validateEvent req w event Hv), process_event_unfold.
  unfold active_metadata. rewrite Hsub in *. simpl in Hcid.
  unfold on_subscription_active, polar_checkouts_get, clerkClient_users_updateUserMetadata.
  js_run. rewrite Hty, Hsub. simpl.
  rewrite Hcid, Htr. simpl. rewrite Hf0, Hfind. simpl.
  rewrite Hcm. simpl. rewrite Hid, Hkey. simpl.
  rewrite length_app. simpl. rewrite Hf1, Hu.
  rewrite on_subscription_revoked_skip by (rewrite Hty; discriminate).
  eexists. split; [reflexivity|]. simpl. by rewrite <- !app_assoc.
Qed.

(** The accepted [subscription.revoked] event, whatever the Identity
    Provider holds as [publicMetadata] for the user. *)
Lemma post_webhook_revoked_accepted
    (req : Request Buffer) (w : World) (event : Event)
    (checkoutId checkout : JsVal) (U : string) (user : gmap string JsVal) :
  validated req = Returned event ->
  type event = "subscription.revoked" ->
  Js.opt_prop (data event) "checkoutId" = checkoutId ->
  Js.truthy checkoutId = true ->
  find_by_id (polar_checkouts w) checkoutId = Some checkout ->
  Js.opt_prop (Js.opt_prop checkout "customerMetadata") "clerk_user_id" = JStr U ->
  U ≠ "" ->
  clerk_users w !! U = Some user ->
  (forall i, i < 3 -> faults w (length (calls w) + i) = None) ->
  exists w',
    post_webhook env validateEvent req w = (Returned (res_status_send 202 ""), w')
    /\ calls w' = calls w ++ [PolarCheckoutsGet checkoutId;
                              ClerkUsersGetUser (JStr U);
                              ClerkUsersUpdateUserMetadata (JStr U)
                                (revoked_metadata user (data event))]
    /\ clerk_users w'
       = <[U := <["publicMetadata" := JObj (revoked_metadata user (data event))]> user]>
           (clerk_users w)
    /\ polar_checkouts w' = polar_checkouts w
    /\ faults w' = faults w.
Proof.
  intros Hv Hty Hcid Htr Hfind Hid HU Hu Hf.
  destruct (opt_prop_defined (data event) "checkoutId") as [sub Hsub];
    [rewrite Hcid; by apply truthy_defined|].
  destruct (opt_prop_defined _ _ ltac:(by rewrite Hid)) as [cm Hcm].
  destruct (opt_prop_defined checkout "customerMetadata" ltac:(by rewrite Hcm)) as [ck ->].
  pose proof (truthy_string U HU) as Hkey.
  pose proof (Hf 0 ltac:(lia)) as Hf0. rewrite Nat.add_0_r in Hf0.
  pose proof (Hf 1 ltac:(lia)) as Hf1.
  pose proof (Hf 2 ltac:(lia)) as Hf2.
  simpl in Hcm, Hid. rewrite Hcm in Hid. simpl in Hid.
  rewrite (post_webhook_verified env validateEvent req w event Hv), process_event_unfold.
  rewrite on_subscription_active_skip by (rewrite Hty; discriminate).
  unfold revoked_metadata.
  pose proof (prop_truthy _ "subscriptionId" (currentMetadata_truthy user)) as Hcur.
  unfold currentMetadata_of in *.
  rewrite Hsub in *. simpl in Hcid.
  unfold on_subscription_revoked, polar_checkouts_get, clerkClient_users_getUser,
    clerkClient_users_updateUserMetadata.
  js_run. rewrite Hty, Hsub. simpl.
  rewrite Hcid, Htr. simpl. rewrite Hf0, Hfind. simpl.
  rewrite Hcm. simpl. rewrite Hid, Hkey. simpl.
  rewrite length_app. simpl. rewrite Hf1, Hu. simpl. rewrite Hcur. simpl.
  rewrite !length_app. simpl. rewrite <- Nat.add_assoc. simpl. rewrite Hf2, Hu.
  eexists. split; [reflexivity|]. simpl. by rewrite <- !app_assoc.
Qed.

(** *** Metadata is written only on the way to a 202 *)

Lemma process_event_thrown (event : Event) (w w1 : World) (e : JsError) :
  process_event event w = (Thrown e, w1) -> clerk_users w1 = clerk_users w.
Proof.
  rewrite process_event_unfold.
  destruct (on_subscription_active _ _) as [[[]|e0] w0] eqn:Ha.
  - destruct (decide (type event = "subscription.revoked")) as [Hr|Hr].
    + rewrite on_subscription_active_skip in Ha by (rewrite Hr; discriminate).
      injection Ha as <-.
      destruct (on_subscription_revoked _ _) as [[[]|e1] w2] eqn:Hb; [done|].
      intros [= <- <-]. by rewrite (on_subscription_revoked_thrown _ _ _ _ Hb).
    + by rewrite on_subscription_revoked_skip.
  - intros [= <- <-]. by rewrite (on_subscription_active_thrown _ _ _ _ Ha).
Qed.

Lemma process_event_part_000_thrown (event : Event) (w w1 : World) (e : JsError) :
  process_event_part_000 event w = (Thrown e, w1) -> clerk_users w1 = clerk_users w.
Proof.
  rewrite process_event_part_000_unfold.
  destruct (on_subscription_active _ _) as [[[]|e0] w0] eqn:Ha; [done|].
  intros [= <- <-]. by rewrite (on_subscription_active_thrown _ _ _ _ Ha).
Qed.

(** X4.  The webhook handler of either variant writes metadata only on a
    request that it answers with 202: whenever the answer is 403 or 500 the
    users are what they were. *)
Theorem webhook_writes_only_when_accepted
    (req : Request Buffer) (w w' : World) (resp : Response) :
  status resp ≠ 202 ->
  (post_webhook env validateEvent req w = (Returned resp, w') ->
   clerk_users w' = clerk_users w)
  /\ (post_webhook_part_000 env validateEvent req w = (Returned resp, w') ->
     clerk_users w' = clerk_users w).
Proof.
  intros Hstatus. split.
  - unfold post_webhook, try_catch, bind at 1, lift.
    destruct (validated req) as [event|e].
    + destruct (process_event event w) as [[resp1|e] w1] eqn:Hp.
      * rewrite (process_event_returns_202 _ _ _ _ Hp). by intros [= <- <-].
      * rewrite webhook_catch_unfold. apply process_event_thrown in Hp.
        destruct (instanceof_WebhookVerificationError e); by intros [= <- <-].
    + rewrite webhook_catch_unfold.
      destruct (instanceof_WebhookVerificationError e); by intros [= <- <-].
  - rewrite post_webhook_part_000_unfold.
    destruct (validated req) as [event|e].
    + destruct (process_event_part_000 event _) as [[resp1|e] w1] eqn:Hp.
      * rewrite process_event_part_000_unfold in Hp.
        destruct (on_subscription_active _ _) as [[[]|?] ?]; [|done].
        injection Hp as <- <-. by intros [= <- <-].
      * rewrite webhook_catch_unfold. apply process_event_part_000_thrown in Hp.
        destruct (instanceof_WebhookVerificationError e); by intros [= <- <-].
    + rewrite webhook_catch_unfold.
      destruct (instanceof_WebhookVerificationError e); by intros [= <- <-].
Qed.

(** *** Events that carry no usable reference *)

(** X5.  A verified subscription event without a [checkoutId] (absent,
    null or empty) is acknowledged with 202 and no provider call.  On
    [subscription.active] nothing more than the event line is printed; on
    [subscription.revoked] the missing [checkoutId] is reported on the
    console. *)
Theorem webhook_missing_checkout_reference
    (req : Request Buffer) (w : World) (event : Event) :
  validated req = Returned event ->
  Js.nullish (data event) = false ->
  Js.truthy (Js.opt_prop (data event) "checkoutId") = false ->
  (type event = "subscription.active" ->
   post_webhook env validateEvent req w
     = (Returned (res_status_send 202 ""), with_console w (received event)))
  /\ (type event = "subscription.revoked" ->
     post_webhook env validateEvent req w
       = (Returned (res_status_send 202 ""),
          with_console (with_console w (received event)) no_checkoutId)).
Proof.
  intros Hv Hdata Hcid.
  rewrite (post_webhook_verified env validateEvent req w event Hv), process_event_unfold.
  split; intros Hty.
  - assert (Ha : forall w0, on_subscription_active event w0 = (Returned tt, w0)).
    { intros w0. unfold on_subscription_active, bind, lift.
      by rewrite Hty, (prop_not_nullish _ _ Hdata), Hcid. }
    rewrite Ha. by rewrite on_subscription_revoked_skip by (rewrite Hty; discriminate).
  - rewrite on_subscription_active_skip by (rewrite Hty; discriminate).
    unfold on_subscription_revoked, bind, lift.
    by rewrite Hty, (prop_not_nullish _ _ Hdata), Hcid.
Qed.

(** X6.  A verified subscription event whose checkout session carries no
    [clerk_user_id] (absent, null or empty) is acknowledged with 202 after
    the one checkout lookup: no metadata update is sent, the users are what
    they were, and the last line on the console reports the missing
    identity. *)
Theorem webhook_checkout_without_identity
    (req : Request Buffer) (w : World) (event : Event) (checkoutId checkout : JsVal) :
  validated req = Returned event ->
  type event = "subscription.active" \/ type event = "subscription.revoked" ->
  Js.opt_prop (data event) "checkoutId" = checkoutId ->
  Js.truthy checkoutId = true ->
  find_by_id (polar_checkouts w) checkoutId = Some checkout ->
  faults w (length (calls w)) = None ->
  Js.nullish checkout = false ->
  Js.truthy (Js.opt_prop (Js.opt_prop checkout "customerMetadata") "clerk_user_id") = false ->
  exists w',
    post_webhook env validateEvent req w = (Returned (res_status_send 202 ""), w')
    /\ calls w' = calls w ++ [PolarCheckoutsGet checkoutId]
    /\ clerk_users w' = clerk_users w
    /\ last (console w') = Some no_clerk_user_id.
Proof.
  intros Hv Hty Hcid Htr Hfind Hf Hck Hid.
  destruct (opt_prop_defined (data event) "checkoutId") as [sub Hsub];
    [rewrite Hcid; by apply truthy_defined|].
  rewrite (post_webhook_verified env validateEvent req w event Hv), process_event_unfold.
  rewrite Hsub in Hcid. simpl in Hcid.
  destruct Hty as [Hty|Hty].
  - unfold on_subscription_active, polar_checkouts_get. js_run.
    rewrite Hty, Hsub. simpl. rewrite Hcid, Htr. simpl. rewrite Hf, Hfind.
    rewrite (prop_not_nullish _ _ Hck). simpl. rewrite Hid.
    rewrite on_subscription_revoked_skip by (rewrite Hty; discriminate).
    eexists. split; [reflexivity|]. simpl. by rewrite last_snoc.
  - rewrite on_subscription_active_skip by (rewrite Hty; discriminate).
    unfold on_subscription_revoked, polar_checkouts_get. js_run.
    rewrite Hty, Hsub. simpl. rewrite Hcid, Htr. simpl. rewrite Hf, Hfind.
    rewrite (prop_not_nullish _ _ Hck). simpl. rewrite Hid.
    eexists. split; [reflexivity|]. simpl. by rewrite last_snoc.
Qed.

(** *** Provider calls that fail after the lookup *)

(** X7.  Once the checkout lookup of a verified subscription event has
    given the identity [U], a provider call that throws (anything but a
    [WebhookVerificationError]) ends the request with 500 and leaves the
    users as they were: the metadata update on [subscription.active]; the
    user read on [subscription.revoked], after which no update is sent;
    and the metadata update on [subscription.revoked]. *)
Theorem webhook_downstream_failure
    (req : Request Buffer) (w : World) (event : Event)
    (checkoutId checkout : JsVal) (U : string) (e : JsError) :
  validated req = Returned event ->
  Js.opt_prop (data event) "checkoutId" = checkoutId ->
  Js.truthy checkoutId = true ->
  find_by_id (polar_checkouts w) checkoutId = Some checkout ->
  faults w (length (calls w)) = None ->
  Js.opt_prop (Js.opt_prop checkout "customerMetadata") "clerk_user_id" = JStr U ->
  U ≠ "" ->
  instanceof_WebhookVerificationError e = false ->
  let answered (l : list Call) :=
    exists w',
      post_webhook env validateEvent req w
        = (Returned (res_status_send 500 "Internal Server Error"), w')
      /\ calls w' = calls w ++ l
      /\ clerk_users w' = clerk_users w in
  (type event = "subscription.active" ->
   faults w (length (calls w) + 1) = Some e ->
   answered [PolarCheckoutsGet checkoutId;
             ClerkUsersUpdateUserMetadata (JStr U) (active_metadata (data event))])
  /\ (type event = "subscription.revoked" ->
     faults w (length (calls w) + 1) = Some e ->
     answered [PolarCheckoutsGet checkoutId; ClerkUsersGetUser (JStr U)])
  /\ (type event = "subscription.revoked" ->
     forall user,
       faults w (length (calls w) + 1) = None ->
       clerk_users w !! U = Some user ->
       faults w (length (calls w) + 2) = Some e ->
       answered [PolarCheckoutsGet checkoutId; ClerkUsersGetUser (JStr U);
                 ClerkUsersUpdateUserMetadata (JStr U)
                   (revoked_metadata user (data event))]).
Proof.
  intros Hv Hcid Htr Hfind Hf0 Hid HU He answered. subst answered.
  destruct (post_webhook_downstream_fails env validateEvent req w event checkoutId
              checkout U e Hv Hcid Htr Hfind Hf0 Hid HU He)
    as (Hactive & Hread & Hwrite).
  split; [|split].
  - intros Hty Hf1. destruct (Hactive Hty Hf1) as (w' & Hrun & Hcalls & Husers & _).
    by exists w'.
  - intros Hty Hf1. destruct (Hread Hty Hf1) as (w' & Hrun & Hcalls & Husers & _).
    by exists w'.
  - intros Hty user Hf1 Hu Hf2.
    destruct (Hwrite Hty user Hf1 Hu Hf2) as (w' & Hrun & Hcalls & Husers & _).
    by exists w'.
Qed.

(** X8.  An event that cannot be used is answered with 500 and reaches no
    provider: when [validateEvent] throws anything but a
    [WebhookVerificationError], and when a verified subscription event has
    [null] or no [data]. *)
Theorem webhook_unusable_event (req : Request Buffer) (w : World) :
  (forall e,
     validated req = Thrown e ->
     instanceof_WebhookVerificationError e = false ->
     post_webhook env validateEvent req w
       = (Returned (res_status_send 500 "Internal Server Error"),
          with_console w (processing_error e)))
  /\ (forall event,
       validated req = Returned event ->
       type event = "subscription.active" \/ type event = "subscription.revoked" ->
       Js.nullish (data event) = true ->
       exists w',
         post_webhook env validateEvent req w
           = (Returned (res_status_send 500 "Internal Server Error"), w')
         /\ calls w' = calls w
         /\ clerk_users w' = clerk_users w).
Proof.
  split.
  - intros e Hv He. unfold post_webhook, try_catch, bind, lift.
    by rewrite Hv, webhook_catch_unfold, He.
  - intros event Hv Hty Hdata.
    rewrite (post_webhook_verified env validateEvent req w event Hv), process_event_unfold.
    assert (Hthrown : exists e, Js.prop (data event) "checkoutId" = Thrown e
                                /\ instanceof_WebhookVerificationError e = false)
      by (destruct (data event); try discriminate; by eexists).
    destruct Hthrown as (e & He & Hi).
    destruct Hty as [Hty|Hty].
    + unfold on_subscription_active, bind, lift. rewrite Hty, He. simpl.
      rewrite webhook_catch_unfold, Hi. by eexists.
    + rewrite on_subscription_active_skip by (rewrite Hty; discriminate).
      unfold on_subscription_revoked, bind, lift. rewrite Hty, He. simpl.
      rewrite webhook_catch_unfold, Hi. by eexists.
Qed.

(** *** The revoked merge at its edges, and deliveries in sequence *)

Lemma stored_after_update (w' : World) (users : gmap string (gmap string JsVal))
    (U : string) (user metadata : gmap string JsVal) :
  clerk_users w' = <[U := <["publicMetadata" := JObj metadata]> user]> users ->
  stored_metadata w' U = Some (JObj metadata).
Proof.
  intros H. unfold stored_metadata. rewrite H, lookup_insert_eq. simpl.
  by rewrite lookup_insert_eq.
Qed.

Lemma revoked_literal (a b : JsVal) :
  <["status" := JStr "revoked"]> (<["plan" := JStr "free"]>
    (<["customerId" := b]> (<["subscriptionId" := a]> (∅ : gmap string JsVal))))
  = {[ "subscriptionId" := a; "customerId" := b;
       "plan" := JStr "free"; "status" := JStr "revoked" ]}.
Proof.
  apply map_eq. intros k.
  rewrite !lookup_insert, lookup_singleton, lookup_empty.
  repeat case_decide; simplify_eq; done.
Qed.

Lemma revoked_metadata_object (user current : gmap string JsVal) (subscription : JsVal) :
  user !! "publicMetadata" = Some (JObj current) ->
  revoked_metadata user subscription
  = <["status" := JStr "revoked"]>
      (<["plan" := JStr "free"]>
         (<["customerId" := Js.opt_prop subscription "customerId"]>
            (<["subscriptionId" := Js.or (default JUndefined (current !! "subscriptionId"))
                                         (Js.opt_prop subscription "id")]> current))).
Proof. intros H. unfold revoked_metadata, currentMetadata_of. by rewrite H. Qed.

(** X9.  The [subscription.revoked] merge where there is nothing to keep:
    for a user without [publicMetadata] the stored metadata becomes
    exactly the four fields, with the event's subscription id; and a prior
    [subscriptionId] that is falsy (null, empty, 0, false) is replaced by
    the event's. *)
Theorem revoked_event_without_prior_subscription
    (req : Request Buffer) (w : World) (event : Event)
    (checkoutId checkout : JsVal) (U : string) (user : gmap string JsVal) :
  validated req = Returned event ->
  type event = "subscription.revoked" ->
  Js.opt_prop (data event) "checkoutId" = checkoutId ->
  Js.truthy checkoutId = true ->
  find_by_id (polar_checkouts w) checkoutId = Some checkout ->
  Js.opt_prop (Js.opt_prop checkout "customerMetadata") "clerk_user_id" = JStr U ->
  U ≠ "" ->
  clerk_users w !! U = Some user ->
  (forall i, i < 3 -> faults w (length (calls w) + i) = None) ->
  exists updated w',
    post_webhook env validateEvent req w = (Returned (res_status_send 202 ""), w')
    /\ stored_metadata w' U = Some (JObj updated)
    /\ (Js.truthy (default JUndefined (user !! "publicMetadata")) = false ->
        updated = {[ "subscriptionId" := Js.opt_prop (data event) "id";
                     "customerId" := Js.opt_prop (data event) "customerId";
                     "plan" := JStr "free";
                     "status" := JStr "revoked" ]})
    /\ (forall current S1,
          user !! "publicMetadata" = Some (JObj current) ->
          current !! "subscriptionId" = Some S1 ->
          Js.truthy S1 = false ->
          updated !! "subscriptionId" = Some (Js.opt_prop (data event) "id")).
Proof.
  intros Hv Hty Hcid Htr Hfind Hid HU Hu Hf.
  destruct (post_webhook_revoked_accepted req w event checkoutId checkout U user
              Hv Hty Hcid Htr Hfind Hid HU Hu Hf)
    as (w' & Hrun & _ & Husers & _).
  exists (revoked_metadata user (data event)), w'.
  split; [exact Hrun|]. split; [by eapply stored_after_update|].
  split.
  - unfold revoked_metadata, currentMetadata_of, Js.or.
    intros ->. simpl. apply revoked_literal.
  - intros current S1 Hpm HS1 Hfalsy.
    rewrite (revoked_metadata_object _ _ _ Hpm), HS1.
    cbn [default from_option Datatypes.id]. unfold Js.or. rewrite Hfalsy.
    by rewrite !lookup_insert_ne by done; rewrite lookup_insert_eq.
Qed.

(** X10.  A [subscription.active] event followed by a
    [subscription.revoked] event for the same checkout leaves exactly:
    the subscription id of the first event, the customer id of the second,
    [plan = "free"] and [status = "revoked"]. *)
Theorem active_then_revoked
    (req1 req2 : Request Buffer) (w : World) (event1 event2 : Event)
    (checkoutId checkout : JsVal) (U : string) :
  validated req1 = Returned event1 ->
  type event1 = "subscription.active" ->
  validated req2 = Returned event2 ->
  type event2 = "subscription.revoked" ->
  Js.opt_prop (data event1) "checkoutId" = checkoutId ->
  Js.opt_prop (data event2) "checkoutId" = checkoutId ->
  Js.truthy checkoutId = true ->
  Js.truthy (Js.opt_prop (data event1) "id") = true ->
  find_by_id (polar_checkouts w) checkoutId = Some checkout ->
  Js.opt_prop (Js.opt_prop checkout "customerMetadata") "clerk_user_id" = JStr U ->
  U ≠ "" ->
  is_Some (clerk_users w !! U) ->
  (forall i, i < 5 -> faults w (length (calls w) + i) = None) ->
  exists w1 w2,
    post_webhook env validateEvent req1 w = (Returned (res_status_send 202 ""), w1)
    /\ post_webhook env validateEvent req2 w1 = (Returned (res_status_send 202 ""), w2)
    /\ stored_metadata w2 U
       = Some (JObj {[ "subscriptionId" := Js.opt_prop (data event1) "id";
                       "customerId" := Js.opt_prop (data event2) "customerId";
                       "plan" := JStr "free";
                       "status" := JStr "revoked" ]}).
Proof.
  intros Hv1 Hty1 Hv2 Hty2 Hcid1 Hcid2 Htr Hsid Hfind Hid HU [user Hu] Hf.
  destruct (post_webhook_active_accepted req1 w event1 checkoutId checkout U user
              Hv1 Hty1 Hcid1 Htr Hfind Hid HU Hu)
    as (w1 & Hrun1 & Hcalls1 & Husers1 & Hpolar1 & Hfaults1).
  { intros i Hi. apply Hf. lia. }
  set (user1 := <["publicMetadata" := JObj (active_metadata (data event1))]> user) in *.
  destruct (post_webhook_revoked_accepted req2 w1 event2 checkoutId checkout U user1
              Hv2 Hty2 Hcid2 Htr)
    as (w2 & Hrun2 & _ & Husers2 & _); try done.
  { by rewrite Hpolar1. }
  { by rewrite Husers1, lookup_insert_eq. }
  { intros i Hi. rewrite Hfaults1, Hcalls1, length_app. simpl.
    rewrite <- Nat.add_assoc. apply Hf. lia. }
  exists w1, w2. split; [exact Hrun1|]. split; [exact Hrun2|].
  rewrite (stored_after_update _ _ _ _ _ Husers2). do 2 f_equal.
  rewrite (revoked_metadata_object user1 (active_metadata (data event1)))
    by apply lookup_insert_eq.
  unfold active_metadata at 1.
  rewrite !lookup_insert_ne by done. rewrite lookup_insert_eq.
  cbn [default from_option Datatypes.id]. unfold Js.or. rewrite Hsid.
  unfold active_metadata.
  apply map_eq. intros k.
  rewrite !lookup_insert, lookup_singleton, lookup_empty.
  repeat case_decide; simplify_eq; done.
Qed.

Lemma or_absorbs (a b : JsVal) : Js.or (Js.or a b) b = Js.or a b.
Proof. unfold Js.or. destruct (Js.truthy a) eqn:Ha; [by rewrite Ha|]. by destruct (Js.truthy b). Qed.

Lemma revoked_metadata_again (user : gmap string JsVal) (subscription : JsVal) :
  revoked_metadata
    (<["publicMetadata" := JObj (revoked_metadata user subscription)]> user) subscription
  = revoked_metadata user subscription.
Proof.
  rewrite (revoked_metadata_object _ (revoked_metadata user subscription))
    by apply lookup_insert_eq.
  assert (Hid : revoked_metadata user subscription !! "subscriptionId"
                = Some (Js.or (Js.opt_prop (currentMetadata_of user) "subscriptionId")
                              (Js.opt_prop subscription "id"))).
  { unfold revoked_metadata. by rewrite !lookup_insert_ne by done; rewrite lookup_insert_eq. }
  rewrite Hid. cbn [default from_option Datatypes.id]. rewrite or_absorbs.
  rewrite (insert_id _ "subscriptionId") by exact Hid.
  rewrite (insert_id _ "customerId")
    by (unfold revoked_metadata;
        by rewrite !lookup_insert_ne by done; rewrite lookup_insert_eq).
  rewrite (insert_id _ "plan")
    by (unfold revoked_metadata;
        by rewrite !lookup_insert_ne by done; rewrite lookup_insert_eq).
  apply insert_id. unfold revoked_metadata. by rewrite lookup_insert_eq.
Qed.

(** X11.  Delivering the same subscription event a second time is
    harmless: both deliveries are answered with 202 and the second leaves
    the users exactly as the first left them. *)
Theorem redelivery_is_idempotent
    (req : Request Buffer) (w : World) (event : Event)
    (checkoutId checkout : JsVal) (U : string) :
  validated req = Returned event ->
  type event = "subscription.active" \/ type event = "subscription.revoked" ->
  Js.opt_prop (data event) "checkoutId" = checkoutId ->
  Js.truthy checkoutId = true ->
  find_by_id (polar_checkouts w) checkoutId = Some checkout ->
  Js.opt_prop (Js.opt_prop checkout "customerMetadata") "clerk_user_id" = JStr U ->
  U ≠ "" ->
  is_Some (clerk_users w !! U) ->
  (forall i, i < 6 -> faults w (length (calls w) + i) = None) ->
  exists w1 w2,
    post_webhook env validateEvent req w = (Returned (res_status_send 202 ""), w1)
    /\ post_webhook env validateEvent req w1 = (Returned (res_status_send 202 ""), w2)
    /\ clerk_users w2 = clerk_users w1.
Proof.
  intros Hv Hty Hcid Htr Hfind Hid HU [user Hu] Hf.
  destruct Hty as [Hty|Hty].
  - destruct (post_webhook_active_accepted req w event checkoutId checkout U user
                Hv Hty Hcid Htr Hfind Hid HU Hu)
      as (w1 & Hrun1 & Hcalls1 & Husers1 & Hpolar1 & Hfaults1).
    { intros i Hi. apply Hf. lia. }
    set (user1 := <["publicMetadata" := JObj (active_metadata (data event))]> user) in *.
    destruct (post_webhook_active_accepted req w1 event checkoutId checkout U user1
                Hv Hty Hcid Htr)
      as (w2 & Hrun2 & _ & Husers2 & _); try done.
    { by rewrite Hpolar1. }
    { by rewrite Husers1, lookup_insert_eq. }
    { intros i Hi. rewrite Hfaults1, Hcalls1, length_app. simpl.
      rewrite <- Nat.add_assoc. apply Hf. lia. }
    exists w1, w2. split; [exact Hrun1|]. split; [exact Hrun2|].
    rewrite Husers2, Husers1. unfold user1.
    by rewrite !insert_insert_eq.
  - destruct (post_webhook_revoked_accepted req w event checkoutId checkout U user
                Hv Hty Hcid Htr Hfind Hid HU Hu)
      as (w1 & Hrun1 & Hcalls1 & Husers1 & Hpolar1 & Hfaults1).
    { intros i Hi. apply Hf. lia. }
    set (user1 := <["publicMetadata" := JObj (revoked_metadata user (data event))]> user) in *.
    destruct (post_webhook_revoked_accepted req w1 event checkoutId checkout U user1
                Hv Hty Hcid Htr)
      as (w2 & Hrun2 & _ & Husers2 & _); try done.
    { by rewrite Hpolar1. }
    { by rewrite Husers1, lookup_insert_eq. }
    { intros i Hi. rewrite Hfaults1, Hcalls1, length_app. simpl.
      rewrite <- Nat.add_assoc. apply Hf. lia. }
    exists w1, w2. split; [exact Hrun1|]. split; [exact Hrun2|].
    rewrite Husers2, Husers1. unfold user1.
    by rewrite revoked_metadata_again, !insert_insert_eq.
Qed.

End WebhookEdges.


(* ===================================================================== *)
(** * GET /api/create-portal-session *)
(* ===================================================================== *)

Section Portal.

Variable env : ProcessEnv.
Variable validateEvent : Buffer -> Headers -> option string -> Outcome Event.

(** The handler once the caller is identified. *)
Lemma portal_identified {B} (req : Request B) (w : World) (U : string) :
  auth_userId req = Some U ->
  U ≠ "" ->
  get_api_create_portal_session req w =
    match faults w (length (calls w)) with
    | Some e =>
        (Returned portal_failed,
         with_console (with_call w (ClerkUsersGetUser (JStr U)))
           {| level := LevelError; args := [AStr "Polar Error:"; AErr e] |})
    | None =>
        match clerk_users w !! U with
        | None =>
            (Returned portal_failed,
             with_console (with_call w (ClerkUsersGetUser (JStr U)))
               {| level := LevelError;
                  args := [AStr "Polar Error:"; AErr ResourceNotFound] |})
        | Some user =>
            let w1 := with_call w (ClerkUsersGetUser (JStr U)) in
            let polarCustomerId := polarCustomerId_of user in
            if Js.truthy polarCustomerId then
              try_catch
                (let* session := polar_customerSessions_create polarCustomerId in
                 let* session_customerPortalUrl := lift (Js.prop session "customerPortalUrl") in
                 ret (res_json (JObj {[ "url" := session_customerPortalUrl ]})))
                (fun error =>
                   console_error [AStr "Polar Error:"; AErr error] >>>
                   ret portal_failed) w1
            else (Returned no_subscription, w1)
        end
    end.
Proof.
  intros Hauth HU.
  unfold get_api_create_portal_session, clerkClient_users_getUser, provider_call,
    polarCustomerId_of.
  rewrite (getAuth_user req U Hauth), (truthy_string U HU).
  unfold try_catch, bind at 1. simpl.
  destruct (faults w (length (calls w))); [done|].
  destruct (clerk_users w !! U) as [user|]; [|done].
  unfold bind at 1, lift. simpl.
  by destruct (Js.truthy _).
Qed.

(** X12.  For an identified caller whose stored metadata has a customer
    id, the portal endpoint reads the user, asks the payments provider for
    a customer session of that customer id, and answers 200 with the
    session's [customerPortalUrl] as [url]. *)
Theorem portal_session_for_subscriber {B}
    (req : Request B) (w : World) (U : string) (user : gmap string JsVal) :
  auth_userId req = Some U ->
  U ≠ "" ->
  clerk_users w !! U = Some user ->
  Js.truthy (polarCustomerId_of user) = true ->
  (forall i, i < 2 -> faults w (length (calls w) + i) = None) ->
  Js.nullish (polar_customer_session w (polarCustomerId_of user)) = false ->
  exists w',
    get_api_create_portal_session req w
      = (Returned (res_json (JObj {[ "url" :=
            Js.opt_prop (polar_customer_session w (polarCustomerId_of user))
                        "customerPortalUrl" ]})), w')
    /\ calls w' = calls w ++ [ClerkUsersGetUser (JStr U);
                              PolarCustomerSessionsCreate (polarCustomerId_of user)]
    /\ clerk_users w' = clerk_users w.
Proof.
  intros Hauth HU Hu Hcid Hf Hsession.
  pose proof (Hf 0 ltac:(lia)) as Hf0. rewrite Nat.add_0_r in Hf0.
  pose proof (Hf 1 ltac:(lia)) as Hf1.
  rewrite (portal_identified req w U Hauth HU), Hf0, Hu. cbn zeta. rewrite Hcid.
  unfold try_catch, polar_customerSessions_create, provider_call, bind at 1. simpl.
  rewrite length_app. simpl. rewrite Hf1.
  unfold bind, lift. rewrite (prop_not_nullish _ _ Hsession).
  eexists. split; [reflexivity|]. simpl. by rewrite <- app_assoc.
Qed.

(** X13.  For an identified caller whose stored metadata has no customer
    id (no metadata at all, no [customerId], or a falsy one) the answer is
    404 after the one user read: the payments provider is not called. *)
Theorem portal_without_customer {B}
    (req : Request B) (w : World) (U : string) (user : gmap string JsVal) :
  auth_userId req = Some U ->
  U ≠ "" ->
  clerk_users w !! U = Some user ->
  faults w (length (calls w)) = None ->
  Js.truthy (polarCustomerId_of user) = false ->
  get_api_create_portal_session req w
    = (Returned no_subscription, with_call w (ClerkUsersGetUser (JStr U))).
Proof.
  intros Hauth HU Hu Hf Hcid.
  rewrite (portal_identified req w U Hauth HU), Hf, Hu. cbn zeta. by rewrite Hcid.
Qed.

(** X14.  Whatever goes wrong behind the portal endpoint is answered with
    500 and the text "Failed to generate portal session": a user read that
    throws (the payments provider is then not called), a session request
    that throws, and a session that comes back as [null]. *)
Theorem portal_failures {B} (req : Request B) (w : World) (U : string) :
  auth_userId req = Some U ->
  U ≠ "" ->
  let failed (l : list Call) :=
    exists w',
      get_api_create_portal_session req w = (Returned portal_failed, w')
      /\ calls w' = calls w ++ l
      /\ clerk_users w' = clerk_users w in
  (forall e, faults w (length (calls w)) = Some e ->
     failed [ClerkUsersGetUser (JStr U)])
  /\ (forall user,
       faults w (length (calls w)) = None ->
       clerk_users w !! U = Some user ->
       Js.truthy (polarCustomerId_of user) = true ->
       (forall e, faults w (length (calls w) + 1) = Some e ->
          failed [ClerkUsersGetUser (JStr U);
                  PolarCustomerSessionsCreate (polarCustomerId_of user)])
       /\ (faults w (length (calls w) + 1) = None ->
          Js.nullish (polar_customer_session w (polarCustomerId_of user)) = true ->
          failed [ClerkUsersGetUser (JStr U);
                  PolarCustomerSessionsCreate (polarCustomerId_of user)])).
Proof.
  intros Hauth HU failed. subst failed.
  rewrite (portal_identified req w U Hauth HU). split.
  - intros e ->. by eexists.
  - intros user -> -> Hcid. cbn zeta. rewrite Hcid. split.
    + intros e He.
      unfold try_catch, polar_customerSessions_create, provider_call, bind at 1. simpl.
      rewrite length_app. simpl. rewrite He.
      eexists. split; [reflexivity|]. simpl. by rewrite <- app_assoc.
    + intros He Hnull.
      unfold try_catch, polar_customerSessions_create, provider_call, bind at 1. simpl.
      rewrite length_app. simpl. rewrite He. unfold bind at 1, lift.
      destruct (polar_customer_session w _); try discriminate;
        (eexists; split; [reflexivity|]; simpl; by rewrite <- app_assoc).
Qed.

Lemma customerId_after_active (user : gmap string JsVal) (subscription : JsVal) :
  polarCustomerId_of (<["publicMetadata" := JObj (active_metadata subscription)]> user)
  = Js.opt_prop subscription "customerId".
Proof.
  unfold polarCustomerId_of, active_metadata. rewrite lookup_insert_eq.
  cbn [default from_option Datatypes.id Js.opt_prop].
  by rewrite !lookup_insert_ne by done; rewrite lookup_insert_eq.
Qed.

Lemma customerId_after_revoked (user : gmap string JsVal) (subscription : JsVal) :
  polarCustomerId_of (<["publicMetadata" := JObj (revoked_metadata user subscription)]> user)
  = Js.opt_prop subscription "customerId".
Proof.
  unfold polarCustomerId_of, revoked_metadata. rewrite lookup_insert_eq.
  cbn [default from_option Datatypes.id Js.opt_prop].
  by rewrite !lookup_insert_ne by done; rewrite lookup_insert_eq.
Qed.

(** X15.  After an accepted subscription event for [U], active or
    revoked, the portal endpoint called by [U] asks the payments provider
    for a session of the customer id that the event carried, and answers
    200 with its url: the webhook's write is what the portal reads, also
    once the subscription is revoked. *)
Theorem portal_after_subscription_event {B}
    (req1 : Request Buffer) (req2 : Request B) (w : World) (event : Event)
    (checkoutId checkout : JsVal) (U : string) :
  validateEvent (body req1) (headers req1) (POLAR_WEBHOOK_SECRET env) = Returned event ->
  type event = "subscription.active" \/ type event = "subscription.revoked" ->
  Js.opt_prop (data event) "checkoutId" = checkoutId ->
  Js.truthy checkoutId = true ->
  find_by_id (polar_checkouts w) checkoutId = Some checkout ->
  Js.opt_prop (Js.opt_prop checkout "customerMetadata") "clerk_user_id" = JStr U ->
  U ≠ "" ->
  is_Some (clerk_users w !! U) ->
  (forall i, i < 5 -> faults w (length (calls w) + i) = None) ->
  auth_userId req2 = Some U ->
  let customerId := Js.opt_prop (data event) "customerId" in
  Js.truthy customerId = true ->
  Js.nullish (polar_customer_session w customerId) = false ->
  exists w1 w2,
    post_webhook env validateEvent req1 w = (Returned (res_status_send 202 ""), w1)
    /\ get_api_create_portal_session req2 w1
       = (Returned (res_json (JObj {[ "url" :=
             Js.opt_prop (polar_customer_session w customerId) "customerPortalUrl" ]})), w2)
    /\ last (calls w2) = Some (PolarCustomerSessionsCreate customerId).
Proof.
  intros Hv Hty Hcid Htr Hfind Hid HU [user Hu] Hf Hauth customerId Hcust Hsession.
  assert (Hfirst : exists w1 user1 n,
            post_webhook env validateEvent req1 w = (Returned (res_status_send 202 ""), w1)
            /\ clerk_users w1 !! U = Some user1
            /\ polarCustomerId_of user1 = customerId
            /\ faults w1 = faults w
            /\ length (calls w1) = length (calls w) + n /\ n <= 3).
  { destruct Hty as [Hty|Hty].
    - destruct (post_webhook_active_accepted env validateEvent req1 w event checkoutId
                  checkout U user Hv Hty Hcid Htr Hfind Hid HU Hu)
        as (w1 & Hrun1 & Hcalls1 & Husers1 & _ & Hfaults1).
      { intros i Hi. apply Hf. lia. }
      exists w1, (<["publicMetadata" := JObj (active_metadata (data event))]> user), 2.
      split; [done|]. split; [by rewrite Husers1, lookup_insert_eq|].
      split; [apply customerId_after_active|]. split; [done|].
      rewrite Hcalls1, length_app. simpl. lia.
    - destruct (post_webhook_revoked_accepted env validateEvent req1 w event checkoutId
                  checkout U user Hv Hty Hcid Htr Hfind Hid HU Hu)
        as (w1 & Hrun1 & Hcalls1 & Husers1 & _ & Hfaults1).
      { intros i Hi. apply Hf. lia. }
      exists w1, (<["publicMetadata" := JObj (revoked_metadata user (data event))]> user), 3.
      split; [done|]. split; [by rewrite Husers1, lookup_insert_eq|].
      split; [apply customerId_after_revoked|]. split; [done|].
      rewrite Hcalls1, length_app. simpl. lia. }
  destruct Hfirst as (w1 & user1 & n & Hrun1 & Hu1 & Hcust1 & Hfaults1 & Hlen & Hn).
  pose proof (maintains_post_webhook env validateEvent req1 w) as Hev.
  rewrite Hrun1 in Hev. simpl in Hev.
  exists w1. eexists. split; [exact Hrun1|].
  rewrite (portal_identified req2 w1 U Hauth HU), Hfaults1, Hlen, Hu1.
  rewrite (Hf n ltac:(lia)). cbn zeta. rewrite Hcust1, Hcust.
  unfold try_catch, polar_customerSessions_create, provider_call, bind at 1. simpl.
  rewrite Hfaults1, length_app, Hlen. simpl.
  rewrite <- Nat.add_assoc, (Hf (n + 1) ltac:(lia)).
  rewrite (keeps_polar_customer_session _ _ _ Hev).
  unfold bind, lift. rewrite (prop_not_nullish _ _ Hsession).
  split; [reflexivity|]. simpl. by rewrite last_snoc.
Qed.

End Portal.


(* ===================================================================== *)
(** * More on POST /create-checkout *)
(* ===================================================================== *)

Section Checkout.

Variable env : ProcessEnv.

(** X16.  The options sent to the payments provider are the caller's,
    except for three keys: [successUrl] is always the redirect built from
    [FRONTEND_URL] (from the text "undefined" when that is not set),
    whatever the caller sent; [customerMetadata] is rebuilt;
    [customer_metadata] is dropped.  Every other key of the body is
    forwarded as it came. *)
Theorem create_checkout_forwards_options
    (req : Request JsVal) (w : World) (U : string) :
  auth_userId req = Some U ->
  U ≠ "" ->
  body_missing_or_empty (body req) = false ->
  exists options r w',
    post_create_checkout env req w = (r, w')
    /\ calls w' = calls w ++ [PolarCheckoutsCreate options]
    /\ options !! "successUrl" = Some (JStr (successUrl_of env))
    /\ (FRONTEND_URL env = None ->
        options !! "successUrl"
        = Some (JStr "undefined/?payment=success&checkout_id={CHECKOUT_ID}"))
    /\ (forall k,
          k ∉ ["successUrl"; "customerMetadata"; "customer_metadata"] ->
          options !! k = Js.own_props (body req) !! k).
Proof.
  intros Hauth HU Hbody.
  destruct (post_create_checkout_identified env req w U Hauth HU Hbody)
    as (options & r & w' & Hopt & Hrun & Hcalls & _).
  rewrite (checkoutOptions_returns _ _ _ Hbody) in Hopt. injection Hopt as <-.
  eexists _, r, w'. split; [exact Hrun|]. split; [exact Hcalls|].
  split; [|split].
  - rewrite lookup_delete_ne by done.
    by rewrite lookup_insert_ne by done; rewrite lookup_insert_eq.
  - intros Henv. rewrite lookup_delete_ne by done.
    rewrite lookup_insert_ne by done. rewrite lookup_insert_eq.
    unfold Js.env_slot. by rewrite Henv.
  - intros k Hk.
    rewrite lookup_delete_ne by (intros <-; apply Hk; set_solver).
    rewrite lookup_insert_ne by (intros <-; apply Hk; set_solver).
    by rewrite lookup_insert_ne by (intros <-; apply Hk; set_solver).
Qed.

(** The handler when the provider call throws. *)
Lemma post_create_checkout_thrown
    (req : Request JsVal) (w : World) (U : string) (e : JsError) :
  auth_userId req = Some U ->
  U ≠ "" ->
  body_missing_or_empty (body req) = false ->
  faults w (length (calls w)) = Some e ->
  exists options w1,
    post_create_checkout env req w = create_checkout_catch e w1
    /\ calls w1 = calls w ++ [PolarCheckoutsCreate options]
    /\ clerk_users w1 = clerk_users w.
Proof.
  intros Hauth HU Hbody Hf.
  unfold post_create_checkout.
  rewrite Hbody, (getAuth_user req U Hauth), (truthy_string U HU). simpl.
  rewrite (checkoutOptions_returns _ _ _ Hbody).
  unfold polar_checkouts_create, try_catch, bind at 1, lift.
  unfold bind at 1, provider_call. rewrite Hf.
  by eexists _, _.
Qed.

(** X17.  When the payments provider throws on the create call, an error
    named [SDKValidationError] is answered with 422 and the error's
    message as [details]; any other error is answered with 500 and no
    detail.  When the provider hands back [null] instead of a session the
    answer is 500 as well. *)
Theorem create_checkout_provider_errors
    (req : Request JsVal) (w : World) (U : string) :
  auth_userId req = Some U ->
  U ≠ "" ->
  body_missing_or_empty (body req) = false ->
  let answered (resp : Response) :=
    exists options w',
      post_create_checkout env req w = (Returned resp, w')
      /\ calls w' = calls w ++ [PolarCheckoutsCreate options] in
  (forall e,
     faults w (length (calls w)) = Some e ->
     error_name e = "SDKValidationError" ->
     answered (res_status_json 422
                 (JObj {[ "error" := JStr "Input validation failed";
                          "details" := JStr (error_message e) ]})))
  /\ (forall e,
       faults w (length (calls w)) = Some e ->
       error_name e ≠ "SDKValidationError" ->
       answered (res_status_json 500
                   (JObj {[ "error" := JStr "Failed to create checkout session" ]})))
  /\ (faults w (length (calls w)) = None ->
     forall options,
       checkoutOptions env (body req) (JStr U) = Returned options ->
       Js.nullish (polar_created w options) = true ->
       answered (res_status_json 500
                 (JObj {[ "error" := JStr "Failed to create checkout session" ]}))).
Proof.
  intros Hauth HU Hbody answered. subst answered. repeat split.
  - intros e Hf Hname.
    destruct (post_create_checkout_thrown req w U e Hauth HU Hbody Hf)
      as (options & w1 & -> & Hcalls & _).
    unfold create_checkout_catch, bind, console_error, console_write, ret.
    rewrite bool_decide_eq_true_2 by done.
    assert (Hliteral :
              <["details" := JStr (error_message e)]>
                ({[ "error" := JStr "Input validation failed" ]} : gmap string JsVal)
              = {[ "error" := JStr "Input validation failed";
                   "details" := JStr (error_message e) ]}).
    { apply map_eq. intros k. rewrite !lookup_insert, !lookup_singleton.
      repeat case_decide; simplify_eq; done. }
    rewrite Hliteral. exists options. by eexists.
  - intros e Hf Hname.
    destruct (post_create_checkout_thrown req w U e Hauth HU Hbody Hf)
      as (options & w1 & -> & Hcalls & _).
    unfold create_checkout_catch, bind, console_error, console_write, ret.
    rewrite bool_decide_eq_false_2 by done.
    exists options. by eexists.
  - intros Hf options Hopt Hnull.
    unfold post_create_checkout.
    rewrite Hbody, (getAuth_user req U Hauth), (truthy_string U HU). simpl.
    rewrite Hopt.
    unfold polar_checkouts_create, try_catch, bind at 1, lift.
    unfold bind at 1, provider_call. rewrite Hf.
    unfold bind at 1. cbn [polar_created with_call]. revert Hnull.
    destruct (polar_created w options); try discriminate; intros _;
      unfold create_checkout_catch, bind, console_error, console_write, ret; simpl;
      (exists options; by eexists).
Qed.

End Checkout.


(* ===================================================================== *)
(** * More on GET /api/products *)
(* ===================================================================== *)

(** ** Strings *)

Lemma prefix_spec (t s : string) :
  String.prefix t s = true <-> exists post, s = (t ++ post)%string.
Proof.
  revert s. induction t as [|c t IH]; intros [|d s]; simpl.
  - split; [by exists EmptyString|done].
  - split; [by exists (String d s)|done].
  - split; [done|by intros [? ?]].
  - destruct (Ascii.ascii_dec c d) as [->|Hne].
    + rewrite IH. split; intros [post Hp]; exists post; [by rewrite Hp|by injection Hp].
    + split; [done|]. intros [post [= ? ?]]. congruence.
Qed.

Lemma includes_spec (s t : string) :
  Js.includes s t = true <-> exists pre post, s = (pre ++ t ++ post)%string.
Proof.
  induction s as [|c s IH].
  - change (Js.includes EmptyString t) with (String.prefix t EmptyString || false).
    rewrite orb_false_r, prefix_spec. split.
    + intros [post Hp]. by exists EmptyString, post.
    + intros ([|? ?] & post & Hp); [by exists post|done].
  - change (Js.includes (String c s) t)
      with (String.prefix t (String c s) || Js.includes s t).
    rewrite orb_true_iff, prefix_spec, IH. split.
    + intros [[post Hp]|(pre & post & Hp)].
      * by exists EmptyString, post.
      * exists (String c pre), post. simpl. by rewrite Hp.
    + intros ([|d pre] & post & Hp).
      * left. by exists post.
      * right. injection Hp as -> ->. by exists pre, post.
Qed.

Lemma map_string_app (f : ascii -> ascii) (a b : string) :
  Js.map_string f (a ++ b) = (Js.map_string f a ++ Js.map_string f b)%string.
Proof. induction a as [|c a IH]; simpl; [done|by rewrite IH]. Qed.

Lemma map_string_split (f : ascii -> ascii) (s a b : string) :
  Js.map_string f s = (a ++ b)%string ->
  exists s1 s2, s = (s1 ++ s2)%string /\ Js.map_string f s1 = a /\ Js.map_string f s2 = b.
Proof.
  revert s. induction a as [|c a IH]; intros s; simpl.
  - intros H. by exists EmptyString, s.
  - destruct s as [|d s]; [done|]. simpl. intros [= Hc Hs].
    destruct (IH s Hs) as (s1 & s2 & -> & H1 & H2).
    exists (String d s1), s2. simpl. by rewrite Hc, H1.
Qed.

(** [toLowerCase] then [includes], read on the name itself. *)
Lemma includes_lower_spec (name t : string) :
  Js.includes (Js.toLowerCase name) t = true
  <-> exists pre mid post, name = (pre ++ mid ++ post)%string /\ Js.toLowerCase mid = t.
Proof.
  rewrite includes_spec. unfold Js.toLowerCase. split.
  - intros (a & b & Hab).
    destruct (map_string_split _ _ _ _ Hab) as (pre & rest & -> & _ & Hrest).
    destruct (map_string_split _ _ _ _ Hrest) as (mid & post & -> & Hmid & _).
    by exists pre, mid, post.
  - intros (pre & mid & post & -> & <-).
    exists (Js.map_string Js.lower pre), (Js.map_string Js.lower post).
    by rewrite !map_string_app.
Qed.

Section MoreProducts.

Variable ToNumber_text : JsVal -> JsNumber.

(** What a reshaped product takes from the provider's product. *)
Lemma format_product_returned (item : Product) (w w' : World) (formatted : FormattedProduct) :
  format_product ToNumber_text item w = (Returned formatted, w') ->
  id formatted = item_id item
  /\ name formatted = item_name item
  /\ description formatted = Js.or (item_description item) (JStr "")
  /\ features formatted
     = match item_benefits item with
       | Some benefits => benefit_description <$> benefits
       | None => []
       end
  /\ popular formatted = Js.includes (Js.toLowerCase (item_name item)) "pro"
  /\ price formatted = Js.div (ToNumber ToNumber_text (rawAmount (priceData item))) 100
  /\ Js.call_toUpperCase (rawCurrency (priceData item)) = Returned (currency formatted).
Proof.
  unfold format_product. js_run.
  destruct (Js.call_toUpperCase _) as [c|e]; [|done].
  by intros [= <- <-].
Qed.

(** X18.  A reshaped product is marked popular exactly when its name has
    a stretch of three letters that read "pro" once put in lower case,
    wherever it stands and however it is capitalised. *)
Theorem popular_flag (item : Product) (w w' : World) (formatted : FormattedProduct) :
  format_product ToNumber_text item w = (Returned formatted, w') ->
  popular formatted = true
  <-> exists pre mid post,
        item_name item = (pre ++ mid ++ post)%string /\ Js.toLowerCase mid = "pro".
Proof.
  intros Hrun.
  destruct (format_product_returned item w w' formatted Hrun)
    as (_ & _ & _ & _ & -> & _).
  apply includes_lower_spec.
Qed.

(** X19.  A product without a price to read (no [prices], an empty list,
    or [null] in first place) is reshaped without a throw, with price 0
    and currency "USD". *)
Theorem product_without_price (item : Product) (w : World) :
  item_prices item = None
  \/ item_prices item = Some []
  \/ (exists rest, item_prices item = Some (JNull :: rest)) ->
  exists formatted,
    format_product ToNumber_text item w
      = (Returned formatted, with_console w (price_structure item))
    /\ price formatted = Js.num 0
    /\ currency formatted = "USD".
Proof.
  intros Hprices.
  assert (Hnull : priceData item = JNull).
  { unfold priceData. destruct Hprices as [->|[->|[rest ->]]]; done. }
  assert (Hmissing : forall k, missing (priceData item) k) by (intros k; by rewrite Hnull).
  destruct (format_product_returns ToNumber_text item w) as (formatted & Hrun & Hprice & Hcur).
  { split; left; apply Hmissing. }
  exists formatted. split; [exact Hrun|]. split.
  - rewrite Hprice, (rawAmount_default _ (Hmissing _) (Hmissing _)). exact zero_cents.
  - by rewrite (Hcur "usd" (rawCurrency_default _ (Hmissing _) (Hmissing _))).
Qed.

(** X20.  In a price object, [null] counts as a missing amount and any
    falsy value (null, the empty string) as a missing currency: the amount
    then comes from [priceAmount], or is 0, and the currency from
    [priceCurrency], or is "USD". *)
Theorem null_and_empty_count_as_missing
    (item : Product) (w w' : World) (formatted : FormattedProduct) :
  format_product ToNumber_text item w = (Returned formatted, w') ->
  let p := priceData item in
  (Js.opt_prop p "price_amount" = JNull ->
   (forall n, Js.opt_prop p "priceAmount" = JNum n -> price formatted = Js.div n 100)
   /\ (Js.nullish (Js.opt_prop p "priceAmount") = true -> price formatted = Js.num 0))
  /\ (Js.truthy (Js.opt_prop p "price_currency") = false ->
     (forall s, s ≠ "" -> Js.opt_prop p "priceCurrency" = JStr s ->
        currency formatted = Js.toUpperCase s)
     /\ (Js.truthy (Js.opt_prop p "priceCurrency") = false -> currency formatted = "USD")).
Proof.
  intros Hrun p.
  destruct (format_product_returned item w w' formatted Hrun)
    as (_ & _ & _ & _ & _ & Hprice & Hcur).
  fold p in Hprice, Hcur. split.
  - intros Hsnake. unfold rawAmount in Hprice. rewrite Hsnake in Hprice. split.
    + intros n Hcamel. by rewrite Hcamel in Hprice.
    + intros Hcamel. rewrite Hprice. cbn [Js.coalesce Js.nullish]. unfold Js.coalesce.
      rewrite Hcamel. exact zero_cents.
  - intros Hsnake. unfold rawCurrency, Js.or in Hcur. rewrite Hsnake in Hcur. split.
    + intros s Hs Hcamel. rewrite Hcamel, (truthy_string s Hs) in Hcur.
      by injection Hcur as <-.
    + intros Hcamel. rewrite Hcamel in Hcur. by injection Hcur as <-.
Qed.

(** One bad currency stops the loop. *)
Lemma format_product_throws (item : Product) (w : World) :
  currency_not_text item ->
  exists e,
    format_product ToNumber_text item w = (Thrown e, with_console w (price_structure item))
    /\ error_name e = "TypeError"
    /\ Js.truthy (error_response e) = false.
Proof.
  intros [Htruthy Hnot]. unfold format_product. js_run.
  unfold rawCurrency, Js.or. rewrite Htruthy, Htruthy.
  destruct (Js.opt_prop (priceData item) "price_currency") eqn:Hc;
    try (eexists; split; [reflexivity|done]); by destruct (Hnot s eq_refl).
Qed.

Lemma format_products_throws (l : list Product) (w : World) :
  Exists currency_not_text l ->
  exists e w',
    format_products ToNumber_text l w = (Thrown e, w')
    /\ calls w' = calls w
    /\ clerk_users w' = clerk_users w
    /\ Js.truthy (error_response e) = false.
Proof.
  revert w. induction l as [|item l IH]; intros w Hl; [by inversion Hl|].
  simpl. unfold bind at 1.
  destruct (format_product ToNumber_text item w) as [[f|e] w1] eqn:Hrun.
  - assert (Hw1 : w1 = with_console w (price_structure item)).
    { revert Hrun. unfold format_product. js_run.
      destruct (Js.call_toUpperCase _); by intros [= _ <-]. }
    inversion Hl as [? ? Hbad|? ? Htail]; subst.
    + destruct (format_product_throws item w Hbad) as (e & He & _). congruence.
    + destruct (IH (with_console w (price_structure item)) Htail)
        as (e & w' & Hrun' & Hcalls & Husers & Hresp).
      exists e, w'. unfold bind at 1. by rewrite Hrun'.
  - revert Hrun. unfold format_product. js_run.
    destruct (Js.call_toUpperCase _) as [c|e0] eqn:Hup; [done|].
    intros [= <- <-]. eexists _, _. split; [reflexivity|].
    split; [done|]. split; [done|].
    revert Hup. destruct (rawCurrency (priceData item)); simpl; by intros [= <-].
Qed.

(** X21.  The listing fails as a whole: when the provider call throws, or
    when a single product has a price whose [price_currency] is there and
    is not text, the answer is 500 with the fixed error text and no
    product is sent, after the one call to the provider. *)
Theorem listing_fails_as_a_whole {B} (req : Request B) (w : World) :
  let failed :=
    exists w',
      get_api_products ToNumber_text req w = (Returned listing_failed, w')
      /\ calls w' = calls w ++ [PolarProductsList true false]
      /\ clerk_users w' = clerk_users w in
  (forall e, faults w (length (calls w)) = Some e -> failed)
  /\ (faults w (length (calls w)) = None ->
     Exists currency_not_text (productsList (polar_products w)) ->
     failed).
Proof.
  intros failed. subst failed. split.
  - intros e Hf.
    unfold get_api_products, polar_products_list, try_catch, provider_call.
    unfold bind at 1. unfold console_log, console_write.
    unfold bind at 1. simpl. rewrite Hf.
    unfold bind, console_error, console_write, ret.
    destruct (Js.truthy (error_response e)); by eexists.
  - intros Hf Hbad.
    unfold get_api_products, polar_products_list, try_catch, provider_call.
    unfold bind at 1. unfold console_log, console_write.
    unfold bind at 1. simpl. rewrite Hf.
    unfold bind at 1. simpl.
    match goal with
    | |- context [bind (format_products _ _) _ ?w0] =>
        destruct (format_products_throws (productsList (polar_products w)) w0 Hbad)
          as (e & w' & Hrun & Hcalls & Husers & Hresp)
    end.
    rewrite (bind_thrown _ _ _ _ _ Hrun).
    unfold bind, console_error, console_write, ret. rewrite Hresp.
    eexists. split; [reflexivity|]. simpl. by rewrite Hcalls, Husers.
Qed.

(** X22.  An empty catalogue is not an error: when the provider's answer
    has no [result], no [items], or an empty list of items, the answer is
    200 with an empty [products] array. *)
Theorem empty_catalogue {B} (req : Request B) (w : World) :
  faults w (length (calls w)) = None ->
  result (polar_products w) = None
  \/ (exists r, result (polar_products w) = Some r
                /\ (items r = None \/ items r = Some [])) ->
  exists w',
    get_api_products ToNumber_text req w
      = (Returned (res_json (JObj {[ "products" := JArr [] ]})), w')
    /\ calls w' = calls w ++ [PolarProductsList true false].
Proof.
  intros Hf Hempty.
  assert (Hl : productsList (polar_products w) = []).
  { unfold productsList. destruct Hempty as [->|(r & -> & [->| ->])]; done. }
  unfold get_api_products, polar_products_list, try_catch, provider_call.
  unfold bind at 1. unfold console_log, console_write.
  unfold bind at 1. simpl. rewrite Hf.
  unfold bind at 1. simpl. rewrite Hl. by eexists.
Qed.

Lemma format_products_in_order (l : list Product) (w w' : World)
    (formattedProducts : list FormattedProduct) :
  format_products ToNumber_text l w = (Returned formattedProducts, w') ->
  id <$> formattedProducts = item_id <$> l
  /\ name <$> formattedProducts = item_name <$> l.
Proof.
  revert w w' formattedProducts. induction l as [|item l IH]; intros w w' fl; cbn [format_products].
  - by intros [= <- _].
  - unfold bind at 1.
    destruct (format_product ToNumber_text item w) as [[f|e] w1] eqn:Hf; [|done].
    unfold bind at 1.
    destruct (format_products ToNumber_text l w1) as [[fl'|e] w2] eqn:Hl; [|done].
    intros [= <- _].
    destruct (format_product_returned item w w1 f Hf) as (Hid & Hname & _).
    destruct (IH w1 w2 fl' Hl) as [Hids Hnames].
    rewrite !fmap_cons. by rewrite Hid, Hname, Hids, Hnames.
Qed.

(** X23.  A successful listing has one entry per product of the provider,
    in the provider's order, each under the product's own id and name. *)
Theorem listing_keeps_order {B} (req : Request B) (w : World) :
  faults w (length (calls w)) = None ->
  Forall currency_typed (productsList (polar_products w)) ->
  exists formattedProducts w',
    get_api_products ToNumber_text req w
      = (Returned (res_json (JObj {[ "products" :=
                                       JArr (formatted_json <$> formattedProducts) ]})), w')
    /\ id <$> formattedProducts = item_id <$> productsList (polar_products w)
    /\ name <$> formattedProducts = item_name <$> productsList (polar_products w).
Proof.
  intros Hf Htyped.
  unfold get_api_products, polar_products_list, try_catch, provider_call.
  unfold bind at 1. unfold console_log, console_write.
  unfold bind at 1. simpl. rewrite Hf.
  unfold bind at 1. simpl.
  match goal with
  | |- context [bind (format_products _ _) _ ?w0] =>
      destruct (format_products_returns ToNumber_text (productsList (polar_products w))
                  w0 Htyped)
        as (fl & w' & Hrun & _ & _);
      destruct (format_products_in_order _ w0 w' fl Hrun) as [Hids Hnames]
  end.
  rewrite (bind_returned _ _ _ _ _ Hrun).
  by exists fl, w'.
Qed.

End MoreProducts.


(* ===================================================================== *)
(** * The further properties at work on concrete requests *)
(* ===================================================================== *)

(** A forged signature is answered with 403: the users are untouched. *)
Lemma webhook_writes_only_when_accepted_witness :
  clerk_users (post_webhook Examples.env Examples.validateEvent
                 (Examples.forged "subscription.active") Examples.world).2
  = clerk_users Examples.world.
Proof.
  destruct (webhook_writes_only_when_accepted Examples.env Examples.validateEvent
              (Examples.forged "subscription.active") Examples.world
              (post_webhook Examples.env Examples.validateEvent
                 (Examples.forged "subscription.active") Examples.world).2
              (res_status_send 403 "")) as [H _]; [discriminate|].
  apply H. reflexivity.
Defined.

(** Signed events that name no checkout. *)
Lemma webhook_missing_checkout_reference_witness :
  post_webhook Examples.env Scenarios.validateEvent
    (Examples.signed "active-bare") Examples.world
  = (Returned (res_status_send 202 ""),
     with_console Examples.world
       (received {| type := "subscription.active"; data := Scenarios.bare_subscription |}))
  /\ post_webhook Examples.env Scenarios.validateEvent
       (Examples.signed "revoked-bare") Examples.world
     = (Returned (res_status_send 202 ""),
        with_console
          (with_console Examples.world
             (received {| type := "subscription.revoked";
                          data := Scenarios.bare_subscription |}))
          no_checkoutId).
Proof.
  split.
  - destruct (webhook_missing_checkout_reference Examples.env Scenarios.validateEvent
                (Examples.signed "active-bare") Examples.world
                {| type := "subscription.active"; data := Scenarios.bare_subscription |})
      as [H _]; [reflexivity..|].
    apply H. reflexivity.
  - destruct (webhook_missing_checkout_reference Examples.env Scenarios.validateEvent
                (Examples.signed "revoked-bare") Examples.world
                {| type := "subscription.revoked"; data := Scenarios.bare_subscription |})
      as [_ H]; [reflexivity..|].
    apply H. reflexivity.
Defined.

(** A signed [subscription.active] event for a checkout that was made
    without an identity. *)
Lemma webhook_checkout_without_identity_witness :
  exists w',
    post_webhook Examples.env Examples.validateEvent
      (Examples.signed "subscription.active") Scenarios.world_anonymous_checkout
      = (Returned (res_status_send 202 ""), w')
    /\ calls w' = [PolarCheckoutsGet (JStr "chk_1")]
    /\ clerk_users w' = clerk_users Examples.world
    /\ last (console w') = Some no_clerk_user_id.
Proof.
  apply (webhook_checkout_without_identity Examples.env Examples.validateEvent
           (Examples.signed "subscription.active") Scenarios.world_anonymous_checkout
           Examples.active_event (JStr "chk_1") (JObj {[ "id" := JStr "chk_1" ]}));
    try reflexivity.
  left; reflexivity.
Defined.

(** The Identity Provider is down when the metadata update of a signed
    [subscription.active] event is sent. *)
Lemma webhook_downstream_failure_witness :
  exists w',
    post_webhook Examples.env Examples.validateEvent
      (Examples.signed "subscription.active")
      (Scenarios.failing_at 1 Examples.NetworkError Examples.world)
      = (Returned (res_status_send 500 "Internal Server Error"), w')
    /\ calls w' = [PolarCheckoutsGet (JStr "chk_1");
                   ClerkUsersUpdateUserMetadata (JStr "user_1")
                     (active_metadata Examples.subscription)]
    /\ clerk_users w' = clerk_users Examples.world.
Proof.
  destruct (webhook_downstream_failure Examples.env Examples.validateEvent
              (Examples.signed "subscription.active")
              (Scenarios.failing_at 1 Examples.NetworkError Examples.world)
              Examples.active_event (JStr "chk_1") Examples.checkout "user_1"
              Examples.NetworkError)
    as [H _]; [first [reflexivity|discriminate]..|].
  apply H; reflexivity.
Defined.

(** A signed body that does not parse, and a signed event without data. *)
Lemma webhook_unusable_event_witness :
  post_webhook Examples.env Scenarios.validateEvent
    (Examples.signed "{") Examples.world
  = (Returned (res_status_send 500 "Internal Server Error"),
     with_console Examples.world (processing_error Scenarios.SyntaxError))
  /\ exists w',
      post_webhook Examples.env Scenarios.validateEvent
        (Examples.signed "active-null") Examples.world
        = (Returned (res_status_send 500 "Internal Server Error"), w')
      /\ calls w' = []
      /\ clerk_users w' = clerk_users Examples.world.
Proof.
  split.
  - destruct (webhook_unusable_event Examples.env Scenarios.validateEvent
                (Examples.signed "{") Examples.world) as [H _].
    apply H; reflexivity.
  - destruct (webhook_unusable_event Examples.env Scenarios.validateEvent
                (Examples.signed "active-null") Examples.world) as [_ H].
    apply (H {| type := "subscription.active"; data := JNull |}); try reflexivity.
    left; reflexivity.
Defined.

(** A signed [subscription.revoked] event for a user without
    [publicMetadata]. *)
Lemma revoked_event_without_prior_subscription_witness :
  exists w',
    post_webhook Examples.env Examples.validateEvent
      (Examples.signed "subscription.revoked") Scenarios.world_new_user
      = (Returned (res_status_send 202 ""), w')
    /\ stored_metadata w' "user_1"
       = Some (JObj {[ "subscriptionId" := JStr "sub_2";
                       "customerId" := JStr "cus_2";
                       "plan" := JStr "free";
                       "status" := JStr "revoked" ]}).
Proof.
  destruct (revoked_event_without_prior_subscription Examples.env Examples.validateEvent
              (Examples.signed "subscription.revoked") Scenarios.world_new_user
              Examples.revoked_event (JStr "chk_1") Examples.checkout "user_1"
              Scenarios.new_user)
    as (updated & w' & Hrun & Hstore & Hfresh & _);
    [first [reflexivity|discriminate]..|].
  exists w'. split; [exact Hrun|].
  rewrite Hstore, Hfresh; reflexivity.
Defined.

(** [user_1] subscribes and is revoked. *)
Lemma active_then_revoked_witness :
  exists w1 w2,
    post_webhook Examples.env Examples.validateEvent
      (Examples.signed "subscription.active") Examples.world
      = (Returned (res_status_send 202 ""), w1)
    /\ post_webhook Examples.env Examples.validateEvent
         (Examples.signed "subscription.revoked") w1
       = (Returned (res_status_send 202 ""), w2)
    /\ stored_metadata w2 "user_1"
       = Some (JObj {[ "subscriptionId" := JStr "sub_2";
                       "customerId" := JStr "cus_2";
                       "plan" := JStr "free";
                       "status" := JStr "revoked" ]}).
Proof.
  apply (active_then_revoked Examples.env Examples.validateEvent
           (Examples.signed "subscription.active")
           (Examples.signed "subscription.revoked") Examples.world
           Examples.active_event Examples.revoked_event
           (JStr "chk_1") Examples.checkout "user_1");
    try reflexivity; try discriminate.
  eexists; reflexivity.
Defined.

(** The same [subscription.revoked] event delivered twice. *)
Lemma redelivery_is_idempotent_witness :
  exists w1 w2,
    post_webhook Examples.env Examples.validateEvent
      (Examples.signed "subscription.revoked") Examples.world
      = (Returned (res_status_send 202 ""), w1)
    /\ post_webhook Examples.env Examples.validateEvent
         (Examples.signed "subscription.revoked") w1
       = (Returned (res_status_send 202 ""), w2)
    /\ clerk_users w2 = clerk_users w1.
Proof.
  apply (redelivery_is_idempotent Examples.env Examples.validateEvent
           (Examples.signed "subscription.revoked") Examples.world
           Examples.revoked_event (JStr "chk_1") Examples.checkout "user_1");
    try reflexivity; try discriminate.
  - right; reflexivity.
  - eexists; reflexivity.
Defined.


(** [user_1], with a customer id on file, asks for the portal. *)
Lemma portal_session_for_subscriber_witness :
  exists w',
    get_api_create_portal_session Scenarios.portal_request Scenarios.world_subscribed
      = (Returned (res_json (JObj {[ "url" := JStr "https://polar.example/portal" ]})), w')
    /\ calls w' = [ClerkUsersGetUser (JStr "user_1");
                   PolarCustomerSessionsCreate (JStr "cus_1")]
    /\ clerk_users w' = clerk_users Scenarios.world_subscribed.
Proof.
  apply (portal_session_for_subscriber Scenarios.portal_request Scenarios.world_subscribed
           "user_1" Scenarios.subscriber);
    first [reflexivity | discriminate].
Defined.

(** [user_1], with metadata but no customer id, asks for the portal. *)
Lemma portal_without_customer_witness :
  get_api_create_portal_session Scenarios.portal_request Examples.world
  = (Returned no_subscription,
     with_call Examples.world (ClerkUsersGetUser (JStr "user_1"))).
Proof.
  apply (portal_without_customer Scenarios.portal_request Examples.world
           "user_1" Examples.user);
    first [reflexivity | discriminate].
Defined.

(** The portal while the providers are down, and while the payments
    provider hands back [null]. *)
Lemma portal_failures_witness :
  (exists w',
     get_api_create_portal_session Scenarios.portal_request Examples.world_down
       = (Returned portal_failed, w')
     /\ calls w' = [ClerkUsersGetUser (JStr "user_1")]
     /\ clerk_users w' = clerk_users Examples.world_down)
  /\ (exists w',
       get_api_create_portal_session Scenarios.portal_request
         (Scenarios.with_customer_session Scenarios.world_subscribed (fun _ => JNull))
         = (Returned portal_failed, w')
       /\ calls w' = [ClerkUsersGetUser (JStr "user_1");
                      PolarCustomerSessionsCreate (JStr "cus_1")]
       /\ clerk_users w' = clerk_users Scenarios.world_subscribed).
Proof.
  split.
  - destruct (portal_failures Scenarios.portal_request Examples.world_down "user_1")
      as [H _]; [first [reflexivity | discriminate]..|].
    apply (H Examples.NetworkError). reflexivity.
  - destruct (portal_failures Scenarios.portal_request
                (Scenarios.with_customer_session Scenarios.world_subscribed
                   (fun _ => JNull)) "user_1")
      as [_ H]; [first [reflexivity | discriminate]..|].
    destruct (H Scenarios.subscriber) as [_ Hnull]; [reflexivity..|].
    apply Hnull; reflexivity.
Defined.

(** [user_1] subscribes, then asks for the portal. *)
Lemma portal_after_subscription_event_witness :
  exists w1 w2,
    post_webhook Examples.env Examples.validateEvent
      (Examples.signed "subscription.active") Examples.world
      = (Returned (res_status_send 202 ""), w1)
    /\ get_api_create_portal_session Scenarios.portal_request w1
       = (Returned (res_json (JObj {[ "url" := JStr "https://polar.example/portal" ]})), w2)
    /\ last (calls w2) = Some (PolarCustomerSessionsCreate (JStr "cus_2")).
Proof.
  apply (portal_after_subscription_event Examples.env Examples.validateEvent
           (Examples.signed "subscription.active") Scenarios.portal_request
           Examples.world Examples.active_event (JStr "chk_1") Examples.checkout "user_1");
    try first [reflexivity | discriminate].
  - left; reflexivity.
  - eexists; reflexivity.
Defined.

(** What reaches the payments provider of the order of [user_1]. *)
Lemma create_checkout_forwards_options_witness :
  exists options r w',
    post_create_checkout Examples.env (Examples.as_user "user_1" Examples.order)
      Examples.world = (r, w')
    /\ calls w' = [PolarCheckoutsCreate options]
    /\ options !! "successUrl"
       = Some (JStr "https://app.example/?payment=success&checkout_id={CHECKOUT_ID}")
    /\ options !! "products" = Some (JArr [JStr "prod_1"]).
Proof.
  destruct (create_checkout_forwards_options Examples.env
              (Examples.as_user "user_1" Examples.order) Examples.world "user_1")
    as (options & r & w' & Hrun & Hcalls & Hurl & _ & Hother);
    [first [reflexivity | discriminate]..|].
  exists options, r, w'. split; [exact Hrun|]. split; [exact Hcalls|].
  split; [exact Hurl|].
  rewrite Hother; [reflexivity|]. intros H.
  repeat (apply elem_of_cons in H; destruct H as [H|H]; [discriminate H|]).
  by apply elem_of_nil in H.
Defined.

(** The payments provider rejects the order of [user_1] as invalid. *)
Lemma create_checkout_provider_errors_witness :
  exists options w',
    post_create_checkout Examples.env (Examples.as_user "user_1" Examples.order)
      (Scenarios.failing_at 0 Scenarios.SDKValidationError Examples.world)
      = (Returned (res_status_json 422
                     (JObj {[ "error" := JStr "Input validation failed";
                              "details" :=
                                JStr "Input validation failed: products: Required" ]})),
         w')
    /\ calls w' = [PolarCheckoutsCreate options].
Proof.
  destruct (create_checkout_provider_errors Examples.env
              (Examples.as_user "user_1" Examples.order)
              (Scenarios.failing_at 0 Scenarios.SDKValidationError Examples.world)
              "user_1")
    as [H _]; [first [reflexivity | discriminate]..|].
  apply (H Scenarios.SDKValidationError); reflexivity.
Defined.

(** "Xtractor Pro" is popular. *)
Lemma popular_flag_witness :
  exists formatted w',
    format_product Examples.ToNumber_text Examples.pro_plan Examples.world
      = (Returned formatted, w')
    /\ popular formatted = true.
Proof.
  do 2 eexists. split; [reflexivity|].
  eapply (popular_flag Examples.ToNumber_text Examples.pro_plan Examples.world);
    [reflexivity|].
  exists "Xtractor ", "Pro", "". split; reflexivity.
Defined.

(** A product without prices. *)
Lemma product_without_price_witness :
  exists formatted,
    format_product Examples.ToNumber_text Scenarios.free_plan Examples.world
      = (Returned formatted,
         with_console Examples.world (price_structure Scenarios.free_plan))
    /\ price formatted = Js.num 0
    /\ currency formatted = "USD".
Proof.
  apply (product_without_price Examples.ToNumber_text Scenarios.free_plan Examples.world).
  left; reflexivity.
Defined.

(** A price with [null] for the amount and an empty currency in the
    snake-case fields: the camelCase ones are used. *)
Lemma null_and_empty_count_as_missing_witness :
  exists formatted w',
    format_product Examples.ToNumber_text Scenarios.euro_plan Examples.world
      = (Returned formatted, w')
    /\ price formatted = Js.div (Js.num 1900) 100
    /\ currency formatted = "EUR".
Proof.
  do 2 eexists. split; [reflexivity|].
  edestruct (null_and_empty_count_as_missing Examples.ToNumber_text Scenarios.euro_plan
               Examples.world) as [Hamount Hcurrency]; [reflexivity|].
  split.
  - destruct Hamount as [Hcamel _]; [reflexivity|]. apply Hcamel. reflexivity.
  - destruct Hcurrency as [Hcamel _]; [reflexivity|].
    apply (Hcamel "eur"); [discriminate|reflexivity].
Defined.

(** One product with a number for a currency: no product is listed. *)
Lemma listing_fails_as_a_whole_witness :
  exists w',
    get_api_products Examples.ToNumber_text Scenarios.portal_request
      Scenarios.world_broken_catalogue
      = (Returned listing_failed, w')
    /\ calls w' = [PolarProductsList true false]
    /\ clerk_users w' = clerk_users Examples.world.
Proof.
  destruct (listing_fails_as_a_whole Examples.ToNumber_text Scenarios.portal_request
              Scenarios.world_broken_catalogue) as [_ H].
  apply H; [reflexivity|].
  apply Exists_cons_tl, Exists_cons_hd. split; [reflexivity|].
  intros s. discriminate.
Defined.

(** The provider answers without a [result]. *)
Lemma empty_catalogue_witness :
  exists w',
    get_api_products Examples.ToNumber_text Scenarios.portal_request
      Scenarios.world_no_catalogue
      = (Returned (res_json (JObj {[ "products" := JArr [] ]})), w')
    /\ calls w' = [PolarProductsList true false].
Proof.
  apply (empty_catalogue Examples.ToNumber_text Scenarios.portal_request
           Scenarios.world_no_catalogue); [reflexivity|].
  left; reflexivity.
Defined.

(** The catalogue of one product. *)
Lemma listing_keeps_order_witness :
  exists formattedProducts w',
    get_api_products Examples.ToNumber_text Scenarios.portal_request Examples.world
      = (Returned (res_json (JObj {[ "products" :=
                                       JArr (formatted_json <$> formattedProducts) ]})), w')
    /\ id <$> formattedProducts = ["prod_1"]
    /\ name <$> formattedProducts = ["Xtractor Pro"].
Proof.
  apply (listing_keeps_order Examples.ToNumber_text Scenarios.portal_request
           Examples.world); [reflexivity|].
  apply Forall_singleton. split; left; reflexivity.
Defined.
